(** * Roadmap API: authentication and access-control core

    A shallow embedding of [src/app.py] (the Flask application) and of the
    part of [src/config.py] it reads, followed by the properties of the
    authentication and authorization core and of the roadmap views.

    Modelling conventions.
    - Python values are the inductive [pyval]; a [dict] is an association
      list (unique keys, insertion order), a [str] is a Rocq [string] whose
      characters are the code points below 256.  JSON numbers are integers.
    - A Python exception is a value of [exn]; a computation that may raise
      has type [raises A].
    - The process-wide globals [db] and [token_blacklist] are the two fields
      of [State]; a view maps a state to an outcome and a new state.
    - What the application receives from outside (clock, fresh identifiers,
      salts) is the per-request record [Env].
    - The external collaborators (bcrypt, the token verification of
      flask_jwt_extended, the float arithmetic, the [$set] operator of the
      document store) are Variables of the Section [App]. *)

From Stdlib Require Import ZArith String Ascii List Bool Lia.
From stdpp Require Import base gmap strings sets pretty.
Import ListNotations.
Set Warnings "-register-all".
Local Open Scope string_scope.
Local Open Scope Z_scope.

(** ** Python values and exceptions *)

(** Floating point numbers are not computed with: the one float the
    application forms, [completed / total * 100], is kept as a term. *)
Inductive pyfloat : Type :=
| Percentage (completed total : Z).

Inductive pyval : Type :=
| PNone
| PBool (b : bool)
| PInt (n : Z)
| PFloat (f : pyfloat)
| PStr (s : string)
| PList (l : list pyval)
| PDict (d : list (string * pyval))
| PObjectId (hex : string)
| PDatetime (t : Z)
| PBytes (b : string).

Abbreviation dict := (list (string * pyval)).

Inductive exn : Type :=
| TypeError
| AttributeError
| KeyError (k : string)
| InvalidId
| DuplicateKeyError
| WriteError
| BadRequest
| RuntimeError.

(** The error monad of computations that may raise. *)
Definition raises (A : Type) : Type := (exn + A)%type.

#[global] Instance raises_ret : MRet raises := fun A a => inr a.
#[global] Instance raises_bind : MBind raises := fun A B k c =>
  match c with
  | inl e => inl e
  | inr a => k a
  end.

Definition raise {A} (e : exn) : raises A := inl e.

(** ** Strings *)

Definition code (c : ascii) : N := N_of_ascii c.

Definition in_range (lo hi : N) (c : ascii) : bool :=
  ((lo <=? code c) && (code c <=? hi))%N.

Fixpoint chars (s : string) : list ascii :=
  match s with
  | EmptyString => []
  | String c s' => c :: chars s'
  end.

Fixpoint of_chars (l : list ascii) : string :=
  match l with
  | [] => EmptyString
  | c :: l' => String c (of_chars l')
  end.

Definition len (s : string) : Z := Z.of_nat (String.length s).

(** [re.search(cls, s)] for a pattern that is one character class: is there
    a character of the class in [s]? *)
Fixpoint re_search (cls : ascii -> bool) (s : string) : bool :=
  match s with
  | EmptyString => false
  | String c s' => cls c || re_search cls s'
  end.

(** The classes [[A-Z]], [[a-z]], [\d] and the punctuation class of
    [validate_password].  Below code point 256 the decimal digits are
    exactly 0-9. *)
Definition upper_AZ : ascii -> bool := in_range 65 90.
Definition lower_az : ascii -> bool := in_range 97 122.
Definition digit : ascii -> bool := in_range 48 57.

Definition double_quote : ascii := ascii_of_N 34.

Definition punctuation : list ascii :=
  (chars "!@#$%^&*(),.?" ++ [double_quote] ++ chars ":{}|<>")%list.

Definition special (c : ascii) : bool := existsb (Ascii.eqb c) punctuation.

(** [x in s] for strings: [x] occurs as a substring. *)
Fixpoint prefixb (x s : string) : bool :=
  match x, s with
  | EmptyString, _ => true
  | String a x', String b s' => Ascii.eqb a b && prefixb x' s'
  | String _ _, EmptyString => false
  end.

Fixpoint substringb (x s : string) : bool :=
  prefixb x s ||
  match s with
  | EmptyString => false
  | String _ s' => substringb x s'
  end.

(** [str.strip()]: the white space below code point 256 is 9-13, 28-32,
    133 and 160. *)
Definition whitespace (c : ascii) : bool :=
  in_range 9 13 c || in_range 28 32 c || (code c =? 133)%N || (code c =? 160)%N.

Fixpoint lstrip (l : list ascii) : list ascii :=
  match l with
  | [] => []
  | c :: l' => if whitespace c then lstrip l' else l
  end.

Definition strip (s : string) : string :=
  of_chars (rev (lstrip (rev (lstrip (chars s))))).

(** [str.lower()]: A-Z and the capital letters 192-222 (215, the
    multiplication sign, apart) move up by 32. *)
Definition lower_char (c : ascii) : ascii :=
  if in_range 65 90 c || (in_range 192 222 c && negb (code c =? 215)%N)
  then ascii_of_N (code c + 32)
  else c.

Definition lower (s : string) : string := of_chars (map lower_char (chars s)).

(** ** Password validation (app.py, validate_password) *)

(** [len(x)]: defined on strings, lists, dicts and bytes. *)
Definition py_len (v : pyval) : raises Z :=
  match v with
  | PStr s => mret (len s)
  | PBytes b => mret (len b)
  | PList l => mret (Z.of_nat (length l))
  | PDict d => mret (Z.of_nat (length d))
  | _ => raise TypeError
  end.

(** [re.search(pattern, x)] with a string pattern needs a string subject. *)
Definition re_subject (v : pyval) : raises string :=
  match v with
  | PStr s => mret s
  | _ => raise TypeError
  end.

Definition validate_password (password : pyval) : raises (bool * string) :=
  n ← py_len password;
  if n <? 8 then mret (false, "Password must be at least 8 characters long")
  else
    s ← re_subject password;
    if negb (re_search upper_AZ s) then
      mret (false, "Password must contain at least one uppercase letter")
    else if negb (re_search lower_az s) then
      mret (false, "Password must contain at least one lowercase letter")
    else if negb (re_search digit s) then
      mret (false, "Password must contain at least one digit")
    else if negb (re_search special s) then
      mret (false, "Password must contain at least one special character")
    else mret (true, "Password is valid").

(** ** Python operations on values *)

(** Truth value of a Python object ([if not x]). *)
Definition truthy (v : pyval) : bool :=
  match v with
  | PNone => false
  | PBool b => b
  | PInt n => negb (n =? 0)
  | PFloat (Percentage c _) => negb (c =? 0)
  | PStr s => negb (String.eqb s "")
  | PList l => negb (Nat.eqb (length l) 0)
  | PDict d => negb (Nat.eqb (length d) 0)
  | PObjectId _ => true
  | PDatetime _ => true
  | PBytes b => negb (String.eqb b "")
  end.

Fixpoint dict_get (k : string) (d : dict) : option pyval :=
  match d with
  | [] => None
  | (k', v) :: d' => if String.eqb k k' then Some v else dict_get k d'
  end.

Definition dict_has (k : string) (d : dict) : bool :=
  match dict_get k d with
  | Some _ => true
  | None => false
  end.

(** [d[k] = v]: the key keeps its place when present, else goes last. *)
Fixpoint dict_set (k : string) (v : pyval) (d : dict) : dict :=
  match d with
  | [] => [(k, v)]
  | (k', v') :: d' =>
      if String.eqb k k' then (k, v) :: d' else (k', v') :: dict_set k v d'
  end.

(** [d.pop(k, None)], the dictionary that is left. *)
Fixpoint dict_pop (k : string) (d : dict) : dict :=
  match d with
  | [] => []
  | (k', v') :: d' =>
      if String.eqb k k' then d' else (k', v') :: dict_pop k d'
  end.

(** [v == s] for a string [s]. *)
Definition is_str (s : string) (v : pyval) : bool :=
  match v with
  | PStr s' => String.eqb s' s
  | _ => false
  end.

(** [x in c] for a string [x]: key of a dict, element of a list, substring
    of a string; the other values are not containers. *)
Definition py_in (x : string) (c : pyval) : raises bool :=
  match c with
  | PDict d => mret (dict_has x d)
  | PList l => mret (existsb (is_str x) l)
  | PStr s => mret (substringb x s)
  | _ => raise TypeError
  end.

(** [c[k]] for a string [k]. *)
Definition getitem (c : pyval) (k : string) : raises pyval :=
  match c with
  | PDict d =>
      match dict_get k d with
      | Some v => mret v
      | None => raise (KeyError k)
      end
  | _ => raise TypeError
  end.

(** [c.get(k, default)]: only a dict has the method. *)
Definition get_default (c : pyval) (k : string) (default : pyval) : raises pyval :=
  match c with
  | PDict d =>
      match dict_get k d with
      | Some v => mret v
      | None => mret default
      end
  | _ => raise AttributeError
  end.

(** [c[k] = v] for a string [k]. *)
Definition setitem (c : pyval) (k : string) (v : pyval) : raises pyval :=
  match c with
  | PDict d => mret (PDict (dict_set k v d))
  | _ => raise TypeError
  end.

(** [v.strip()] and [v.strip().lower()]: string methods. *)
Definition str_strip (v : pyval) : raises string :=
  match v with
  | PStr s => mret (strip s)
  | _ => raise AttributeError
  end.

(** [for x in v]: the elements of a list, the characters of a string, the
    keys of a dict. *)
Definition py_iter (v : pyval) : raises (list pyval) :=
  match v with
  | PList l => mret l
  | PStr s => mret (map (fun c => PStr (String c EmptyString)) (chars s))
  | PDict d => mret (map (fun kv => PStr (fst kv)) d)
  | _ => raise TypeError
  end.

(** Sequencing a list of computations that may raise, left to right. *)
Fixpoint mapE {A B} (f : A -> raises B) (l : list A) : raises (list B) :=
  match l with
  | [] => mret []
  | a :: l' => b ← f a; bs ← mapE f l'; mret (b :: bs)
  end.

(** Structural equality of values, the equality of stored documents. *)
Fixpoint pyval_eqb (a b : pyval) {struct a} : bool :=
  match a, b with
  | PNone, PNone => true
  | PBool x, PBool y => Bool.eqb x y
  | PInt x, PInt y => x =? y
  | PFloat (Percentage c t), PFloat (Percentage c' t') => (c =? c') && (t =? t')
  | PStr x, PStr y => String.eqb x y
  | PList x, PList y =>
      (fix go (x y : list pyval) : bool :=
         match x, y with
         | [], [] => true
         | u :: x', v :: y' => pyval_eqb u v && go x' y'
         | _, _ => false
         end) x y
  | PDict x, PDict y =>
      (fix go (x y : dict) : bool :=
         match x, y with
         | [], [] => true
         | (j, u) :: x', (k, v) :: y' => String.eqb j k && pyval_eqb u v && go x' y'
         | _, _ => false
         end) x y
  | PObjectId x, PObjectId y => String.eqb x y
  | PDatetime x, PDatetime y => x =? y
  | PBytes x, PBytes y => String.eqb x y
  | _, _ => false
  end.

(** What [jsonify] can serialize: the JSON values and dates; an ObjectId
    or a byte string is refused with a TypeError. *)
Fixpoint serializable (v : pyval) : bool :=
  match v with
  | PList l => forallb serializable l
  | PDict d => forallb (fun kv => serializable (snd kv)) d
  | PObjectId _ => false
  | PBytes _ => false
  | _ => true
  end.

(** ** Identifiers of the document store *)

Definition hex_digit (c : ascii) : bool :=
  digit c || in_range 65 70 c || in_range 97 102 c.

(** [ObjectId(s)]: [s] must be 24 hexadecimal digits; the identifier
    prints in lower case. *)
Definition ObjectId (s : string) : raises string :=
  if Nat.eqb (String.length s) 24 && forallb hex_digit (chars s)
  then mret (lower s)
  else raise InvalidId.

(** ** The document store *)

(** The constants the application's queries compare fields with. *)
Inductive scalar : Type :=
| SBool (b : bool)
| SStr (s : string)
| SObjectId (hex : string).

(** The queries the application sends: [{}], [{field: c}], a conjunction
    of two conditions, [{"$or": [q1, q2]}]. *)
Inductive query : Type :=
| QAll
| QEq (field : string) (c : scalar)
| QAnd (q1 q2 : query)
| QOr (q1 q2 : query).

Definition eq_scalar (c : scalar) (v : pyval) : bool :=
  match c, v with
  | SBool b, PBool b' => Bool.eqb b b'
  | SStr s, PStr s' => String.eqb s s'
  | SObjectId h, PObjectId h' => String.eqb h h'
  | _, _ => false
  end.

(** A field matches a constant when it equals it or is an array with an
    element that does. *)
Definition field_matches (v : option pyval) (c : scalar) : bool :=
  match v with
  | Some (PList l) => existsb (eq_scalar c) l
  | Some x => eq_scalar c x
  | None => false
  end.

Fixpoint matches (q : query) (doc : dict) : bool :=
  match q with
  | QAll => true
  | QEq field c => field_matches (dict_get field doc) c
  | QAnd q1 q2 => matches q1 doc && matches q2 doc
  | QOr q1 q2 => matches q1 doc || matches q2 doc
  end.

Definition collection := list dict.

Definition find (coll : collection) (q : query) : list dict :=
  filter (matches q) coll.

Definition find_one (coll : collection) (q : query) : option dict :=
  List.find (matches q) coll.

(** [delete_one]: the first matching document goes; the count of deleted
    documents comes with the collection that is left. *)
Fixpoint delete_one (coll : collection) (q : query) : collection * Z :=
  match coll with
  | [] => ([], 0)
  | doc :: coll' =>
      if matches q doc then (coll', 1)
      else let '(rest, n) := delete_one coll' q in (doc :: rest, n)
  end.

(** [insert_one]: a document without [_id] gets the identifier the driver
    draws, which no stored document has; a document that brings its own
    [_id] is refused when the [_id] is an array or is already stored.  The
    inserted identifier comes with the new collection. *)
Definition insert_one (coll : collection) (doc : dict) (fresh : string)
  : raises (collection * pyval) :=
  match dict_get "_id" doc with
  | None =>
      mret ((coll ++ [(doc ++ [("_id", PObjectId fresh)])%list])%list,
            PObjectId fresh)
  | Some (PList _) => raise WriteError
  | Some id =>
      if existsb (fun d => match dict_get "_id" d with
                           | Some id' => pyval_eqb id id'
                           | None => false
                           end) coll
      then raise DuplicateKeyError
      else mret ((coll ++ [doc])%list, id)
  end.

(** [update_one]: the first matching document is replaced by what the
    update makes of it. *)
Fixpoint update_one (coll : collection) (q : query) (upd : dict -> raises dict)
  : raises collection :=
  match coll with
  | [] => mret []
  | doc :: coll' =>
      if matches q doc then doc' ← upd doc; mret (doc' :: coll')
      else rest ← update_one coll' q upd; mret (doc :: rest)
  end.

(** ** Tokens, configuration, requests, responses *)

Inductive token_type : Type := access | refresh.

(** A token is its claims and the key it was signed with. *)
Record Token : Type := {
  sub : string;
  role : pyval;
  jti : string;
  type : token_type;
  iat : Z;
  exp : Z;
  key : string
}.

(** config.py: the entries the application reads. *)
Record Config : Type := {
  SECRET_KEY : string;
  JWT_ACCESS_TOKEN_EXPIRES : Z;
  JWT_REFRESH_TOKEN_EXPIRES : Z
}.

(** The values of config.py when the environment sets none. *)
Definition default_config : Config := {|
  SECRET_KEY := "your-secret-key-here";
  JWT_ACCESS_TOKEN_EXPIRES := 3600;
  JWT_REFRESH_TOKEN_EXPIRES := 604800
|}.

(** What one request draws from outside the program: the clock, the
    identifier the driver gives an inserted document, the identifiers of
    the tokens it creates, the salt of [bcrypt.gensalt()]. *)
Record Env : Type := {
  now : Z;
  object_id : string;
  jti_access : string;
  jti_refresh : string;
  salt : string
}.

(** A request: the token of its Authorization header, if any, and what
    [request.get_json()] gives (PNone when there is no JSON body). *)
Record Request : Type := {
  authorization : option Token;
  get_json : raises pyval
}.

(** The body of a response: [jsonify] of a value, with the encoded tokens
    it carries listed by key; the message of a caught exception after its
    prefix; the error response of flask_jwt_extended. *)
Inductive body : Type :=
| Json (v : pyval) (tokens : list (string * Token))
| Failure (prefix : string) (e : exn)
| JwtError.

Record response : Type := {
  status : Z;
  payload : body
}.

Definition respond (code : Z) (b : body) : response :=
  {| status := code; payload := b |}.

(** [jsonify({"error": msg}), code] and [jsonify({"message": msg}), code]. *)
Definition error (msg : string) (code : Z) : response :=
  respond code (Json (PDict [("error", PStr msg)]) []).

Definition message (msg : string) (code : Z) : response :=
  respond code (Json (PDict [("message", PStr msg)]) []).

(** [jsonify] of a dict [v] extended with encoded tokens, which are
    strings. *)
Definition jsonify_with (v : pyval) (tokens : list (string * Token)) : raises body :=
  if serializable v then mret (Json v tokens) else raise TypeError.

Definition jsonify (v : pyval) : raises body := jsonify_with v [].

(** ** The process state *)

Record Database : Type := {
  users : collection;
  roadmaps : collection
}.

(** [db] is None when the connection failed at start-up, which is when
    [mongodb_client] is None; [token_blacklist] is the set of revoked token
    identifiers. *)
Record State : Type := {
  db : option Database;
  token_blacklist : gset string
}.

(** Computations of the application: they read and write the state and
    may raise; what was written before an exception stays written. *)
Definition M (A : Type) : Type := State -> raises A * State.

#[global] Instance M_ret : MRet M := fun A a st => (inr a, st).
#[global] Instance M_bind : MBind M := fun A B k c st =>
  match c st with
  | (inl e, st') => (inl e, st')
  | (inr a, st') => k a st'
  end.

Definition lift {A} (c : raises A) : M A := fun st => (c, st).

(** [try: ... except Exception as e: return jsonify({"error": f"{prefix}: {e}"}), 500] *)
Definition try_except (prefix : string) (c : M response) : M response :=
  fun st =>
    match c st with
    | (inl e, st') => (inr (respond 500 (Failure prefix e)), st')
    | r => r
    end.

(** [if not db: return jsonify({"error": ...}), 503], the test read as
    [db is None]. *)
Definition with_db (k : Database -> M response) : M response :=
  fun st =>
    match db st with
    | None => (inr (error "Database connection not available" 503), st)
    | Some d => k d st
    end.

Definition set_users (us : collection) : M unit :=
  fun st =>
    (inr tt,
     {| db := (fun d => {| users := us; roadmaps := roadmaps d |}) <$> db st;
        token_blacklist := token_blacklist st |}).

Definition set_roadmaps (rs : collection) : M unit :=
  fun st =>
    (inr tt,
     {| db := (fun d => {| users := users d; roadmaps := rs |}) <$> db st;
        token_blacklist := token_blacklist st |}).

(** ** Function calls *)

(** A Python function of the application: it is called with positional
    and keyword arguments (here all strings) while a request is served. *)
Definition pyfunc : Type :=
  list string -> list (string * string) -> Env -> Request -> M response.

Fixpoint assoc (k : string) (l : list (string * string)) : option string :=
  match l with
  | [] => None
  | (k', v) :: l' => if String.eqb k k' then Some v else assoc k l'
  end.

(** Positional arguments fill the parameters from the left; more
    arguments than parameters is a TypeError. *)
Fixpoint positional (params args : list string)
  : raises (list (string * string)) :=
  match args, params with
  | [], _ => mret []
  | a :: args', p :: params' =>
      bound ← positional params' args'; mret ((p, a) :: bound)
  | _ :: _, [] => raise TypeError
  end.

(** A keyword argument must name a parameter (else TypeError, unexpected
    keyword argument) that no argument has filled yet (else TypeError,
    multiple values for the argument). *)
Fixpoint keywords (params : list string) (bound kwargs : list (string * string))
  : raises (list (string * string)) :=
  match kwargs with
  | [] => mret bound
  | (k, v) :: kwargs' =>
      if negb (existsb (String.eqb k) params) then raise TypeError
      else match assoc k bound with
           | Some _ => raise TypeError
           | None => keywords params (bound ++ [(k, v)])%list kwargs'
           end
  end.

(** The arguments of a call of a function with the parameters [params]
    (none has a default) on the positional arguments [args] and the
    keyword arguments [kwargs], in the order of the parameters; a parameter
    left without a value is a TypeError. *)
Definition bind_arguments (params args : list string)
    (kwargs : list (string * string)) : raises (list string) :=
  bound ← positional params args;
  bound' ← keywords params bound kwargs;
  mapE (fun p => match assoc p bound' with
                 | Some v => mret v
                 | None => raise TypeError
                 end) params.

(** [def f(): body], [def f(p): body], ... *)
Definition def0 (body : Env -> Request -> M response) : pyfunc :=
  fun args kwargs e r =>
    vals ← lift (bind_arguments [] args kwargs);
    body e r.

Definition def1 (p : string) (body : string -> Env -> Request -> M response)
  : pyfunc :=
  fun args kwargs e r =>
    vals ← lift (bind_arguments [p] args kwargs);
    match vals with
    | [a] => body a e r
    | _ => lift (raise TypeError)
    end.

Definition def2 (p q : string)
    (body : string -> string -> Env -> Request -> M response) : pyfunc :=
  fun args kwargs e r =>
    vals ← lift (bind_arguments [p; q] args kwargs);
    match vals with
    | [a; b] => body a b e r
    | _ => lift (raise TypeError)
    end.

Definition def3 (p q s : string)
    (body : string -> string -> string -> Env -> Request -> M response)
  : pyfunc :=
  fun args kwargs e r =>
    vals ← lift (bind_arguments [p; q; s] args kwargs);
    match vals with
    | [a; b; c] => body a b c e r
    | _ => lift (raise TypeError)
    end.

(** ** Specification vocabulary *)

(** A string contains a character of a class. *)
Definition contains (cls : ascii -> bool) (s : string) : Prop :=
  exists c, In c (chars s) /\ cls c = true.

(** The role a signup body asks for: [data.get('role', 'user')]. *)
Definition supplied_role (data : dict) : pyval :=
  match dict_get "role" data with
  | Some v => v
  | None => PStr "user"
  end.

(** A computation never takes an identifier out of the revocation set. *)
Definition grows {A} (c : M A) : Prop :=
  forall st, token_blacklist st ⊆ token_blacklist (snd (c st)).

Definition grows_func (f : pyfunc) : Prop :=
  forall args kwargs e r, grows (f args kwargs e r).

(** A computation leaves the state related to the state it found. *)
Definition preserves {A} (R : relation State) (c : M A) : Prop :=
  forall st, R st (snd (c st)).

Definition preserves_func (R : relation State) (f : pyfunc) : Prop :=
  forall args kwargs e r, preserves R (f args kwargs e r).

(** Two states with the same connection, users, roadmaps, revocation set. *)
Definition connected (st : State) : bool :=
  match db st with
  | Some _ => true
  | None => false
  end.

Definition same_connection : relation State :=
  fun st st' => connected st' = connected st.

Definition same_users : relation State :=
  fun st st' => users <$> db st' = users <$> db st.

Definition same_roadmaps : relation State :=
  fun st st' => roadmaps <$> db st' = roadmaps <$> db st.

Definition same_blacklist : relation State :=
  fun st st' => token_blacklist st' = token_blacklist st.

(** The document that [signup] stores for a new user. *)
Definition user_document (username email hashed : string) (user_role : pyval)
    (created : Z) (id : string) : dict :=
  [("username", PStr username); ("email", PStr email);
   ("password", PBytes hashed); ("role", user_role);
   ("created_at", PDatetime created); ("updated_at", PDatetime created);
   ("_id", PObjectId id)].

(** A document of the shape [signup] stores. *)
Definition stored_by_signup (doc : dict) : Prop :=
  exists username email hashed user_role created id,
    doc = user_document username email hashed user_role created id.

(** The users of the store have the shape [signup] gives them, and no two
    of them share a username or an email. *)
Definition users_unique (st : State) : Prop :=
  match db st with
  | None => True
  | Some d =>
      Forall stored_by_signup (users d)
      /\ NoDup (map (dict_get "username") (users d))
      /\ NoDup (map (dict_get "email") (users d))
  end.

(** A node that is a dict with the completion flag off. *)
Definition fresh_node (node : pyval) : Prop :=
  exists fields, node = PDict fields /\ dict_get "completed" fields = Some (PBool false).

(** Whom a stored roadmap is listed to: an admin, and otherwise when it is
    public or its owner asks. *)
Definition visible_to (admin : bool) (owner : string) (roadmap : dict) : bool :=
  admin
  || field_matches (dict_get "is_public" roadmap) (SBool true)
  || field_matches (dict_get "created_by" roadmap) (SObjectId owner).

(** What a listing of the users may show of a stored user: the name, the
    email and the role as stored, the identifier as a string, and no
    password. *)
Definition shown_without_password (user shown : dict) : Prop :=
  dict_get "password" shown = None
  /\ dict_get "username" shown = dict_get "username" user
  /\ dict_get "email" shown = dict_get "email" user
  /\ dict_get "role" shown = dict_get "role" user
  /\ exists id, dict_get "_id" user = Some (PObjectId id)
                /\ dict_get "_id" shown = Some (PStr id).

(** A roadmap of the shape [create_roadmap] stores: it has an owner, an
    ObjectId, and nodes, a list that is not empty, none of them
    completed. *)
Definition stored_by_create (doc : dict) : Prop :=
  exists owner nodes,
    dict_get "created_by" doc = Some (PObjectId owner)
    /\ dict_get "nodes" doc = Some (PList nodes)
    /\ nodes <> []
    /\ Forall fresh_node nodes.

Definition roadmaps_as_created (st : State) : Prop :=
  match db st with
  | None => True
  | Some d => Forall stored_by_create (roadmaps d)
  end.

(** ** Sample collaborators and data

    Concrete collaborators, used to run the application on examples. *)

(** Modelled from the spec: [decode] of 4.2, a token is accepted when its
    signature is by the secret key and it is not expired; flask_jwt_extended
    itself is not part of the sources. *)
Definition spec_decode (secret : string) (t_now : Z) (t : Token) : bool :=
  String.eqb (key t) secret && (t_now <? exp t).

(** The verification of [@jwt_required()] as the application calls it, in
    flask_jwt_extended 4.x, the version whose interface the application
    uses ([get_jwt], [jwt_required()] with parentheses, [additional_claims]):
    without [refresh=True] the decorator verifies the type of the token
    after decoding it and refuses a token of type refresh ("Only
    non-refresh tokens are allowed").  The library is not part of the
    sources. *)
Definition jwt_required_decode (secret : string) (t_now : Z) (t : Token) : bool :=
  spec_decode secret t_now t
  && match type t with
     | access => true
     | refresh => false
     end.

(** A toy hash, the one-character salt and a separator before the
    password, and its check. *)
Definition sample_hashpw (p s : string) : raises string :=
  inr (s +:+ "$" +:+ p).

Definition sample_checkpw (p h : string) : raises bool :=
  match h with
  | String _ (String "$" rest) => inr (String.eqb rest p)
  | _ => inr false
  end.

Definition sample_repr (v : pyval) : string := "<object>".

Definition sample_isoformat (t : Z) : string := pretty t.

Definition sample_set (fields doc : dict) : raises dict :=
  inr (fold_left (fun d kv => dict_set (fst kv) (snd kv) d) fields doc).

Definition alice_id : string := "aaaaaaaaaaaaaaaaaaaaaaaa".
Definition bob_id : string := "bbbbbbbbbbbbbbbbbbbbbbbb".
Definition root_id : string := "cccccccccccccccccccccccc".
Definition roadmap_id_1 : string := "dddddddddddddddddddddddd".

Definition sample_user (id name mail : string) (r : pyval) : dict :=
  [("username", PStr name); ("email", PStr mail);
   ("password", PBytes "s$Valid1Pass!"); ("role", r);
   ("created_at", PDatetime 1000); ("updated_at", PDatetime 1000);
   ("_id", PObjectId id)].

(** Alice's private roadmap. *)
Definition sample_roadmap : dict :=
  [("title", PStr "Rocq"); ("description", PStr "proofs");
   ("category", PStr "logic"); ("difficulty_level", PStr "hard");
   ("nodes", PList [PDict [("id", PInt 1); ("title", PStr "start");
                           ("description", PStr "first"); ("position_x", PInt 0);
                           ("position_y", PInt 0); ("completed", PBool false)]]);
   ("created_by", PObjectId alice_id); ("is_public", PBool false);
   ("tags", PList []); ("created_at", PDatetime 1100);
   ("updated_at", PDatetime 1100); ("_id", PObjectId roadmap_id_1)].

(** A state with three users (Alice was promoted to admin after she
    signed up as a user) and Alice's roadmap; nothing is revoked. *)
Definition sample_state : State := {|
  db := Some {| users := [sample_user alice_id "alice" "alice@example.com" (PStr "admin");
                          sample_user bob_id "bob" "bob@example.com" (PStr "user");
                          sample_user root_id "root" "root@example.com" (PStr "admin")];
                roadmaps := [sample_roadmap] |};
  token_blacklist := ∅
|}.

Definition empty_state : State := {|
  db := Some {| users := []; roadmaps := [] |};
  token_blacklist := ∅
|}.

Definition sample_env : Env := {|
  now := 2000; object_id := "eeeeeeeeeeeeeeeeeeeeeeee";
  jti_access := "jti-5"; jti_refresh := "jti-6"; salt := "s"
|}.

Definition sample_token (id : string) (r : pyval) (j : string) (ty : token_type)
  : Token :=
  {| sub := id; role := r; jti := j; type := ty; iat := 1000;
     exp := match ty with access => 4600 | refresh => 605800 end;
     key := SECRET_KEY default_config |}.

(** Alice's tokens still carry the role she signed up with. *)
Definition alice_access : Token := sample_token alice_id (PStr "user") "jti-1" access.
Definition alice_refresh : Token := sample_token alice_id (PStr "user") "jti-2" refresh.
Definition bob_access : Token := sample_token bob_id (PStr "user") "jti-3" access.
Definition root_access : Token := sample_token root_id (PStr "admin") "jti-4" access.

(** The tokens of a user who is no longer in the store. *)
Definition ghost_id : string := "ffffffffffffffffffffffff".
Definition ghost_access : Token := sample_token ghost_id (PStr "user") "jti-7" access.
Definition ghost_refresh : Token := sample_token ghost_id (PStr "user") "jti-8" refresh.

Definition bearer (t : Token) (json : pyval) : Request :=
  {| authorization := Some t; get_json := inr json |}.

Definition anonymous (json : pyval) : Request :=
  {| authorization := None; get_json := inr json |}.

(** Requests for the examples: signups, logins and a new roadmap whose
    body names an owner and a completed node. *)
Definition mallory_signup : Request :=
  anonymous (PDict [("username", PStr " mallory ");
                    ("email", PStr "Mallory@Example.com ");
                    ("password", PStr "Valid1Pass!");
                    ("role", PStr "admin")]).

Definition mallory_login : Request :=
  anonymous (PDict [("email", PStr "Mallory@Example.com ");
                    ("password", PStr "Valid1Pass!")]).

Definition bob_signup : Request :=
  anonymous (PDict [("username", PStr "bob");
                    ("email", PStr "bob2@example.com");
                    ("password", PStr "Valid1Pass!")]).

Definition weak_signup : Request :=
  anonymous (PDict [("username", PStr "carol");
                    ("email", PStr "carol@example.com");
                    ("password", PStr "short")]).

Definition bob_login : Request :=
  anonymous (PDict [("email", PStr " Bob@Example.com");
                    ("password", PStr "Valid1Pass!")]).

Definition new_roadmap : pyval :=
  PDict [("title", PStr "Flask"); ("description", PStr "views");
         ("category", PStr "web"); ("difficulty_level", PStr "easy");
         ("nodes", PList [PDict [("id", PInt 7); ("title", PStr "routes");
                                 ("description", PStr "rules");
                                 ("position_x", PInt 0); ("position_y", PInt 0);
                                 ("completed", PBool true)]]);
         ("created_by", PStr "alice")].

Definition sample_nodes : list pyval :=
  [PDict [("id", PInt 1); ("completed", PBool true)];
   PDict [("id", PStr "2")];
   PDict [("id", PStr "2"); ("completed", PBool false)]].

(** The store of the sample state. *)
Definition sample_database : Database :=
  {| users := [sample_user alice_id "alice" "alice@example.com" (PStr "admin");
               sample_user bob_id "bob" "bob@example.com" (PStr "user");
               sample_user root_id "root" "root@example.com" (PStr "admin")];
     roadmaps := [sample_roadmap] |}.

(** ** The application (app.py) *)

Section App.

(** The configuration read at start-up. *)
Variable config : Config.

(** flask_jwt_extended: does the token of a request pass the verification
    of [jwt_required()] at the given time (signature, expiry and whatever
    else the library checks)?  The library has no access to
    [token_blacklist]: the application registers no blocklist callback. *)
Variable jwt_verify : Z -> Token -> bool.

(** bcrypt: [hashpw(password, salt)] and [checkpw(password, hashed)]. *)
Variable bcrypt_hashpw : string -> string -> raises string.
Variable bcrypt_checkpw : string -> string -> raises bool.

(** [str(x)] of a value that is neither a string nor an identifier, and
    [datetime.isoformat()]. *)
Variable py_repr : pyval -> string.
Variable isoformat : Z -> string.

(** The document store's [$set]: the document after the fields of the
    update are written to it. *)
Variable mongo_set : dict -> dict -> raises dict.

Definition py_str (v : pyval) : string :=
  match v with
  | PStr s => s
  | PObjectId hex => hex
  | _ => py_repr v
  end.

(** *** Password hashing *)

Definition hash_password (e : Env) (password : pyval) : raises pyval :=
  match password with
  | PStr s => h ← bcrypt_hashpw s (salt e); mret (PBytes h)
  | _ => raise AttributeError
  end.

Definition check_password (password hashed : pyval) : raises bool :=
  match password with
  | PStr s =>
      match hashed with
      | PBytes h => bcrypt_checkpw s h
      | _ => raise TypeError
      end
  | _ => raise AttributeError
  end.

(** *** Token management *)

Definition create_access_token (e : Env) (identity : string) (r : pyval) : Token :=
  {| sub := identity; role := r; jti := jti_access e; type := access;
     iat := now e; exp := now e + JWT_ACCESS_TOKEN_EXPIRES config;
     key := SECRET_KEY config |}.

Definition create_refresh_token (e : Env) (identity : string) (r : pyval) : Token :=
  {| sub := identity; role := r; jti := jti_refresh e; type := refresh;
     iat := now e; exp := now e + JWT_REFRESH_TOKEN_EXPIRES config;
     key := SECRET_KEY config |}.

Definition generate_tokens (e : Env) (user_id : pyval) (r : pyval) : Token * Token :=
  (create_access_token e (py_str user_id) r,
   create_refresh_token e (py_str user_id) r).

Definition revoke_token (j : string) : M unit :=
  fun st =>
    (inr tt, {| db := db st; token_blacklist := {[ j ]} ∪ token_blacklist st |}).

Definition is_token_revoked (jwt_payload : Token) : M bool :=
  fun st => (inr (bool_decide (jti jwt_payload ∈ token_blacklist st)), st).

(** [get_jwt()] and [get_jwt_identity()]: the claims of the verified token
    of the request; a RuntimeError outside a verified request. *)
Definition get_jwt (r : Request) : raises Token :=
  match authorization r with
  | Some t => mret t
  | None => raise RuntimeError
  end.

Definition get_jwt_identity (r : Request) : raises string :=
  t ← get_jwt r; mret (sub t).

(** Modelled from the spec: the response of the library's decorator to a
    request without a token or with one that fails verification (4.5,
    rejected with 401). *)
Definition jwt_rejection : response := respond 401 JwtError.

(** [@jwt_required()] *)
Definition jwt_required (fn : pyfunc) : pyfunc :=
  fun args kwargs e r =>
    match authorization r return M response with
    | Some t =>
        if jwt_verify (now e) t then fn args kwargs e r
        else mret jwt_rejection
    | None => mret jwt_rejection
    end.

(** *** Authentication middleware *)

Definition token_required (f : pyfunc) : pyfunc :=
  jwt_required (fun args kwargs e r =>
    current_user ← lift (get_jwt_identity r);
    claims ← lift (get_jwt r);
    revoked ← is_token_revoked claims;
    if (revoked : bool) then mret (error "Token has been revoked" 401)
    else f (current_user :: args) kwargs e r).

Definition admin_required (f : pyfunc) : pyfunc :=
  jwt_required (fun args kwargs e r =>
    claims ← lift (get_jwt r);
    revoked ← is_token_revoked claims;
    if (revoked : bool) then mret (error "Token has been revoked" 401)
    else if negb (is_str "admin" (role claims)) then
      mret (error "Admin access required" 403)
    else f args kwargs e r).

(** *** Views without a resource *)

Definition index : pyfunc :=
  def0 (fun e r =>
    mret (message "Welcome to the Roadmap Flask API with MongoDB" 200)).

Definition health_check : pyfunc :=
  def0 (fun e r st =>
    let db_status := match db st with
                     | Some _ => "healthy"
                     | None => "unhealthy"
                     end in
    (inr (respond 200 (Json (PDict [("status", PStr "healthy");
                                    ("database", PStr db_status);
                                    ("timestamp", PStr (isoformat (now e) +:+ "Z"))])
                          [])),
     st)).

(** *** Roadmap views *)

(** [doc['_id'] = str(doc['_id'])] *)
Definition stringify_id (doc : dict) : raises dict :=
  id ← getitem (PDict doc) "_id";
  mret (dict_set "_id" (PStr (py_str id)) doc).

(** The loop of the listings: [_id] becomes a string, and [created_by]
    when the document has one. *)
Definition stringify_listed (doc : dict) : raises dict :=
  doc1 ← stringify_id doc;
  match dict_get "created_by" doc1 with
  | Some cb => mret (dict_set "created_by" (PStr (py_str cb)) doc1)
  | None => mret doc1
  end.

Definition own_or_public (oid : string) : query :=
  QOr (QEq "is_public" (SBool true)) (QEq "created_by" (SObjectId oid)).

Definition get_roadmaps : pyfunc :=
  token_required (def1 "current_user_id" (fun current_user_id e r =>
    try_except "Failed to fetch roadmaps"
      (with_db (fun d =>
         claims ← lift (get_jwt r);
         oid ← lift (ObjectId current_user_id);
         let query := if is_str "admin" (role claims) then QAll
                      else own_or_public oid in
         listed ← lift (mapE stringify_listed (find (roadmaps d) query));
         b ← lift (jsonify (PDict [("roadmaps", PList (map PDict listed))]));
         mret (respond 200 b))))).

(** [for field in fields: if field not in data: return ...]: the first
    field that [data] lacks. *)
Fixpoint first_missing (fields : list string) (data : pyval)
  : raises (option string) :=
  match fields with
  | [] => mret None
  | field :: fields' =>
      present ← py_in field data;
      if (present : bool) then first_missing fields' data else mret (Some field)
  end.

(** The loop over the nodes of [create_roadmap]: the index of the first
    node that lacks a required field, with the field. *)
Fixpoint first_bad_node (i : nat) (nodes : list pyval)
  : raises (option (nat * string)) :=
  match nodes with
  | [] => mret None
  | node :: nodes' =>
      missing ← first_missing ["id"; "title"; "description"; "position_x";
                               "position_y"] node;
      match missing with
      | Some field => mret (Some (i, field))
      | None => first_bad_node (S i) nodes'
      end
  end.

Definition create_roadmap : pyfunc :=
  token_required (def1 "current_user_id" (fun current_user_id e r =>
    try_except "Failed to create roadmap"
      (with_db (fun d =>
         data ← lift (get_json r);
         if negb (truthy data) then mret (error "No data provided" 400)
         else
           missing ← lift (first_missing ["title"; "description"; "category";
                                          "difficulty_level"; "nodes"] data);
           match missing with
           | Some field => mret (error (field +:+ " is required") 400)
           | None =>
               nodes ← lift (getitem data "nodes");
               match nodes with
               | PList (node :: rest) =>
                   bad ← lift (first_bad_node 0 (node :: rest));
                   match bad with
                   | Some (i, field) =>
                       mret (error ("Node " +:+ pretty i +:+
                                    " missing required field: " +:+ field) 400)
                   | None =>
                       oid ← lift (ObjectId current_user_id);
                       data1 ← lift (setitem data "created_by" (PObjectId oid));
                       is_public ← lift (get_default data1 "is_public" (PBool false));
                       data2 ← lift (setitem data1 "is_public" is_public);
                       tags ← lift (get_default data2 "tags" (PList []));
                       data3 ← lift (setitem data2 "tags" tags);
                       data4 ← lift (setitem data3 "created_at" (PDatetime (now e)));
                       data5 ← lift (setitem data4 "updated_at" (PDatetime (now e)));
                       nodes' ← lift (mapE (fun n => setitem n "completed" (PBool false))
                                           (node :: rest));
                       data6 ← lift (setitem data5 "nodes" (PList nodes'));
                       match data6 with
                       | PDict doc =>
                           '(coll, id) ← lift (insert_one (roadmaps d) doc (object_id e));
                           _ ← set_roadmaps coll;
                           mret (respond 201
                                   (Json (PDict [("message", PStr "Roadmap created successfully");
                                                 ("id", PStr (py_str id))]) []))
                       | _ => lift (raise TypeError)
                       end
                   end
               | _ => mret (error "Nodes must be a non-empty array" 400)
               end
           end)))).

(** [str(roadmap['created_by']) != current_user_id and
    claims.get('role') != 'admin'] *)
Definition neither_owner_nor_admin (roadmap : dict) (current_user_id : string)
    (claims : Token) : raises bool :=
  cb ← getitem (PDict roadmap) "created_by";
  mret (negb (String.eqb (py_str cb) current_user_id)
        && negb (is_str "admin" (role claims))).

(** The query of [get_roadmap]: the roadmap with the identifier, and for a
    principal who is not an admin only if it is public or their own. *)
Definition get_roadmap_query (claims : Token) (roadmap_id current_user_id : string)
  : raises query :=
  rid ← ObjectId roadmap_id;
  if negb (is_str "admin" (role claims)) then
    oid ← ObjectId current_user_id;
    mret (QAnd (QEq "_id" (SObjectId rid)) (own_or_public oid))
  else mret (QEq "_id" (SObjectId rid)).

(** The body of [get_roadmap]. *)
Definition get_roadmap_body (roadmap_id current_user_id : string)
    (e : Env) (r : Request) : M response :=
  try_except "Failed to fetch roadmap"
    (with_db (fun d =>
       claims ← lift (get_jwt r);
       query ← lift (get_roadmap_query claims roadmap_id current_user_id);
       match find_one (roadmaps d) query with
       | None => mret (error "Roadmap not found or access denied" 404)
       | Some roadmap =>
           roadmap1 ← lift (stringify_id roadmap);
           cb ← lift (getitem (PDict roadmap1) "created_by");
           let roadmap2 := dict_set "created_by" (PStr (py_str cb)) roadmap1 in
           b ← lift (jsonify (PDict [("roadmap", PDict roadmap2)]));
           mret (respond 200 b)
       end)).

Definition get_roadmap : pyfunc :=
  token_required (def2 "roadmap_id" "current_user_id" get_roadmap_body).

(** The body of [update_roadmap]. *)
Definition update_roadmap_body (roadmap_id current_user_id : string)
    (e : Env) (r : Request) : M response :=
  try_except "Failed to update roadmap"
    (with_db (fun d =>
       data ← lift (get_json r);
       if negb (truthy data) then mret (error "No data provided" 400)
       else
         claims ← lift (get_jwt r);
         rid ← lift (ObjectId roadmap_id);
         match find_one (roadmaps d) (QEq "_id" (SObjectId rid)) with
         | None => mret (error "Roadmap not found" 404)
         | Some roadmap =>
             denied ← lift (neither_owner_nor_admin roadmap current_user_id claims);
             if (denied : bool) then
               mret (error "Access denied. Only owner or admin can update roadmap" 403)
             else
               data1 ← lift (setitem data "updated_at" (PDatetime (now e)));
               match data1 with
               | PDict fields =>
                   coll ← lift (update_one (roadmaps d) (QEq "_id" (SObjectId rid))
                                           (mongo_set fields));
                   _ ← set_roadmaps coll;
                   mret (message "Roadmap updated successfully" 200)
               | _ => lift (raise TypeError)
               end
         end)).

Definition update_roadmap : pyfunc :=
  token_required (def2 "roadmap_id" "current_user_id" update_roadmap_body).

(** The body of [delete_roadmap]. *)
Definition delete_roadmap_body (roadmap_id current_user_id : string)
    (e : Env) (r : Request) : M response :=
  try_except "Failed to delete roadmap"
    (with_db (fun d =>
       claims ← lift (get_jwt r);
       rid ← lift (ObjectId roadmap_id);
       match find_one (roadmaps d) (QEq "_id" (SObjectId rid)) with
       | None => mret (error "Roadmap not found" 404)
       | Some roadmap =>
           denied ← lift (neither_owner_nor_admin roadmap current_user_id claims);
           if (denied : bool) then
             mret (error "Access denied. Only owner or admin can delete roadmap" 403)
           else
             _ ← set_roadmaps (fst (delete_one (roadmaps d) (QEq "_id" (SObjectId rid))));
             mret (message "Roadmap deleted successfully" 200)
       end)).

Definition delete_roadmap : pyfunc :=
  token_required (def2 "roadmap_id" "current_user_id" delete_roadmap_body).

(** *** Node views *)

(** [not roadmap.get('is_public', False) and
    str(roadmap['created_by']) != current_user_id and
    claims.get('role') != 'admin'] *)
Definition node_access_denied (roadmap : dict) (current_user_id : string)
    (claims : Token) : raises bool :=
  is_public ← get_default (PDict roadmap) "is_public" (PBool false);
  if truthy is_public then mret false
  else neither_owner_nor_admin roadmap current_user_id claims.

(** The first loop of [toggle_node_completion]: the nodes after the first
    one whose identifier prints as [node_id] had its flag negated, and
    whether there was one. *)
Fixpoint toggle_first (node_id : string) (nodes : list pyval)
  : raises (list pyval * bool) :=
  match nodes with
  | [] => mret ([], false)
  | node :: rest =>
      id ← getitem node "id";
      if String.eqb (py_str id) node_id then
        completed ← get_default node "completed" (PBool false);
        node' ← setitem node "completed" (PBool (negb (truthy completed)));
        mret (node' :: rest, true)
      else
        '(rest', found) ← toggle_first node_id rest;
        mret (node :: rest', found)
  end.

(** The second loop: the first node whose identifier prints as [node_id]. *)
Fixpoint find_node (node_id : string) (nodes : list pyval) : raises pyval :=
  match nodes with
  | [] => mret PNone
  | node :: rest =>
      id ← getitem node "id";
      if String.eqb (py_str id) node_id then mret node
      else find_node node_id rest
  end.

(** The nodes are updated in place: a list keeps the toggled node, and
    what is not a list is iterated over and stored as it was. *)
Definition toggled (nodes : pyval) (items : list pyval) : pyval :=
  match nodes with
  | PList _ => PList items
  | _ => nodes
  end.

(** The body of [toggle_node_completion]. *)
Definition toggle_node_completion_body (roadmap_id node_id current_user_id : string)
    (e : Env) (r : Request) : M response :=
  try_except "Failed to toggle node completion"
    (with_db (fun d =>
       claims ← lift (get_jwt r);
       rid ← lift (ObjectId roadmap_id);
       match find_one (roadmaps d) (QEq "_id" (SObjectId rid)) with
       | None => mret (error "Roadmap not found" 404)
       | Some roadmap =>
           denied ← lift (node_access_denied roadmap current_user_id claims);
           if (denied : bool) then mret (error "Access denied" 403)
           else
             nodes ← lift (get_default (PDict roadmap) "nodes" (PList []));
             items ← lift (py_iter nodes);
             '(items', node_found) ← lift (toggle_first node_id items);
             if negb node_found then mret (error "Node not found" 404)
             else
               coll ← lift (update_one (roadmaps d) (QEq "_id" (SObjectId rid))
                              (mongo_set [("nodes", toggled nodes items');
                                          ("updated_at", PDatetime (now e))]));
               _ ← set_roadmaps coll;
               updated_node ← lift (find_node node_id items');
               b ← lift (jsonify (PDict [("message", PStr "Node completion status updated");
                                         ("node", updated_node)]));
               mret (respond 200 b)
       end)).

Definition toggle_node_completion : pyfunc :=
  token_required
    (def3 "roadmap_id" "node_id" "current_user_id" toggle_node_completion_body).

(** [node.get('completed', False)] as a truth value. *)
Definition completed (node : pyval) : raises bool :=
  c ← get_default node "completed" (PBool false); mret (truthy c).

(** [[node for node in nodes if keep(node)]] *)
Fixpoint filterE (keep : pyval -> raises bool) (nodes : list pyval)
  : raises (list pyval) :=
  match nodes with
  | [] => mret []
  | node :: rest =>
      k ← keep node;
      kept ← filterE keep rest;
      mret (if (k : bool) then node :: kept else kept)
  end.

(** The body of [get_roadmap_progress]. *)
Definition get_roadmap_progress_body (roadmap_id current_user_id : string)
    (e : Env) (r : Request) : M response :=
  try_except "Failed to fetch progress"
    (with_db (fun d =>
       claims ← lift (get_jwt r);
       rid ← lift (ObjectId roadmap_id);
       match find_one (roadmaps d) (QEq "_id" (SObjectId rid)) with
       | None => mret (error "Roadmap not found" 404)
       | Some roadmap =>
           denied ← lift (node_access_denied roadmap current_user_id claims);
           if (denied : bool) then mret (error "Access denied" 403)
           else
             nodes ← lift (get_default (PDict roadmap) "nodes" (PList []));
             total_nodes ← lift (py_len nodes);
             items ← lift (py_iter nodes);
             done_nodes ← lift (filterE completed items);
             let completed_nodes := Z.of_nat (length done_nodes) in
             id ← lift (getitem (PDict roadmap) "_id");
             completed_nodes_list ← lift (filterE completed items);
             pending_nodes_list ←
               lift (filterE (fun n => c ← completed n; mret (negb c)) items);
             let progress_data := PDict [
                    ("roadmap_id", PStr (py_str id));
                    ("total_nodes", PInt total_nodes);
                    ("completed_nodes", PInt completed_nodes);
                    ("progress_percentage",
                     if 0 <? total_nodes
                     then PFloat (Percentage completed_nodes total_nodes)
                     else PInt 0);
                    ("completed_nodes_list", PList completed_nodes_list);
                    ("pending_nodes_list", PList pending_nodes_list)] in
             b ← lift (jsonify (PDict [("progress", progress_data)]));
             mret (respond 200 b)
       end)).

Definition get_roadmap_progress : pyfunc :=
  token_required (def2 "roadmap_id" "current_user_id" get_roadmap_progress_body).

(** *** Admin-only views *)

Definition get_all_roadmaps_admin : pyfunc :=
  admin_required (def0 (fun e r =>
    try_except "Failed to fetch roadmaps"
      (with_db (fun d =>
         listed ← lift (mapE stringify_listed (find (roadmaps d) QAll));
         b ← lift (jsonify (PDict [("roadmaps", PList (map PDict listed))]));
         mret (respond 200 b))))).

Definition force_delete_roadmap : pyfunc :=
  admin_required (def1 "roadmap_id" (fun roadmap_id e r =>
    try_except "Failed to force delete roadmap"
      (with_db (fun d =>
         rid ← lift (ObjectId roadmap_id);
         let '(coll, deleted_count) :=
           delete_one (roadmaps d) (QEq "_id" (SObjectId rid)) in
         _ ← set_roadmaps coll;
         if deleted_count =? 0 then mret (error "Roadmap not found" 404)
         else mret (message "Roadmap force deleted successfully by admin" 200))))).

(** *** Authentication views *)

Definition signup : pyfunc :=
  def0 (fun e r =>
    try_except "Registration failed"
      (with_db (fun d =>
         data ← lift (get_json r);
         if negb (truthy data) then mret (error "No data provided" 400)
         else
           missing ← lift (first_missing ["username"; "email"; "password"] data);
           match missing with
           | Some field => mret (error (field +:+ " is required") 400)
           | None =>
               u ← lift (getitem data "username");
               username ← lift (str_strip u);
               m ← lift (getitem data "email");
               stripped ← lift (str_strip m);
               let email := lower stripped in
               password ← lift (getitem data "password");
               if len username <? 3 then
                 mret (error "Username must be at least 3 characters long" 400)
               else if (len email <? 5) || negb (substringb "@" email) then
                 mret (error "Valid email is required" 400)
               else
                 '(is_valid, password_message) ← lift (validate_password password);
                 if negb is_valid then mret (error password_message 400)
                 else
                   match find_one (users d)
                           (QOr (QEq "username" (SStr username))
                                (QEq "email" (SStr email))) with
                   | Some existing_user =>
                       name ← lift (getitem (PDict existing_user) "username");
                       if is_str username name then
                         mret (error "Username already exists" 409)
                       else mret (error "Email already exists" 409)
                   | None =>
                       hashed_password ← lift (hash_password e password);
                       user_role ← lift (get_default data "role" (PStr "user"));
                       let user_doc :=
                         [("username", PStr username);
                          ("email", PStr email);
                          ("password", hashed_password);
                          ("role", user_role);
                          ("created_at", PDatetime (now e));
                          ("updated_at", PDatetime (now e))] in
                       '(coll, inserted_id) ←
                         lift (insert_one (users d) user_doc (object_id e));
                       _ ← set_users coll;
                       let '(access_token, refresh_token) :=
                         generate_tokens e inserted_id user_role in
                       b ← lift (jsonify_with
                                   (PDict [("message", PStr "User created successfully");
                                           ("user", PDict [("id", PStr (py_str inserted_id));
                                                           ("username", PStr username);
                                                           ("email", PStr email);
                                                           ("role", user_role)])])
                                   [("access_token", access_token);
                                    ("refresh_token", refresh_token)]);
                       mret (respond 201 b)
                   end
           end))).

Definition login : pyfunc :=
  def0 (fun e r =>
    try_except "Login failed"
      (with_db (fun d =>
         data ← lift (get_json r);
         if negb (truthy data) then mret (error "No data provided" 400)
         else
           missing ← lift (first_missing ["email"; "password"] data);
           match missing with
           | Some _ => mret (error "Email and password are required" 400)
           | None =>
               m ← lift (getitem data "email");
               stripped ← lift (str_strip m);
               let email := lower stripped in
               password ← lift (getitem data "password");
               match find_one (users d) (QEq "email" (SStr email)) with
               | None => mret (error "Invalid email or password" 401)
               | Some user =>
                   hashed ← lift (getitem (PDict user) "password");
                   ok ← lift (check_password password hashed);
                   if negb ok then mret (error "Invalid email or password" 401)
                   else
                     id ← lift (getitem (PDict user) "_id");
                     user_role ← lift (getitem (PDict user) "role");
                     let '(access_token, refresh_token) :=
                       generate_tokens e id user_role in
                     name ← lift (getitem (PDict user) "username");
                     mail ← lift (getitem (PDict user) "email");
                     b ← lift (jsonify_with
                                 (PDict [("message", PStr "Login successful");
                                         ("user", PDict [("id", PStr (py_str id));
                                                         ("username", name);
                                                         ("email", mail);
                                                         ("role", user_role)])])
                                 [("access_token", access_token);
                                  ("refresh_token", refresh_token)]);
                     mret (respond 200 b)
               end
           end))).

Definition logout : pyfunc :=
  jwt_required (def0 (fun e r =>
    try_except "Logout failed"
      (claims ← lift (get_jwt r);
       _ ← revoke_token (jti claims);
       mret (message "Successfully logged out" 200)))).

(** [x.isoformat() if user.get(field) else None] *)
Definition isoformat_or_none (user : dict) (field : string) : raises pyval :=
  match dict_get field user with
  | Some v =>
      if truthy v then
        match v with
        | PDatetime t => mret (PStr (isoformat t))
        | _ => raise AttributeError
        end
      else mret PNone
  | None => mret PNone
  end.

Definition get_profile : pyfunc :=
  token_required (def1 "current_user_id" (fun current_user_id e r =>
    try_except "Failed to fetch profile"
      (with_db (fun d =>
         oid ← lift (ObjectId current_user_id);
         match find_one (users d) (QEq "_id" (SObjectId oid)) with
         | None => mret (error "User not found" 404)
         | Some user =>
             id ← lift (getitem (PDict user) "_id");
             name ← lift (getitem (PDict user) "username");
             mail ← lift (getitem (PDict user) "email");
             user_role ← lift (getitem (PDict user) "role");
             created_at ← lift (isoformat_or_none user "created_at");
             updated_at ← lift (isoformat_or_none user "updated_at");
             b ← lift (jsonify (PDict [("user", PDict [("id", PStr (py_str id));
                                                       ("username", name);
                                                       ("email", mail);
                                                       ("role", user_role);
                                                       ("created_at", created_at);
                                                       ("updated_at", updated_at)])]));
             mret (respond 200 b)
         end)))).

Definition refresh_token : pyfunc :=
  jwt_required (def0 (fun e r =>
    try_except "Token refresh failed"
      (current_user ← lift (get_jwt_identity r);
       claims ← lift (get_jwt r);
       with_db (fun d =>
         oid ← lift (ObjectId current_user);
         match find_one (users d) (QEq "_id" (SObjectId oid)) with
         | None => mret (error "User not found" 404)
         | Some user =>
             user_role ← lift (getitem (PDict user) "role");
             let new_access_token := create_access_token e current_user user_role in
             mret (respond 200
                     (Json (PDict [("message", PStr "Token refreshed successfully")])
                           [("access_token", new_access_token)]))
         end)))).

(** The loop of [get_all_users]: [_id] becomes a string and the password
    is dropped. *)
Definition public_user (user : dict) : raises dict :=
  user1 ← stringify_id user; mret (dict_pop "password" user1).

Definition get_all_users : pyfunc :=
  admin_required (def0 (fun e r =>
    try_except "Failed to fetch users"
      (with_db (fun d =>
         listed ← lift (mapE public_user (find (users d) QAll));
         b ← lift (jsonify (PDict [("users", PList (map PDict listed))]));
         mret (respond 200 b))))).

Definition not_found : response := error "Not found" 404.

Definition internal_error : response := error "Internal server error" 500.

(** *** Routing *)

(** The URL rules of the application, each with the variable parts of its
    path; [NoRule] is a request that matches none. *)
Inductive route : Type :=
| GET_index
| GET_health
| GET_roadmaps
| POST_roadmaps
| GET_roadmap (roadmap_id : string)
| PUT_roadmap (roadmap_id : string)
| DELETE_roadmap (roadmap_id : string)
| PUT_toggle (roadmap_id node_id : string)
| GET_progress (roadmap_id : string)
| GET_admin_roadmaps
| DELETE_force (roadmap_id : string)
| POST_signup
| POST_login
| POST_logout
| GET_profile
| POST_refresh
| GET_admin_users
| NoRule.

(** The view function of a rule and the variable parts of the path, which
    Flask passes to the view function as keyword arguments. *)
Definition view_function (rt : route) : option (pyfunc * list (string * string)) :=
  match rt with
  | GET_index => Some (index, [])
  | GET_health => Some (health_check, [])
  | GET_roadmaps => Some (get_roadmaps, [])
  | POST_roadmaps => Some (create_roadmap, [])
  | GET_roadmap rid => Some (get_roadmap, [("roadmap_id", rid)])
  | PUT_roadmap rid => Some (update_roadmap, [("roadmap_id", rid)])
  | DELETE_roadmap rid => Some (delete_roadmap, [("roadmap_id", rid)])
  | PUT_toggle rid nid =>
      Some (toggle_node_completion, [("roadmap_id", rid); ("node_id", nid)])
  | GET_progress rid => Some (get_roadmap_progress, [("roadmap_id", rid)])
  | GET_admin_roadmaps => Some (get_all_roadmaps_admin, [])
  | DELETE_force rid => Some (force_delete_roadmap, [("roadmap_id", rid)])
  | POST_signup => Some (signup, [])
  | POST_login => Some (login, [])
  | POST_logout => Some (logout, [])
  | GET_profile => Some (get_profile, [])
  | POST_refresh => Some (refresh_token, [])
  | GET_admin_users => Some (get_all_users, [])
  | NoRule => None
  end.

(** Serving one request: the view function is called with the variable
    parts as keyword arguments; an exception that leaves it is answered by
    the handler registered for 500 (outside debug mode, where the status is
    500 as well), a request without a rule by the one registered for 404. *)
Definition dispatch (rt : route) (e : Env) (r : Request) (st : State)
  : response * State :=
  match view_function rt with
  | None => (not_found, st)
  | Some (view, view_args) =>
      match view [] view_args e r st with
      | (inr resp, st') => (resp, st')
      | (inl _, st') => (internal_error, st')
      end
  end.

(** A run of the server: the requests are served one after the other. *)
Fixpoint serve (requests : list (route * Env * Request)) (st : State) : State :=
  match requests with
  | [] => st
  | (rt, e, r) :: rest => serve rest (snd (dispatch rt e r st))
  end.

(** The rules behind [token_required] or [admin_required]. *)
Definition protected (rt : route) : bool :=
  match rt with
  | GET_roadmaps | POST_roadmaps | GET_roadmap _ | PUT_roadmap _
  | DELETE_roadmap _ | PUT_toggle _ _ | GET_progress _ | GET_admin_roadmaps
  | DELETE_force _ | GET_profile | GET_admin_users => true
  | _ => false
  end.

(** The rules behind [admin_required]. *)
Definition admin_only (rt : route) : bool :=
  match rt with
  | GET_admin_roadmaps | DELETE_force _ | GET_admin_users => true
  | _ => false
  end.

(** The roadmap rules with a variable part in their path. *)
Definition roadmap_rule (rt : route) : bool :=
  match rt with
  | GET_roadmap _ | PUT_roadmap _ | DELETE_roadmap _ | PUT_toggle _ _
  | GET_progress _ => true
  | _ => false
  end.

(** The rules whose views only read: every GET, the login and the
    refresh, and a request without a rule. *)
Definition reading (rt : route) : bool :=
  match rt with
  | GET_index | GET_health | GET_roadmaps | GET_roadmap _ | GET_progress _
  | GET_admin_roadmaps | POST_login | GET_profile | POST_refresh
  | GET_admin_users | NoRule => true
  | _ => false
  end.

(** The rules whose views write roadmaps. *)
Definition writes_roadmaps (rt : route) : bool :=
  match rt with
  | POST_roadmaps | PUT_roadmap _ | DELETE_roadmap _ | PUT_toggle _ _
  | DELETE_force _ => true
  | _ => false
  end.

(** * Properties *)

(** ** The model on small inputs *)

Example strip_lower_email :
  lower (strip " Alice@Example.com ") = "alice@example.com".
Proof. reflexivity. Qed.

Example ObjectId_accepts_24_hex_digits :
  ObjectId "AAAAAAAAAAAAAAAAAAAAAAAA" = inr "aaaaaaaaaaaaaaaaaaaaaaaa"
  /\ ObjectId "abc" = inl InvalidId
  /\ ObjectId "zzzzzzzzzzzzzzzzzzzzzzzz" = inl InvalidId.
Proof. repeat split. Qed.

Example punctuation_has_20_characters :
  length punctuation = 20%nat /\ special "!" = true /\ special ">" = true
  /\ special double_quote = true /\ special "_" = false /\ special "-" = false.
Proof. repeat split. Qed.

(** A view with the identity as its only parameter receives it; so does a
    view without parameters receive nothing. *)
Example bind_identity current_user :
  bind_arguments ["current_user_id"] [current_user] [] = inr [current_user].
Proof. reflexivity. Qed.

Example bind_url_variable roadmap_id :
  bind_arguments ["roadmap_id"] [] [("roadmap_id", roadmap_id)] = inr [roadmap_id].
Proof. reflexivity. Qed.

Example insert_one_refuses_stored_id :
  insert_one [[("_id", PInt 1)]] [("_id", PInt 1); ("title", PStr "again")] "f"
  = inl DuplicateKeyError.
Proof. reflexivity. Qed.

(** ** Password strength *)

Lemma re_search_contains cls s : re_search cls s = true <-> contains cls s.
Proof.
  unfold contains. induction s as [|c s IH]; simpl.
  - split; [discriminate | intros (c & [] & _)].
  - rewrite orb_true_iff, IH. split.
    + intros [H | (c' & Hin & Hc)]; [exists c | exists c']; auto.
    + intros (c' & [<- | Hin] & Hc); [left | right; exists c']; auto.
Qed.

Lemma re_search_not_contains cls s : re_search cls s = false <-> ~ contains cls s.
Proof.
  rewrite <- re_search_contains. destruct (re_search cls s); split; congruence.
Qed.

Lemma special_punctuation c : special c = true <-> In c punctuation.
Proof.
  unfold special. rewrite existsb_exists. split.
  - intros (x & Hin & Heq). apply Ascii.eqb_eq in Heq. now subst.
  - intros Hin. exists c. split; [assumption | apply Ascii.eqb_refl].
Qed.

(** C7: the validator accepts a password exactly when it has at least 8
    characters, an uppercase letter, a lowercase letter, a digit and a
    punctuation character; a rejected password gets the message of the
    first rule that fails, in the order length, uppercase, lowercase,
    digit, symbol; the six passwords of the specification fall as it
    says. *)
Theorem validate_password_first_failing_rule :
  forall p : string,
    (validate_password (PStr p) = inr (true, "Password is valid") <->
       8 <= len p /\ contains upper_AZ p /\ contains lower_az p /\
       contains digit p /\ contains special p)
    /\ (len p < 8 ->
        validate_password (PStr p)
        = inr (false, "Password must be at least 8 characters long"))
    /\ (8 <= len p -> ~ contains upper_AZ p ->
        validate_password (PStr p)
        = inr (false, "Password must contain at least one uppercase letter"))
    /\ (8 <= len p -> contains upper_AZ p -> ~ contains lower_az p ->
        validate_password (PStr p)
        = inr (false, "Password must contain at least one lowercase letter"))
    /\ (8 <= len p -> contains upper_AZ p -> contains lower_az p ->
        ~ contains digit p ->
        validate_password (PStr p)
        = inr (false, "Password must contain at least one digit"))
    /\ (8 <= len p -> contains upper_AZ p -> contains lower_az p ->
        contains digit p -> ~ contains special p ->
        validate_password (PStr p)
        = inr (false, "Password must contain at least one special character"))
    /\ validate_password (PStr "short1!")
       = inr (false, "Password must be at least 8 characters long")
    /\ validate_password (PStr "alllowercase1!")
       = inr (false, "Password must contain at least one uppercase letter")
    /\ validate_password (PStr "ALLUPPER1!")
       = inr (false, "Password must contain at least one lowercase letter")
    /\ validate_password (PStr "NoDigits!")
       = inr (false, "Password must contain at least one digit")
    /\ validate_password (PStr "NoSymbol1")
       = inr (false, "Password must contain at least one special character")
    /\ validate_password (PStr "Valid1Pass!") = inr (true, "Password is valid").
Proof.
  intros p.
  assert (Hv : validate_password (PStr p) =
     if len p <? 8 then inr (false, "Password must be at least 8 characters long")
     else if negb (re_search upper_AZ p) then
       inr (false, "Password must contain at least one uppercase letter")
     else if negb (re_search lower_az p) then
       inr (false, "Password must contain at least one lowercase letter")
     else if negb (re_search digit p) then
       inr (false, "Password must contain at least one digit")
     else if negb (re_search special p) then
       inr (false, "Password must contain at least one special character")
     else inr (true, "Password is valid")).
  { unfold validate_password. simpl. destruct (len p <? 8); reflexivity. }
  rewrite Hv. clear Hv.
  rewrite <- !re_search_contains.
  destruct (Z.ltb_spec (len p) 8) as [Hl | Hl];
    destruct (re_search upper_AZ p) eqn:Hu;
    destruct (re_search lower_az p) eqn:Hlo;
    destruct (re_search digit p) eqn:Hd;
    destruct (re_search special p) eqn:Hs; simpl;
    repeat split; intros; try reflexivity; try discriminate; try lia;
    try congruence; try tauto;
    repeat match goal with H : _ /\ _ |- _ => destruct H end;
    try discriminate; try lia; try congruence.
Qed.

(** ** The revocation set only grows *)

Lemma grows_ret {A} (a : A) : grows (mret a : M A).
Proof. intros st. reflexivity. Qed.

Lemma grows_lift {A} (c : raises A) : grows (lift c).
Proof. intros st. reflexivity. Qed.

Lemma grows_bind {A B} (c : M A) (k : A -> M B) :
  grows c -> (forall a, grows (k a)) -> grows (c ≫= k).
Proof.
  intros Hc Hk st. unfold mbind, M_bind.
  specialize (Hc st). destruct (c st) as [[ex | a] st1]; simpl in *.
  - exact Hc.
  - etransitivity; [exact Hc | apply Hk].
Qed.

Lemma grows_try_except prefix (c : M response) :
  grows c -> grows (try_except prefix c).
Proof.
  intros Hc st. unfold try_except. specialize (Hc st).
  destruct (c st) as [[ex | a] st1]; exact Hc.
Qed.

Lemma grows_with_db (k : Database -> M response) :
  (forall d, grows (k d)) -> grows (with_db k).
Proof.
  intros Hk st. unfold with_db. destruct (db st); [apply Hk | reflexivity].
Qed.

Lemma grows_set_users us : grows (set_users us).
Proof. intros st. reflexivity. Qed.

Lemma grows_set_roadmaps rs : grows (set_roadmaps rs).
Proof. intros st. reflexivity. Qed.

Lemma grows_is_token_revoked t : grows (is_token_revoked t).
Proof. intros st. reflexivity. Qed.

Lemma grows_revoke_token j : grows (revoke_token j).
Proof. intros st. simpl. set_solver. Qed.

(** One step of the proof that a computation only adds to the set: by the
    shape of the computation. *)
Ltac grow_step :=
  match goal with
  | |- grows (mret _) => apply grows_ret
  | |- grows (lift _) => apply grows_lift
  | |- grows (set_users _) => apply grows_set_users
  | |- grows (set_roadmaps _) => apply grows_set_roadmaps
  | |- grows (is_token_revoked _) => apply grows_is_token_revoked
  | |- grows (revoke_token _) => apply grows_revoke_token
  | |- grows (try_except _ _) => apply grows_try_except
  | |- grows (with_db _) => apply grows_with_db; intros ?
  | |- grows (mbind _ _) => apply grows_bind; [| intros ?]
  | |- grows (match ?x with _ => _ end) => destruct x
  | |- grows (let (_, _) := ?x in _) => destruct x
  | H : grows_func ?f |- grows (?f _ _ _ _) => apply H
  end.

Ltac grow := repeat grow_step.

Lemma grows_def0 body : (forall e r, grows (body e r)) -> grows_func (def0 body).
Proof. intros H args kwargs e r. unfold def0. grow. apply H. Qed.

Lemma grows_def1 p body :
  (forall a e r, grows (body a e r)) -> grows_func (def1 p body).
Proof. intros H args kwargs e r. unfold def1. grow; apply H. Qed.

Lemma grows_def2 p q body :
  (forall a b e r, grows (body a b e r)) -> grows_func (def2 p q body).
Proof. intros H args kwargs e r. unfold def2. grow; apply H. Qed.

Lemma grows_def3 p q s body :
  (forall a b c e r, grows (body a b c e r)) -> grows_func (def3 p q s body).
Proof. intros H args kwargs e r. unfold def3. grow; apply H. Qed.

Lemma grows_jwt_required f : grows_func f -> grows_func (jwt_required f).
Proof. intros H args kwargs e r. unfold jwt_required. grow. Qed.

Lemma grows_token_required f : grows_func f -> grows_func (token_required f).
Proof.
  intros H. apply grows_jwt_required. intros args kwargs e r. grow.
Qed.

Lemma grows_admin_required f : grows_func f -> grows_func (admin_required f).
Proof.
  intros H. apply grows_jwt_required. intros args kwargs e r. grow.
Qed.

Ltac grow_func :=
  repeat first
    [ apply grows_token_required | apply grows_admin_required
    | apply grows_jwt_required
    | apply grows_def0; intros ? ? | apply grows_def1; intros ? ? ?
    | apply grows_def2; intros ? ? ? ? | apply grows_def3; intros ? ? ? ? ? ].

Lemma grows_view rt view view_args :
  view_function rt = Some (view, view_args) -> grows_func view.
Proof.
  destruct rt; simpl; intros [= <- <-].
  - unfold index. grow_func. grow.
  - unfold health_check. grow_func. intros st. reflexivity.
  - unfold get_roadmaps. grow_func. grow.
  - unfold create_roadmap. grow_func. grow.
  - unfold get_roadmap. grow_func. unfold get_roadmap_body. grow.
  - unfold update_roadmap. grow_func. unfold update_roadmap_body. grow.
  - unfold delete_roadmap. grow_func. unfold delete_roadmap_body. grow.
  - unfold toggle_node_completion. grow_func.
    unfold toggle_node_completion_body. grow.
  - unfold get_roadmap_progress. grow_func.
    unfold get_roadmap_progress_body. grow.
  - unfold get_all_roadmaps_admin. grow_func. grow.
  - unfold force_delete_roadmap. grow_func. grow.
  - unfold signup. grow_func. grow.
  - unfold login. grow_func. grow.
  - unfold logout. grow_func. grow.
  - unfold get_profile. grow_func. grow.
  - unfold refresh_token. grow_func. grow.
  - unfold get_all_users. grow_func. grow.
Qed.

Lemma dispatch_grows rt e r st :
  token_blacklist st ⊆ token_blacklist (snd (dispatch rt e r st)).
Proof.
  unfold dispatch. destruct (view_function rt) as [[view view_args] |] eqn:Hv.
  - pose proof (grows_view _ _ _ Hv [] view_args e r st) as H.
    destruct (view [] view_args e r st) as [[ex | resp] st']; exact H.
  - reflexivity.
Qed.

Lemma serve_grows requests st :
  token_blacklist st ⊆ token_blacklist (serve requests st).
Proof.
  revert st. induction requests as [| [[rt e] r] rest IH]; intros st; simpl.
  - reflexivity.
  - etransitivity; [apply dispatch_grows | apply IH].
Qed.

(** ** Revocation *)

Lemma is_str_eq s v : is_str s v = true <-> v = PStr s.
Proof.
  destruct v; simpl; try (split; [discriminate | congruence]).
  rewrite String.eqb_eq. split; congruence.
Qed.

Lemma is_str_neq s v : is_str s v = false <-> v <> PStr s.
Proof.
  rewrite <- is_str_eq. destruct (is_str s v); split; congruence.
Qed.

(** A verified token whose identifier is revoked: [token_required] answers
    401 whatever the function it wraps. *)
Lemma token_required_revoked f args kwargs e r st t :
  authorization r = Some t -> jwt_verify (now e) t = true ->
  jti t ∈ token_blacklist st ->
  token_required f args kwargs e r st
  = (inr (error "Token has been revoked" 401), st).
Proof.
  intros Ha Hv Hj. unfold token_required, jwt_required. rewrite Ha, Hv.
  unfold mbind, M_bind, lift, get_jwt_identity, get_jwt, is_token_revoked.
  rewrite Ha. simpl. rewrite bool_decide_true by assumption. reflexivity.
Qed.

Lemma admin_required_revoked f args kwargs e r st t :
  authorization r = Some t -> jwt_verify (now e) t = true ->
  jti t ∈ token_blacklist st ->
  admin_required f args kwargs e r st
  = (inr (error "Token has been revoked" 401), st).
Proof.
  intros Ha Hv Hj. unfold admin_required, jwt_required. rewrite Ha, Hv.
  unfold mbind, M_bind, lift, get_jwt, is_token_revoked.
  rewrite Ha. simpl. rewrite bool_decide_true by assumption. reflexivity.
Qed.

(** A verified token that is not revoked: [token_required] calls the
    function it wraps with the identity as first positional argument. *)
Lemma token_required_passes f args kwargs e r st t :
  authorization r = Some t -> jwt_verify (now e) t = true ->
  jti t ∉ token_blacklist st ->
  token_required f args kwargs e r st = f (sub t :: args) kwargs e r st.
Proof.
  intros Ha Hv Hj. unfold token_required, jwt_required. rewrite Ha, Hv.
  unfold mbind, M_bind, lift, get_jwt_identity, get_jwt, is_token_revoked.
  rewrite Ha. simpl. rewrite bool_decide_false by assumption. reflexivity.
Qed.

Lemma admin_required_passes f args kwargs e r st t :
  authorization r = Some t -> jwt_verify (now e) t = true ->
  jti t ∉ token_blacklist st -> role t = PStr "admin" ->
  admin_required f args kwargs e r st = f args kwargs e r st.
Proof.
  intros Ha Hv Hj Hr. unfold admin_required, jwt_required. rewrite Ha, Hv.
  unfold mbind, M_bind, lift, get_jwt, is_token_revoked.
  rewrite Ha. simpl. rewrite bool_decide_false by assumption.
  rewrite Hr. reflexivity.
Qed.

Lemma admin_required_forbids f args kwargs e r st t :
  authorization r = Some t -> jwt_verify (now e) t = true ->
  jti t ∉ token_blacklist st -> role t <> PStr "admin" ->
  admin_required f args kwargs e r st
  = (inr (error "Admin access required" 403), st).
Proof.
  intros Ha Hv Hj Hr. unfold admin_required, jwt_required. rewrite Ha, Hv.
  unfold mbind, M_bind, lift, get_jwt, is_token_revoked.
  rewrite Ha. simpl. rewrite bool_decide_false by assumption.
  apply is_str_neq in Hr. rewrite Hr. reflexivity.
Qed.

(** The view of a protected rule is [token_required] or [admin_required]
    of a function. *)
Lemma protected_view rt :
  protected rt = true ->
  exists f view_args,
    view_function rt = Some (token_required f, view_args) \/
    view_function rt = Some (admin_required f, view_args).
Proof.
  destruct rt; simpl; try discriminate; intros _;
    eexists _, _; (left; reflexivity) || (right; reflexivity).
Qed.

Lemma admin_only_view rt :
  admin_only rt = true ->
  exists f view_args, view_function rt = Some (admin_required f, view_args).
Proof.
  destruct rt; simpl; try discriminate; intros _; eexists _, _; reflexivity.
Qed.

(** C4: once an identifier was passed to [revoke_token], then after any
    further requests a verified token with that identifier is answered 401
    by [token_required] and by [admin_required], whatever the function they
    wrap (it is not called: the answer and the state do not depend on it),
    and so is every request to a protected rule. *)
Theorem revoked_token_rejected_ever_after :
  forall (st : State) (j : string) (requests : list (route * Env * Request))
         (f : pyfunc) (args : list string) (kwargs : list (string * string))
         (e : Env) (r : Request) (t : Token),
    authorization r = Some t ->
    jti t = j ->
    jwt_verify (now e) t = true ->
    let st' := serve requests (snd (revoke_token j st)) in
    token_required f args kwargs e r st'
    = (inr (error "Token has been revoked" 401), st')
    /\ admin_required f args kwargs e r st'
       = (inr (error "Token has been revoked" 401), st')
    /\ (forall rt, protected rt = true ->
          dispatch rt e r st' = (error "Token has been revoked" 401, st')).
Proof.
  intros st j requests f args kwargs e r t Ha Hj Hv st'.
  assert (Hin : jti t ∈ token_blacklist st').
  { apply (serve_grows requests). rewrite Hj. simpl. set_solver. }
  split; [| split].
  - eapply token_required_revoked; eassumption.
  - eapply admin_required_revoked; eassumption.
  - intros rt Hp. destruct (protected_view rt Hp) as (g & va & [Hg | Hg]);
      unfold dispatch; rewrite Hg.
    + erewrite token_required_revoked by eassumption. reflexivity.
    + erewrite admin_required_revoked by eassumption. reflexivity.
Qed.

(** ** Admin-only operations *)

(** C9: for an authenticated principal (a verified token that is not
    revoked), [admin_required] calls the function it wraps when the role
    claim is admin, and answers 403 without calling it when it is not;
    every admin-only rule is [admin_required] of its view, so that a
    principal who is not admin gets 403 there whatever the store holds. *)
Theorem admin_required_allows_exactly_admin :
  forall (f : pyfunc) (args : list string) (kwargs : list (string * string))
         (e : Env) (r : Request) (st : State) (t : Token),
    authorization r = Some t ->
    jwt_verify (now e) t = true ->
    jti t ∉ token_blacklist st ->
    (role t = PStr "admin" ->
       admin_required f args kwargs e r st = f args kwargs e r st)
    /\ (role t <> PStr "admin" ->
          admin_required f args kwargs e r st
          = (inr (error "Admin access required" 403), st))
    /\ (forall rt, admin_only rt = true ->
          (exists g view_args,
             view_function rt = Some (admin_required g, view_args))
          /\ (role t <> PStr "admin" ->
                dispatch rt e r st = (error "Admin access required" 403, st))).
Proof.
  intros f args kwargs e r st t Ha Hv Hj. split; [| split].
  - intros Hr. eapply admin_required_passes; eassumption.
  - intros Hr. eapply admin_required_forbids; eassumption.
  - intros rt Hrt. split; [apply admin_only_view; assumption |].
    intros Hr. destruct (admin_only_view rt Hrt) as (g & va & Hg).
    unfold dispatch. rewrite Hg.
    erewrite admin_required_forbids by eassumption. reflexivity.
Qed.

(** ** The revocation registry *)

Lemma logout_revokes e r st t :
  authorization r = Some t -> jwt_verify (now e) t = true ->
  dispatch POST_logout e r st
  = (message "Successfully logged out" 200,
     {| db := db st; token_blacklist := {[ jti t ]} ∪ token_blacklist st |}).
Proof.
  intros Ha Hv. unfold dispatch. simpl. unfold logout, jwt_required.
  rewrite Ha, Hv. unfold def0, try_except, mbind, M_bind, lift, get_jwt.
  rewrite Ha. reflexivity.
Qed.

(** C10: revoking twice leaves the state that revoking once leaves; after
    [revoke_token] the identifier is revoked; logout revokes the identifier
    of the token it is called with; and no request takes an identifier out
    of the set, so a revoked identifier stays revoked after any sequence of
    requests. *)
Theorem revoke_idempotent_and_monotone :
  forall (st : State) (j : string),
    snd (revoke_token j (snd (revoke_token j st))) = snd (revoke_token j st)
    /\ (forall t, jti t = j ->
          is_token_revoked t (snd (revoke_token j st))
          = (inr true, snd (revoke_token j st)))
    /\ (forall e r t, authorization r = Some t -> jwt_verify (now e) t = true ->
          jti t = j -> j ∈ token_blacklist (snd (dispatch POST_logout e r st)))
    /\ (forall rt e r, j ∈ token_blacklist st ->
          j ∈ token_blacklist (snd (dispatch rt e r st)))
    /\ (forall requests t, jti t = j ->
          is_token_revoked t (serve requests (snd (revoke_token j st)))
          = (inr true, serve requests (snd (revoke_token j st)))).
Proof.
  intros st j. repeat split.
  - simpl. f_equal. rewrite (assoc_L (∪)), union_idemp_L. reflexivity.
  - intros t Ht. unfold is_token_revoked. rewrite bool_decide_true; [reflexivity|].
    rewrite Ht. simpl. set_solver.
  - intros e r t Ha Hv Ht. rewrite (logout_revokes e r st t Ha Hv). simpl.
    rewrite Ht. set_solver.
  - intros rt e r Hin. apply (dispatch_grows rt e r st). exact Hin.
  - intros requests t Ht. unfold is_token_revoked.
    rewrite bool_decide_true; [reflexivity|].
    apply (serve_grows requests). rewrite Ht. simpl. set_solver.
Qed.

(** ** Refresh *)

(** A token that [jwt_required()] refuses never reaches the body of
    [refresh_token]: the answer is the rejection of the decorator whatever
    the store holds, so that no access token is issued and no 404 given,
    and the state is left as it was. *)
Lemma refresh_token_refused e r st t :
  authorization r = Some t ->
  jwt_verify (now e) t = false ->
  dispatch POST_refresh e r st = (jwt_rejection, st).
Proof.
  intros Ha Hv. unfold dispatch. simpl. unfold refresh_token, jwt_required.
  rewrite Ha, Hv. reflexivity.
Qed.

(** The body of [refresh_token], for a token that [jwt_required()] admits:
    when the subject is a user of the store the new access token carries
    the role of the stored user, whatever role the presented token claims;
    when the store has no such user the answer is 404. *)
Lemma refresh_token_issues_current_role :
  forall (e : Env) (r : Request) (st : State) (t : Token) (d : Database)
         (oid : string),
    authorization r = Some t ->
    jwt_verify (now e) t = true ->
    db st = Some d ->
    ObjectId (sub t) = inr oid ->
    (forall user current_role,
       find_one (users d) (QEq "_id" (SObjectId oid)) = Some user ->
       dict_get "role" user = Some current_role ->
       exists new_access_token,
         dispatch POST_refresh e r st
         = (respond 200
              (Json (PDict [("message", PStr "Token refreshed successfully")])
                    [("access_token", new_access_token)]), st)
         /\ role new_access_token = current_role
         /\ sub new_access_token = sub t
         /\ type new_access_token = access)
    /\ (find_one (users d) (QEq "_id" (SObjectId oid)) = None ->
        dispatch POST_refresh e r st = (error "User not found" 404, st)).
Proof.
  intros e r st t d oid Ha Hv Hdb Hoid.
  split.
  - intros user current_role Hf Hr.
    exists (create_access_token e (sub t) current_role).
    split; [| repeat split].
    unfold dispatch. simpl. unfold refresh_token, jwt_required. rewrite Ha, Hv.
    unfold def0, try_except, with_db, mbind, M_bind, lift, get_jwt_identity, get_jwt.
    rewrite Ha. simpl. rewrite Hdb, Hoid, Hf. simpl. rewrite Hr. reflexivity.
  - intros Hf.
    unfold dispatch. simpl. unfold refresh_token, jwt_required. rewrite Ha, Hv.
    unfold def0, try_except, with_db, mbind, M_bind, lift, get_jwt_identity, get_jwt.
    rewrite Ha. simpl. rewrite Hdb, Hoid, Hf. reflexivity.
Qed.

(** ** Login *)

Lemma dict_get_truthy k d v : dict_get k d = Some v -> truthy (PDict d) = true.
Proof. destruct d; [discriminate | reflexivity]. Qed.

Lemma bind_no_arguments : bind_arguments [] [] [] = inr [].
Proof. reflexivity. Qed.

(** Running a view: the monadic plumbing and the operations on values are
    unfolded, the lookups in dictionaries and in the store are kept for the
    hypotheses to rewrite. *)
Ltac run :=
  repeat progress
    (unfold def0, def1, def2, def3, try_except, with_db, dict_has,
            mbind, M_bind, raises_bind, lift, mret, M_ret, raises_ret, raise;
     rewrite ?bind_no_arguments;
     cbn [getitem get_default setitem str_strip py_in dict_has first_missing
          negb fst snd]).

Ltac run_with H := rewrite ?H; run.


(** ** Signup *)

Ltac run_in H :=
  repeat progress
    (unfold def0, def1, def2, def3, try_except, with_db, dict_has,
            mbind, M_bind, raises_bind, lift, mret, M_ret, raises_ret, raise in H;
     rewrite ?bind_no_arguments in H;
     cbn [getitem get_default setitem str_strip py_in dict_has first_missing
          negb fst snd] in H).

(** One case split on the way through a view whose outcome is known: on
    the innermost scrutinee. *)
Ltac split_in H :=
  match type of H with
  | context [match ?x with _ => _ end] =>
      lazymatch x with
      | context [match _ with _ => _ end] => fail
      | _ => destruct x eqn:?
      end
  end.

Lemma insert_one_fresh coll doc fresh :
  dict_get "_id" doc = None ->
  insert_one coll doc fresh
  = inr ((coll ++ [(doc ++ [("_id", PObjectId fresh)])%list])%list, PObjectId fresh).
Proof. intros H. unfold insert_one. rewrite H. reflexivity. Qed.

(** [signup] does not look at the Authorization header. *)
Lemma signup_ignores_authorization e r st auth :
  dispatch POST_signup e {| authorization := auth; get_json := get_json r |} st
  = dispatch POST_signup e r st.
Proof. reflexivity. Qed.

(** C2: a signup that creates a user (201) stores as the user's role the
    value of the body's role field as it is, or user when the body has
    none, and issues tokens with that role; the request needs no
    authentication. *)
Theorem signup_stores_supplied_role :
  forall (e : Env) (r : Request) (st st' : State) (resp : response),
    dispatch POST_signup e r st = (resp, st') ->
    status resp = 201 ->
    exists (data : dict) (d : Database) (username email : string)
           (hashed : pyval),
      get_json r = inr (PDict data)
      /\ db st = Some d
      /\ (let user_doc :=
            [("username", PStr username); ("email", PStr email);
             ("password", hashed); ("role", supplied_role data);
             ("created_at", PDatetime (now e));
             ("updated_at", PDatetime (now e));
             ("_id", PObjectId (object_id e))] in
          st' = {| db := Some {| users := (users d ++ [user_doc])%list;
                                roadmaps := roadmaps d |};
                   token_blacklist := token_blacklist st |}
          /\ dict_get "role" user_doc = Some (supplied_role data))
      /\ (exists v access_token refresh_token,
            payload resp = Json v [("access_token", access_token);
                                   ("refresh_token", refresh_token)]
            /\ role access_token = supplied_role data
            /\ role refresh_token = supplied_role data)
      /\ (forall auth,
            dispatch POST_signup e
              {| authorization := auth; get_json := get_json r |} st
            = (resp, st')).
Proof.
  intros e r st st' resp H Hs.
  pose proof H as H0.
  unfold dispatch, view_function, signup in H. run_in H.
  repeat (split_in H; run_in H;
          try (injection H as <- <-; simpl in Hs; discriminate)).
  destruct p as [| | | | | | data | | |]; try discriminate.
  assert (Hrole : p5 = supplied_role data).
  { unfold get_default in Heqr11. unfold supplied_role.
    destruct (dict_get "role" data); injection Heqr11 as <-; reflexivity. }
  rewrite insert_one_fresh in Heqr12 by reflexivity.
  injection Heqr12 as <- <-.
  unfold set_users in Heqp8. rewrite Heqo in Heqp8. simpl in Heqp8.
  injection Heqp8 as _ <-.
  unfold generate_tokens in Heqp0. injection Heqp0 as <- <-.
  unfold jsonify_with in Heqr14.
  destruct (serializable _) in Heqr14; [| discriminate].
  injection Heqr14 as <-. injection H as <- <-. subst p5.
  exists data, d, s, (lower s0), p4.
  split; [reflexivity |]. split; [reflexivity |].
  split; [split; reflexivity |].
  split; [eexists _, _, _; split; [reflexivity | split; reflexivity] |].
  intros auth. rewrite <- Heqr0. rewrite signup_ignores_authorization.
  exact H0.
Qed.

(** Any string is taken as a role: a body with a valid name, email and
    password, of a user that is not yet stored, creates the user with the
    role it asks for, with or without an Authorization header. *)
Lemma signup_accepts_any_role e st d auth uname mail pw s h :
  db st = Some d ->
  3 <= len (strip uname) ->
  5 <= len (lower (strip mail)) ->
  substringb "@" (lower (strip mail)) = true ->
  validate_password (PStr pw) = inr (true, "Password is valid") ->
  find_one (users d) (QOr (QEq "username" (SStr (strip uname)))
                          (QEq "email" (SStr (lower (strip mail))))) = None ->
  bcrypt_hashpw pw (salt e) = inr h ->
  exists v access_token refresh_token user_doc,
    dispatch POST_signup e
      {| authorization := auth;
         get_json := inr (PDict [("username", PStr uname); ("email", PStr mail);
                                 ("password", PStr pw); ("role", PStr s)]) |} st
    = (respond 201 (Json v [("access_token", access_token);
                            ("refresh_token", refresh_token)]),
       {| db := Some {| users := (users d ++ [user_doc])%list;
                        roadmaps := roadmaps d |};
          token_blacklist := token_blacklist st |})
    /\ dict_get "role" user_doc = Some (PStr s)
    /\ role access_token = PStr s
    /\ role refresh_token = PStr s.
Proof.
  intros Hdb Hu Hm Hat Hpw Hf Hh.
  eexists _, _, _, _.
  unfold dispatch, view_function, signup. run. rewrite Hdb.
  cbn [get_json truthy length Nat.eqb negb]. run.
  cbn [dict_get String.eqb Ascii.eqb Bool.eqb]. run.
  apply Z.ltb_ge in Hu, Hm. rewrite Hu, Hm, Hat. cbn [orb negb].
  rewrite Hpw. run. rewrite Hf. unfold hash_password. run. rewrite Hh. run.
  cbn [dict_get String.eqb Ascii.eqb Bool.eqb]. run.
  rewrite insert_one_fresh by reflexivity. run.
  unfold set_users. rewrite Hdb. unfold generate_tokens, jsonify_with.
  cbn [serializable forallb snd andb fmap option_fmap option_map]. run.
  repeat split.
Qed.

(** ** Refresh and revocation *)

(** [refresh_token] never reads the revocation set: the response to a
    refresh request is the same whatever the set holds. *)
Lemma refresh_token_ignores_token_blacklist e r st blacklist :
  fst (dispatch POST_refresh e r {| db := db st; token_blacklist := blacklist |})
  = fst (dispatch POST_refresh e r st).
Proof.
  unfold dispatch, view_function, refresh_token, jwt_required.
  destruct (authorization r) as [t |] eqn:Ha; [| reflexivity].
  destruct (jwt_verify (now e) t); [| reflexivity].
  run. unfold get_jwt_identity, get_jwt. rewrite Ha. run.
  cbn [db]. destruct (db st) as [d |]; [| reflexivity].
  destruct (ObjectId (sub t)) as [ex | oid]; [reflexivity |].
  destruct (find_one (users d) (QEq "_id" (SObjectId oid))) as [user |];
    [| reflexivity].
  destruct (dict_get "role" user); reflexivity.
Qed.

(** A refresh request with a verified token of a stored user succeeds
    even when the identifier of the token is revoked. *)
Lemma refresh_token_accepts_revoked e r st t d oid user current_role :
  authorization r = Some t ->
  jwt_verify (now e) t = true ->
  jti t ∈ token_blacklist st ->
  db st = Some d ->
  ObjectId (sub t) = inr oid ->
  find_one (users d) (QEq "_id" (SObjectId oid)) = Some user ->
  dict_get "role" user = Some current_role ->
  dispatch POST_refresh e r st
  = (respond 200
       (Json (PDict [("message", PStr "Token refreshed successfully")])
             [("access_token", create_access_token e (sub t) current_role)]),
     st).
Proof.
  intros Ha Hv _ Hdb Hoid Hf Hr.
  unfold dispatch, view_function, refresh_token, jwt_required.
  rewrite Ha, Hv. run. unfold get_jwt_identity, get_jwt. rewrite Ha. run.
  rewrite Hdb, Hoid. run. rewrite Hf. run. rewrite Hr. reflexivity.
Qed.

(** ** Roadmap views: how they are called *)

(** The call that [token_required] makes for a rule with a variable part
    [roadmap_id]: the identity is the first positional argument and takes
    the first parameter, [roadmap_id], which the keyword argument of the
    rule names again. *)
Lemma roadmap_view_arguments_clash current_user roadmap_id :
  bind_arguments ["roadmap_id"; "current_user_id"] [current_user]
                 [("roadmap_id", roadmap_id)]
  = inl TypeError.
Proof. reflexivity. Qed.

Lemma node_view_arguments_clash current_user roadmap_id node_id :
  bind_arguments ["roadmap_id"; "node_id"; "current_user_id"] [current_user]
                 [("roadmap_id", roadmap_id); ("node_id", node_id)]
  = inl TypeError.
Proof. reflexivity. Qed.

(** Had the variable part been passed by position, after the identity,
    the two parameters would hold each other's value. *)
Lemma roadmap_view_arguments_swapped current_user roadmap_id :
  bind_arguments ["roadmap_id"; "current_user_id"] [current_user; roadmap_id] []
  = inr [current_user; roadmap_id].
Proof. reflexivity. Qed.

(** Every request of an authenticated principal to a roadmap rule with a
    variable part ends in the TypeError of the call, answered 500, and
    changes nothing. *)
Lemma roadmap_rule_fails rt e r st t :
  roadmap_rule rt = true ->
  authorization r = Some t ->
  jwt_verify (now e) t = true ->
  jti t ∉ token_blacklist st ->
  dispatch rt e r st = (internal_error, st).
Proof.
  intros Hrt Ha Hv Hj.
  destruct rt; try discriminate; unfold dispatch, view_function;
    [ unfold get_roadmap | unfold update_roadmap | unfold delete_roadmap
    | unfold toggle_node_completion | unfold get_roadmap_progress ];
    rewrite (token_required_passes _ _ _ _ _ _ _ Ha Hv Hj);
    unfold def2, def3;
    rewrite ?roadmap_view_arguments_clash, ?node_view_arguments_clash;
    reflexivity.
Qed.

(** ** Roadmap views: what their bodies decide *)

(** The query of [get_roadmap] admits a roadmap exactly when it has the
    identifier asked for and is public, or created by the principal, or
    the principal's role is admin. *)
Lemma get_roadmap_query_admits claims roadmap_id current_user_id rid uid
    doc i p o :
  ObjectId roadmap_id = inr rid ->
  ObjectId current_user_id = inr uid ->
  dict_get "_id" doc = Some (PObjectId i) ->
  dict_get "is_public" doc = Some (PBool p) ->
  dict_get "created_by" doc = Some (PObjectId o) ->
  exists q,
    get_roadmap_query claims roadmap_id current_user_id = inr q
    /\ (matches q doc = true <->
        i = rid /\ (p = true \/ o = uid \/ role claims = PStr "admin")).
Proof.
  intros Hr Hu Hi Hp Ho. unfold get_roadmap_query. rewrite Hr.
  cbn [mbind raises_bind].
  destruct (is_str "admin" (role claims)) eqn:Ha; cbn [negb].
  - apply is_str_eq in Ha. eexists. split; [reflexivity |].
    cbn [matches]. unfold field_matches. rewrite Hi. cbn [eq_scalar].
    rewrite String.eqb_eq. intuition congruence.
  - apply is_str_neq in Ha. rewrite Hu. eexists. split; [reflexivity |].
    unfold own_or_public. cbn [matches]. unfold field_matches.
    rewrite Hi, Hp, Ho. cbn [eq_scalar].
    rewrite andb_true_iff, orb_true_iff, !String.eqb_eq.
    destruct p; cbn [Bool.eqb]; intuition congruence.
Qed.

(** Called with its parameters by name, the body of [get_roadmap] answers
    404 when its query finds nothing. *)
Lemma get_roadmap_body_hides roadmap_id current_user_id e r st t d q :
  authorization r = Some t ->
  db st = Some d ->
  get_roadmap_query t roadmap_id current_user_id = inr q ->
  find_one (roadmaps d) q = None ->
  get_roadmap_body roadmap_id current_user_id e r st
  = (inr (error "Roadmap not found or access denied" 404), st).
Proof.
  intros Ha Hdb Hq Hf. unfold get_roadmap_body. run. rewrite Hdb.
  unfold get_jwt. rewrite Ha. run. rewrite Hq. run. rewrite Hf. reflexivity.
Qed.

(** ... and 200 with the roadmap when it finds one. *)
Lemma get_roadmap_body_shows roadmap_id current_user_id e r st t d q
    roadmap id cb :
  authorization r = Some t ->
  db st = Some d ->
  get_roadmap_query t roadmap_id current_user_id = inr q ->
  find_one (roadmaps d) q = Some roadmap ->
  dict_get "_id" roadmap = Some id ->
  dict_get "created_by" (dict_set "_id" (PStr (py_str id)) roadmap) = Some cb ->
  serializable
    (PDict (dict_set "created_by" (PStr (py_str cb))
              (dict_set "_id" (PStr (py_str id)) roadmap))) = true ->
  get_roadmap_body roadmap_id current_user_id e r st
  = (inr (respond 200
            (Json (PDict [("roadmap",
                           PDict (dict_set "created_by" (PStr (py_str cb))
                                    (dict_set "_id" (PStr (py_str id)) roadmap)))])
                  [])), st).
Proof.
  intros Ha Hdb Hq Hf Hid Hcb Hs. unfold get_roadmap_body. run. rewrite Hdb.
  unfold get_jwt. rewrite Ha. run. rewrite Hq. run. rewrite Hf.
  unfold stringify_id. run. rewrite Hid. run. rewrite Hcb. run.
  unfold jsonify, jsonify_with.
  cbn [serializable forallb snd andb] in *. rewrite Hs. reflexivity.
Qed.

(** Called with their parameters by name, the bodies of [update_roadmap]
    and [delete_roadmap] answer 403 to a principal who is neither the
    creator nor an admin, and leave the store as it is. *)
Lemma update_roadmap_body_forbids roadmap_id current_user_id e r st t d rid
    data roadmap cb :
  authorization r = Some t ->
  db st = Some d ->
  get_json r = inr data ->
  truthy data = true ->
  ObjectId roadmap_id = inr rid ->
  find_one (roadmaps d) (QEq "_id" (SObjectId rid)) = Some roadmap ->
  dict_get "created_by" roadmap = Some cb ->
  py_str cb <> current_user_id ->
  role t <> PStr "admin" ->
  update_roadmap_body roadmap_id current_user_id e r st
  = (inr (error "Access denied. Only owner or admin can update roadmap" 403), st).
Proof.
  intros Ha Hdb Hj Ht Hr Hf Hcb Hne Hrole. unfold update_roadmap_body. run.
  rewrite Hdb, Hj. run. rewrite Ht. run. unfold get_jwt. rewrite Ha. run.
  rewrite Hr. run. rewrite Hf. unfold neither_owner_nor_admin. run.
  rewrite Hcb. run. apply String.eqb_neq in Hne. apply is_str_neq in Hrole.
  rewrite Hne, Hrole. reflexivity.
Qed.

Lemma delete_roadmap_body_forbids roadmap_id current_user_id e r st t d rid
    roadmap cb :
  authorization r = Some t ->
  db st = Some d ->
  ObjectId roadmap_id = inr rid ->
  find_one (roadmaps d) (QEq "_id" (SObjectId rid)) = Some roadmap ->
  dict_get "created_by" roadmap = Some cb ->
  py_str cb <> current_user_id ->
  role t <> PStr "admin" ->
  delete_roadmap_body roadmap_id current_user_id e r st
  = (inr (error "Access denied. Only owner or admin can delete roadmap" 403), st).
Proof.
  intros Ha Hdb Hr Hf Hcb Hne Hrole. unfold delete_roadmap_body. run.
  rewrite Hdb. unfold get_jwt. rewrite Ha. run.
  rewrite Hr. run. rewrite Hf. unfold neither_owner_nor_admin. run.
  rewrite Hcb. run. apply String.eqb_neq in Hne. apply is_str_neq in Hrole.
  rewrite Hne, Hrole. reflexivity.
Qed.

(** * Further properties of the views *)

(** ** What a request can change *)

Section Preservation.

Variable R : relation State.
Hypothesis R_refl : forall st, R st st.
Hypothesis R_trans : forall st1 st2 st3, R st1 st2 -> R st2 st3 -> R st1 st3.

Lemma preserves_ret {A} (a : A) : preserves R (mret a : M A).
Proof. intros st. apply R_refl. Qed.

Lemma preserves_lift {A} (c : raises A) : preserves R (lift c).
Proof. intros st. apply R_refl. Qed.

Lemma preserves_bind {A B} (c : M A) (k : A -> M B) :
  preserves R c -> (forall a, preserves R (k a)) -> preserves R (c ≫= k).
Proof.
  intros Hc Hk st. unfold mbind, M_bind.
  specialize (Hc st). destruct (c st) as [[ex | a] st1]; simpl in *.
  - exact Hc.
  - eapply R_trans; [exact Hc | apply Hk].
Qed.

Lemma preserves_try_except prefix (c : M response) :
  preserves R c -> preserves R (try_except prefix c).
Proof.
  intros Hc st. unfold try_except. specialize (Hc st).
  destruct (c st) as [[ex | a] st1]; exact Hc.
Qed.

Lemma preserves_with_db (k : Database -> M response) :
  (forall d, preserves R (k d)) -> preserves R (with_db k).
Proof.
  intros Hk st. unfold with_db. destruct (db st); [apply Hk | apply R_refl].
Qed.

Lemma preserves_is_token_revoked t : preserves R (is_token_revoked t).
Proof. intros st. apply R_refl. Qed.

End Preservation.

Lemma same_connection_refl st : same_connection st st.
Proof. reflexivity. Qed.

Lemma same_connection_trans st1 st2 st3 :
  same_connection st1 st2 -> same_connection st2 st3 -> same_connection st1 st3.
Proof. unfold same_connection. congruence. Qed.

Lemma same_users_refl st : same_users st st.
Proof. reflexivity. Qed.

Lemma same_users_trans st1 st2 st3 :
  same_users st1 st2 -> same_users st2 st3 -> same_users st1 st3.
Proof. unfold same_users. congruence. Qed.

Lemma same_roadmaps_refl st : same_roadmaps st st.
Proof. reflexivity. Qed.

Lemma same_roadmaps_trans st1 st2 st3 :
  same_roadmaps st1 st2 -> same_roadmaps st2 st3 -> same_roadmaps st1 st3.
Proof. unfold same_roadmaps. congruence. Qed.

Lemma same_blacklist_refl st : same_blacklist st st.
Proof. reflexivity. Qed.

Lemma same_blacklist_trans st1 st2 st3 :
  same_blacklist st1 st2 -> same_blacklist st2 st3 -> same_blacklist st1 st3.
Proof. unfold same_blacklist. congruence. Qed.

(** The writes of the application, each against the parts it leaves. *)
Lemma set_users_keeps R :
  (R = same_connection \/ R = same_roadmaps \/ R = same_blacklist) ->
  forall us, preserves R (set_users us).
Proof.
  intros [-> | [-> | ->]] us [[d |] bl]; reflexivity.
Qed.

Lemma set_roadmaps_keeps R :
  (R = same_connection \/ R = same_users \/ R = same_blacklist) ->
  forall rs, preserves R (set_roadmaps rs).
Proof.
  intros [-> | [-> | ->]] rs [[d |] bl]; reflexivity.
Qed.

Lemma revoke_token_keeps R :
  (R = same_connection \/ R = same_users \/ R = same_roadmaps) ->
  forall j, preserves R (revoke_token j).
Proof.
  intros [-> | [-> | ->]] j [[d |] bl]; reflexivity.
Qed.

(** One step of a proof that a computation preserves a relation, given
    that the relation is reflexive and transitive and which writes keep
    it. *)
Ltac keep_step Hrefl Htrans :=
  match goal with
  | |- preserves _ (mret _) => apply preserves_ret; exact Hrefl
  | |- preserves _ (lift _) => apply preserves_lift; exact Hrefl
  | |- preserves _ (is_token_revoked _) =>
      apply preserves_is_token_revoked; exact Hrefl
  | |- preserves _ (set_users _) => apply set_users_keeps; solve [auto]
  | |- preserves _ (set_roadmaps _) => apply set_roadmaps_keeps; solve [auto]
  | |- preserves _ (revoke_token _) => apply revoke_token_keeps; solve [auto]
  | |- preserves _ (try_except _ _) => apply preserves_try_except
  | |- preserves _ (with_db _) =>
      apply preserves_with_db; [exact Hrefl | intros ?]
  | |- preserves _ (mbind _ _) =>
      apply preserves_bind; [exact Htrans | | intros ?]
  | |- preserves _ (let _ := _ in _) => cbv zeta
  | |- preserves _ (match ?x with _ => _ end) => destruct x
  | H : preserves_func _ ?f |- preserves _ (?f _ _ _ _) => apply H
  end.

Ltac keep Hrefl Htrans := repeat keep_step Hrefl Htrans.

Section PreservationOfViews.

Variable R : relation State.
Hypothesis R_refl : forall st, R st st.
Hypothesis R_trans : forall st1 st2 st3, R st1 st2 -> R st2 st3 -> R st1 st3.

Lemma preserves_def0 body :
  (forall e r, preserves R (body e r)) -> preserves_func R (def0 body).
Proof. intros H args kwargs e r. unfold def0. keep R_refl R_trans. apply H. Qed.

Lemma preserves_def1 p body :
  (forall a e r, preserves R (body a e r)) -> preserves_func R (def1 p body).
Proof. intros H args kwargs e r. unfold def1. keep R_refl R_trans; apply H. Qed.

Lemma preserves_def2 p q body :
  (forall a b e r, preserves R (body a b e r)) -> preserves_func R (def2 p q body).
Proof. intros H args kwargs e r. unfold def2. keep R_refl R_trans; apply H. Qed.

Lemma preserves_def3 p q s body :
  (forall a b c e r, preserves R (body a b c e r)) ->
  preserves_func R (def3 p q s body).
Proof. intros H args kwargs e r. unfold def3. keep R_refl R_trans; apply H. Qed.

Lemma preserves_jwt_required f :
  preserves_func R f -> preserves_func R (jwt_required f).
Proof.
  intros H args kwargs e r. unfold jwt_required. keep R_refl R_trans.
Qed.

Lemma preserves_token_required f :
  preserves_func R f -> preserves_func R (token_required f).
Proof.
  intros H. apply preserves_jwt_required. intros args kwargs e r.
  keep R_refl R_trans.
Qed.

Lemma preserves_admin_required f :
  preserves_func R f -> preserves_func R (admin_required f).
Proof.
  intros H. apply preserves_jwt_required. intros args kwargs e r.
  keep R_refl R_trans.
Qed.

(** From a view to the request it serves. *)
Lemma preserves_dispatch rt e r :
  (forall view view_args,
     view_function rt = Some (view, view_args) -> preserves_func R view) ->
  forall st, R st (snd (dispatch rt e r st)).
Proof.
  intros H st. unfold dispatch.
  destruct (view_function rt) as [[view view_args] |].
  - specialize (H view view_args eq_refl [] view_args e r st).
    destruct (view [] view_args e r st) as [[ex | resp] st']; exact H.
  - apply R_refl.
Qed.

End PreservationOfViews.

Ltac keep_func Hrefl Htrans :=
  repeat first
    [ apply preserves_token_required
    | apply preserves_admin_required
    | apply preserves_jwt_required
    | apply preserves_def0; [.. | intros ? ?]
    | apply preserves_def1; [.. | intros ? ? ?]
    | apply preserves_def2; [.. | intros ? ? ? ?]
    | apply preserves_def3; [.. | intros ? ? ? ? ?]
    | exact Hrefl
    | exact Htrans ].

Lemma eq_state_trans (st1 st2 st3 : State) : st2 = st1 -> st3 = st2 -> st3 = st1.
Proof. congruence. Qed.

(** The views of the reading rules leave the state as it is. *)
Lemma reading_view rt view view_args :
  reading rt = true ->
  view_function rt = Some (view, view_args) ->
  preserves_func (fun st st' => st' = st) view.
Proof.
  pose proof (fun st : State => eq_refl st) as Hr.
  pose proof eq_state_trans as Ht.
  destruct rt; simpl; try discriminate; intros _ [= <- <-].
  - unfold index. keep_func Hr Ht; keep Hr Ht.
  - unfold health_check. keep_func Hr Ht.
  - unfold get_roadmaps. keep_func Hr Ht; keep Hr Ht.
  - unfold get_roadmap. keep_func Hr Ht; unfold get_roadmap_body; keep Hr Ht.
  - unfold get_roadmap_progress. keep_func Hr Ht;
      unfold get_roadmap_progress_body; keep Hr Ht.
  - unfold get_all_roadmaps_admin. keep_func Hr Ht; keep Hr Ht.
  - unfold login. keep_func Hr Ht; keep Hr Ht.
  - unfold get_profile. keep_func Hr Ht; keep Hr Ht.
  - unfold refresh_token. keep_func Hr Ht; keep Hr Ht.
  - unfold get_all_users. keep_func Hr Ht; keep Hr Ht.
Qed.

(** X1: a GET request, a login, a refresh and a request without a rule
    leave the whole state (store and revocation set) as it is, whatever
    they are answered. *)
Theorem reading_requests_change_nothing :
  forall (rt : route) (e : Env) (r : Request) (st : State),
    reading rt = true ->
    snd (dispatch rt e r st) = st.
Proof.
  intros rt e r st Hrt.
  apply (preserves_dispatch (fun st st' => st' = st)); [reflexivity |].
  intros view view_args Hv. eapply reading_view; eassumption.
Qed.

(** All the views of a rule, unfolded to their bodies. *)
Ltac unfold_views :=
  unfold index, health_check, get_roadmaps, create_roadmap, get_roadmap,
    update_roadmap, delete_roadmap, toggle_node_completion,
    get_roadmap_progress, get_all_roadmaps_admin, force_delete_roadmap,
    signup, login, logout, get_profile, refresh_token, get_all_users.

Ltac unfold_bodies :=
  unfold get_roadmap_body, update_roadmap_body, delete_roadmap_body,
    toggle_node_completion_body, get_roadmap_progress_body.

Ltac keep_view Hr Ht :=
  unfold_views; keep_func Hr Ht; unfold_bodies; keep Hr Ht.

Lemma connection_view rt view view_args :
  view_function rt = Some (view, view_args) ->
  preserves_func same_connection view.
Proof.
  pose proof same_connection_refl as Hr. pose proof same_connection_trans as Ht.
  destruct rt; simpl; intros [= <- <-]; keep_view Hr Ht.
Qed.

Lemma users_view rt view view_args :
  rt <> POST_signup ->
  view_function rt = Some (view, view_args) ->
  preserves_func same_users view.
Proof.
  pose proof same_users_refl as Hr. pose proof same_users_trans as Ht.
  destruct rt; simpl; intros Hrt [= <- <-]; try congruence; keep_view Hr Ht.
Qed.

Lemma roadmaps_view rt view view_args :
  writes_roadmaps rt = false ->
  view_function rt = Some (view, view_args) ->
  preserves_func same_roadmaps view.
Proof.
  pose proof same_roadmaps_refl as Hr. pose proof same_roadmaps_trans as Ht.
  destruct rt; simpl; intros Hrt [= <- <-]; try discriminate; keep_view Hr Ht.
Qed.

Lemma blacklist_view rt view view_args :
  rt <> POST_logout ->
  view_function rt = Some (view, view_args) ->
  preserves_func same_blacklist view.
Proof.
  pose proof same_blacklist_refl as Hr. pose proof same_blacklist_trans as Ht.
  destruct rt; simpl; intros Hrt [= <- <-]; try congruence; keep_view Hr Ht.
Qed.

(** X2: each part of the state has its writers.  No request opens or
    closes the connection to the store; only a signup writes users; only
    the five roadmap rules that create, update, delete or toggle write
    roadmaps; only a logout writes the revocation set. *)
Theorem each_part_has_its_writers :
  forall (rt : route) (e : Env) (r : Request) (st : State),
    connected (snd (dispatch rt e r st)) = connected st
    /\ (rt <> POST_signup ->
        users <$> db (snd (dispatch rt e r st)) = users <$> db st)
    /\ (writes_roadmaps rt = false ->
        roadmaps <$> db (snd (dispatch rt e r st)) = roadmaps <$> db st)
    /\ (rt <> POST_logout ->
        token_blacklist (snd (dispatch rt e r st)) = token_blacklist st).
Proof.
  intros rt e r st. repeat split.
  - apply (preserves_dispatch same_connection); [apply same_connection_refl |].
    intros view view_args Hv. eapply connection_view; eassumption.
  - intros Hrt.
    apply (preserves_dispatch same_users); [apply same_users_refl |].
    intros view view_args Hv. eapply users_view; eassumption.
  - intros Hrt.
    apply (preserves_dispatch same_roadmaps); [apply same_roadmaps_refl |].
    intros view view_args Hv. eapply roadmaps_view; eassumption.
  - intros Hrt.
    apply (preserves_dispatch same_blacklist); [apply same_blacklist_refl |].
    intros view view_args Hv. eapply blacklist_view; eassumption.
Qed.

(** ** Signup *)

(** [validate_password] accepts nothing but a string. *)
Lemma validate_password_accepts v m :
  validate_password v = inr (true, m) ->
  exists s, v = PStr s /\ m = "Password is valid".
Proof.
  unfold validate_password. intros H.
  destruct v; simpl in H; try discriminate;
    repeat match type of H with
           | context [if ?c then _ else _] => destruct c; simpl in H
           end;
    try discriminate.
  injection H as <-. eauto.
Qed.

Lemma str_strip_inr v s : str_strip v = inr s -> exists raw, v = PStr raw /\ s = strip raw.
Proof. destruct v; simpl; try discriminate. intros [= <-]. eauto. Qed.

Lemma getitem_inr c k v :
  getitem c k = inr v -> exists d, c = PDict d /\ dict_get k d = Some v.
Proof.
  destruct c; simpl; try discriminate.
  destruct (dict_get k d) eqn:H; [| discriminate]. intros [= <-]. eauto.
Qed.

Lemma signup_cases e r st resp st' :
  dispatch POST_signup e r st = (resp, st') ->
  (st' = st /\ status resp <> 201)
  \/ exists d data uname mail pw h,
       db st = Some d
       /\ get_json r = inr (PDict data)
       /\ dict_get "username" data = Some (PStr uname)
       /\ dict_get "email" data = Some (PStr mail)
       /\ dict_get "password" data = Some (PStr pw)
       /\ 3 <= len (strip uname)
       /\ 5 <= len (lower (strip mail))
       /\ substringb "@" (lower (strip mail)) = true
       /\ validate_password (PStr pw) = inr (true, "Password is valid")
       /\ find_one (users d)
            (QOr (QEq "username" (SStr (strip uname)))
                 (QEq "email" (SStr (lower (strip mail))))) = None
       /\ bcrypt_hashpw pw (salt e) = inr h
       /\ st' = {| db := Some {| users :=
                                  (users d ++
                                   [user_document (strip uname) (lower (strip mail)) h
                                      (supplied_role data) (now e) (object_id e)])%list;
                                roadmaps := roadmaps d |};
                   token_blacklist := token_blacklist st |}
       /\ ((status resp = 201 /\ serializable (supplied_role data) = true)
           \/ (status resp = 500 /\ serializable (supplied_role data) = false)).
Proof.
  intros H.
  unfold dispatch, view_function, signup in H. run_in H.
  repeat (split_in H; run_in H;
          try solve [injection H as <- <-; left; split;
                     [reflexivity | simpl; discriminate]]).
  all: try (unfold set_users in Heqp8; discriminate).
  all: apply getitem_inr in Heqr4 as (data & -> & Hu);
    apply getitem_inr in Heqr6 as (data1 & [= <-] & Hm);
    apply getitem_inr in Heqr8 as (data2 & [= <-] & Hp);
    apply str_strip_inr in Heqr5 as (uname & -> & ->);
    apply str_strip_inr in Heqr7 as (mail & -> & ->);
    destruct b2; [| discriminate];
    pose proof Heqr9 as Hvp;
    apply validate_password_accepts in Heqr9 as (pw & -> & ->);
    unfold hash_password in Heqr10; run_in Heqr10;
    destruct (bcrypt_hashpw pw (salt e)) as [ex | h] eqn:Hh; [discriminate |];
    injection Heqr10 as <-;
    assert (Hrole : p5 = supplied_role data)
      by (unfold get_default in Heqr11; unfold supplied_role;
          destruct (dict_get "role" data); injection Heqr11 as <-; reflexivity);
    rewrite insert_one_fresh in Heqr12 by reflexivity;
    injection Heqr12 as <- <-;
    unfold set_users in Heqp8; rewrite Heqo in Heqp8; simpl in Heqp8;
    injection Heqp8 as _ <-;
    unfold jsonify_with in Heqr14;
    cbn [serializable forallb snd andb] in Heqr14;
    rewrite !andb_true_r in Heqr14;
    destruct (serializable p5) eqn:Hs; try discriminate;
    subst p5; injection H as <- <-;
    apply Z.ltb_ge in Heqb3; apply orb_false_iff in Heqb4 as [Hl Hat];
    apply Z.ltb_ge in Hl; apply negb_false_iff in Hat;
    right; exists d, data, uname, mail, pw, h;
    repeat (split; [first [reflexivity | assumption] |]).
  - right. split; [reflexivity | assumption].
  - left. split; [reflexivity | assumption].
Qed.

Lemma serializable_dict_get k d v :
  serializable (PDict d) = true -> dict_get k d = Some v -> serializable v = true.
Proof.
  cbn [serializable]. induction d as [| [k' v'] d IH]; cbn [forallb dict_get snd].
  - discriminate.
  - intros H. apply andb_true_iff in H as [Hv Hd].
    destruct (String.eqb k k'); [intros [= <-]; exact Hv | apply IH; exact Hd].
Qed.

Lemma serializable_supplied_role data :
  serializable (PDict data) = true -> serializable (supplied_role data) = true.
Proof.
  intros H. unfold supplied_role. destruct (dict_get "role" data) eqn:Hr.
  - eapply serializable_dict_get; eassumption.
  - reflexivity.
Qed.

(** X3: a signup answered 201 had a body with a string username of at
    least 3 characters once stripped, a string email that, stripped and
    lowered, has at least 5 characters and an at sign, and a string
    password that passes [validate_password]; no stored user matched the
    username or the email; and the one user it adds is stored with the
    normalized name and email and with the bcrypt hash of the password,
    not the password. *)
Theorem signup_validates_normalizes_and_hashes :
  forall (e : Env) (r : Request) (st st' : State) (resp : response),
    dispatch POST_signup e r st = (resp, st') ->
    status resp = 201 ->
    exists d data uname mail pw h,
      db st = Some d
      /\ get_json r = inr (PDict data)
      /\ dict_get "username" data = Some (PStr uname)
      /\ dict_get "email" data = Some (PStr mail)
      /\ dict_get "password" data = Some (PStr pw)
      /\ 3 <= len (strip uname)
      /\ 5 <= len (lower (strip mail))
      /\ substringb "@" (lower (strip mail)) = true
      /\ validate_password (PStr pw) = inr (true, "Password is valid")
      /\ find_one (users d)
           (QOr (QEq "username" (SStr (strip uname)))
                (QEq "email" (SStr (lower (strip mail))))) = None
      /\ bcrypt_hashpw pw (salt e) = inr h
      /\ st' = {| db := Some {| users :=
                                 (users d ++
                                  [user_document (strip uname) (lower (strip mail)) h
                                     (supplied_role data) (now e) (object_id e)])%list;
                               roadmaps := roadmaps d |};
                  token_blacklist := token_blacklist st |}.
Proof.
  intros e r st st' resp H Hs.
  destruct (signup_cases e r st resp st' H)
    as [[_ Hn] | (d & data & uname & mail & pw & h & H1 & H2 & H3 & H4 & H5
                  & H6 & H7 & H8 & H9 & H10 & H11 & H12 & _)].
  - contradiction.
  - exists d, data, uname, mail, pw, h. repeat (split; [assumption |]). assumption.
Qed.

(** X4: a signup that is not answered 201 stores nothing, whatever JSON
    body it brings. *)
Theorem rejected_signup_stores_nothing :
  forall (e : Env) (r : Request) (st st' : State) (resp : response),
    dispatch POST_signup e r st = (resp, st') ->
    (forall v, get_json r = inr v -> serializable v = true) ->
    status resp <> 201 ->
    st' = st.
Proof.
  intros e r st st' resp H Hjson Hs.
  destruct (signup_cases e r st resp st' H)
    as [[Hst _] | (d & data & uname & mail & pw & h & _ & H2 & _ & _ & _
                   & _ & _ & _ & _ & _ & _ & _ & [[H201 _] | [_ Hser]])].
  - exact Hst.
  - contradiction.
  - rewrite (serializable_supplied_role data (Hjson _ H2)) in Hser. discriminate.
Qed.

(** ** Lookups in the store *)

Lemma find_one_Some coll q doc :
  find_one coll q = Some doc -> In doc coll /\ matches q doc = true.
Proof. unfold find_one. apply find_some. Qed.

Lemma find_one_None coll q :
  find_one coll q = None <-> forall doc, In doc coll -> matches q doc = false.
Proof.
  unfold find_one. split.
  - intros H doc Hin. exact (find_none _ _ H doc Hin).
  - intros H. induction coll as [| doc coll IH]; [reflexivity |].
    cbn [List.find]. rewrite (H doc (or_introl eq_refl)).
    apply IH. intros doc' Hin. apply H. right. exact Hin.
Qed.

Lemma find_one_exists coll q doc :
  In doc coll -> matches q doc = true ->
  exists found, find_one coll q = Some found.
Proof.
  intros Hin Hm. destruct (find_one coll q) as [found |] eqn:Hf; [eauto |].
  rewrite find_one_None in Hf. rewrite (Hf doc Hin) in Hm. discriminate.
Qed.

Lemma find_one_last coll q doc :
  (forall other, In other coll -> matches q other = false) ->
  matches q doc = true ->
  find_one (coll ++ [doc])%list q = Some doc.
Proof.
  intros Hn Hm. unfold find_one. induction coll as [| x coll IH]; cbn [app List.find].
  - rewrite Hm. reflexivity.
  - rewrite (Hn x (or_introl eq_refl)). apply IH.
    intros other Hin. apply Hn. right. exact Hin.
Qed.

Lemma matches_QOr q1 q2 doc :
  matches (QOr q1 q2) doc = matches q1 doc || matches q2 doc.
Proof. reflexivity. Qed.

(** A stored field equals a string exactly when the query for the string
    matches it, on a document [signup] stored. *)
Lemma matches_username doc u :
  stored_by_signup doc ->
  matches (QEq "username" (SStr u)) doc = true <->
  dict_get "username" doc = Some (PStr u).
Proof.
  intros (n & m & h & ro & t & id & ->). cbn. rewrite String.eqb_eq.
  split; congruence.
Qed.

Lemma matches_email doc m :
  stored_by_signup doc ->
  matches (QEq "email" (SStr m)) doc = true <->
  dict_get "email" doc = Some (PStr m).
Proof.
  intros (n & m' & h & ro & t & id & ->). cbn. rewrite String.eqb_eq.
  split; congruence.
Qed.

(** A document with the string in the field is matched, whatever its
    shape. *)
Lemma field_string_matches doc field s :
  dict_get field doc = Some (PStr s) -> matches (QEq field (SStr s)) doc = true.
Proof.
  intros H. cbn [matches]. unfold field_matches. rewrite H.
  cbn [eq_scalar]. apply String.eqb_refl.
Qed.

(** ** Signup and the stored users *)

(** The steps of [signup] on a body with the three fields as strings and
    acceptable values, up to the lookup of an existing user. *)
Ltac signup_to_lookup Hdb Hj Hu Hm Hp Hlu Hlm Hat Hv :=
  unfold dispatch, view_function, signup; run; rewrite Hdb, Hj;
  rewrite (dict_get_truthy _ _ _ Hu); run; rewrite ?Hu, ?Hm, ?Hp; run;
  rewrite (proj2 (Z.ltb_ge _ _) Hlu), (proj2 (Z.ltb_ge _ _) Hlm), Hat;
  cbn [orb negb]; rewrite Hv; run.

(** X5: a signup with acceptable values is answered 409 and stores nothing
    when a stored user has the username or the email; the message names
    the username when no stored user has the email, and the email when no
    stored user has the username. *)
Theorem signup_refuses_stored_username_or_email :
  forall (e : Env) (r : Request) (st : State) (d : Database) (data : dict)
         (uname mail pw : string),
    db st = Some d ->
    get_json r = inr (PDict data) ->
    dict_get "username" data = Some (PStr uname) ->
    dict_get "email" data = Some (PStr mail) ->
    dict_get "password" data = Some (PStr pw) ->
    3 <= len (strip uname) ->
    5 <= len (lower (strip mail)) ->
    substringb "@" (lower (strip mail)) = true ->
    validate_password (PStr pw) = inr (true, "Password is valid") ->
    Forall stored_by_signup (users d) ->
    (exists doc, In doc (users d) /\
       (dict_get "username" doc = Some (PStr (strip uname)) \/
        dict_get "email" doc = Some (PStr (lower (strip mail))))) ->
    exists msg,
      dispatch POST_signup e r st = (error msg 409, st)
      /\ ((forall doc, In doc (users d) ->
             dict_get "email" doc <> Some (PStr (lower (strip mail)))) ->
          msg = "Username already exists")
      /\ ((forall doc, In doc (users d) ->
             dict_get "username" doc <> Some (PStr (strip uname))) ->
          msg = "Email already exists").
Proof.
  intros e r st d data uname mail pw Hdb Hj Hu Hm Hp Hlu Hlm Hat Hv Hwf
         (doc & Hin & Hdup).
  set (q := QOr (QEq "username" (SStr (strip uname)))
                (QEq "email" (SStr (lower (strip mail))))).
  assert (Hdoc : matches q doc = true).
  { unfold q. rewrite matches_QOr. apply orb_true_iff.
    destruct Hdup as [H | H]; [left | right]; apply field_string_matches; exact H. }
  destruct (find_one_exists _ _ _ Hin Hdoc) as (found & Hf).
  destruct (find_one_Some _ _ _ Hf) as (Hfin & Hfm).
  pose proof (proj1 (List.Forall_forall _ _) Hwf found Hfin) as Hshape.
  unfold q in Hfm. rewrite matches_QOr in Hfm. apply orb_true_iff in Hfm.
  rewrite (matches_username _ _ Hshape), (matches_email _ _ Hshape) in Hfm.
  destruct Hshape as (n & m & h & ro & t & id & ->).
  exists (if String.eqb n (strip uname) then "Username already exists"
          else "Email already exists").
  split; [| split].
  - signup_to_lookup Hdb Hj Hu Hm Hp Hlu Hlm Hat Hv. fold q. rewrite Hf. run.
    unfold user_document.
    cbn [dict_get String.eqb Ascii.eqb Bool.eqb is_str]. run.
    destruct (String.eqb n (strip uname)); reflexivity.
  - intros Hno. destruct (String.eqb_spec n (strip uname)); [reflexivity |].
    destruct Hfm as [Hfm | Hfm].
    + cbn in Hfm. congruence.
    + elim (Hno _ Hfin). exact Hfm.
  - intros Hno. destruct (String.eqb_spec n (strip uname)) as [-> |];
      [| reflexivity].
    elim (Hno _ Hfin). reflexivity.
Qed.

Lemma dispatch_same_users rt e r st :
  rt <> POST_signup ->
  users <$> db (snd (dispatch rt e r st)) = users <$> db st.
Proof.
  intros Hrt.
  apply (preserves_dispatch same_users); [apply same_users_refl |].
  intros view view_args Hv. eapply users_view; eassumption.
Qed.

Lemma users_unique_same st st' :
  users <$> db st' = users <$> db st -> users_unique st -> users_unique st'.
Proof.
  unfold users_unique. destruct (db st') as [d' |]; [| trivial].
  destruct (db st) as [d |]; [| discriminate]. intros [= ->]. trivial.
Qed.

Lemma not_in_map_field coll field s :
  (forall doc, In doc coll -> matches (QEq field (SStr s)) doc = false) ->
  ~ In (Some (PStr s)) (map (dict_get field) coll).
Proof.
  intros Hn Hin. apply in_map_iff in Hin as (doc & Hget & Hdoc).
  specialize (Hn doc Hdoc).
  rewrite (field_string_matches _ _ _ Hget) in Hn. discriminate.
Qed.

Lemma NoDup_snoc {A} (l : list A) (x : A) :
  NoDup l -> ~ In x l -> NoDup (l ++ [x])%list.
Proof.
  intros Hl Hx. apply NoDup_app. split; [exact Hl | split].
  - intros y Hy Hin. apply list_elem_of_singleton in Hin. subst y.
    apply Hx. apply list_elem_of_In. exact Hy.
  - apply NoDup_singleton.
Qed.

Lemma signup_keeps_users_unique e r st :
  users_unique st -> users_unique (snd (dispatch POST_signup e r st)).
Proof.
  intros Hinv.
  destruct (dispatch POST_signup e r st) as [resp st'] eqn:H. cbn [snd].
  destruct (signup_cases e r st resp st' H)
    as [[-> _] | (d & data & uname & mail & pw & h & Hdb & _ & _ & _ & _
                  & _ & _ & _ & _ & Hf & _ & -> & _)].
  - exact Hinv.
  - unfold users_unique in *. rewrite Hdb in Hinv. cbn [db users].
    destruct Hinv as (Hshape & Hnames & Hmails).
    rewrite find_one_None in Hf.
    split; [| split].
    + apply Forall_app. split; [exact Hshape |].
      constructor; [| constructor]. unfold stored_by_signup. eauto 10.
    + rewrite map_app. apply NoDup_snoc; [exact Hnames |].
      apply not_in_map_field. intros doc Hin. specialize (Hf doc Hin).
      rewrite matches_QOr in Hf. apply orb_false_iff in Hf. tauto.
    + rewrite map_app. apply NoDup_snoc; [exact Hmails |].
      apply not_in_map_field. intros doc Hin. specialize (Hf doc Hin).
      rewrite matches_QOr in Hf. apply orb_false_iff in Hf. tauto.
Qed.

Lemma dispatch_keeps_users_unique rt e r st :
  users_unique st -> users_unique (snd (dispatch rt e r st)).
Proof.
  intros Hinv.
  assert (Hdec : rt = POST_signup \/ rt <> POST_signup)
    by (destruct rt; (left; reflexivity) || (right; discriminate)).
  destruct Hdec as [-> | Hrt].
  - apply signup_keeps_users_unique. exact Hinv.
  - eapply users_unique_same; [apply dispatch_same_users; exact Hrt | exact Hinv].
Qed.

(** X6: when the stored users have the shape [signup] gives them and no
    two of them share a username or an email, the same holds after any
    sequence of requests. *)
Theorem serve_keeps_users_unique :
  forall (requests : list (route * Env * Request)) (st : State),
    users_unique st -> users_unique (serve requests st).
Proof.
  induction requests as [| [[rt e] r] rest IH]; intros st Hinv; cbn [serve].
  - exact Hinv.
  - apply IH. apply dispatch_keeps_users_unique. exact Hinv.
Qed.

(** ** Login of a stored user *)

Lemma login_of_stored_user (e : Env) (r : Request) (st : State) (d : Database)
    (data : dict) (mail pw name stored_mail h id : string) (user_role : pyval)
    (created : Z) :
    db st = Some d ->
    get_json r = inr (PDict data) ->
    dict_get "email" data = Some (PStr mail) ->
    dict_get "password" data = Some (PStr pw) ->
    find_one (users d) (QEq "email" (SStr (lower (strip mail))))
    = Some (user_document name stored_mail h user_role created id) ->
    bcrypt_checkpw pw h = inr true ->
    serializable user_role = true ->
    dispatch POST_login e r st
    = (respond 200
         (Json (PDict [("message", PStr "Login successful");
                       ("user", PDict [("id", PStr id);
                                       ("username", PStr name);
                                       ("email", PStr stored_mail);
                                       ("role", user_role)])])
               [("access_token",
                 {| sub := id; role := user_role; jti := jti_access e;
                    type := access; iat := now e;
                    exp := now e + JWT_ACCESS_TOKEN_EXPIRES config;
                    key := SECRET_KEY config |});
                ("refresh_token",
                 {| sub := id; role := user_role; jti := jti_refresh e;
                    type := refresh; iat := now e;
                    exp := now e + JWT_REFRESH_TOKEN_EXPIRES config;
                    key := SECRET_KEY config |})]),
       st).
Proof.
  intros Hdb Hj Hm Hp Hf Hc Hs.
  unfold dispatch, view_function, login. run.
  run_with Hdb. run_with Hj. run_with (dict_get_truthy _ _ _ Hm).
  run_with Hm. run_with Hp. run_with Hf. unfold user_document.
  cbn [dict_get String.eqb Ascii.eqb Bool.eqb]. run.
  unfold check_password. run_with Hc.
  unfold generate_tokens, jsonify_with, create_access_token,
    create_refresh_token.
  cbn [serializable forallb snd andb py_str]. rewrite Hs. run. reflexivity.
Qed.

(** X7: a login with the email of a stored user, in any case and with
    white space around it, and with a password that bcrypt accepts for the
    stored hash, is answered 200 with the user's identifier, name, email
    and role, without the hash, and with an access and a refresh token
    whose subject is the user's identifier and whose role is the stored
    role; the state stays as it is. *)
Theorem login_issues_tokens_of_stored_user :
  forall (e : Env) (r : Request) (st : State) (d : Database) (data : dict)
         (mail pw name stored_mail h id : string) (user_role : pyval)
         (created : Z),
    db st = Some d ->
    get_json r = inr (PDict data) ->
    dict_get "email" data = Some (PStr mail) ->
    dict_get "password" data = Some (PStr pw) ->
    find_one (users d) (QEq "email" (SStr (lower (strip mail))))
    = Some (user_document name stored_mail h user_role created id) ->
    bcrypt_checkpw pw h = inr true ->
    serializable user_role = true ->
    dispatch POST_login e r st
    = (respond 200
         (Json (PDict [("message", PStr "Login successful");
                       ("user", PDict [("id", PStr id);
                                       ("username", PStr name);
                                       ("email", PStr stored_mail);
                                       ("role", user_role)])])
               [("access_token",
                 {| sub := id; role := user_role; jti := jti_access e;
                    type := access; iat := now e;
                    exp := now e + JWT_ACCESS_TOKEN_EXPIRES config;
                    key := SECRET_KEY config |});
                ("refresh_token",
                 {| sub := id; role := user_role; jti := jti_refresh e;
                    type := refresh; iat := now e;
                    exp := now e + JWT_REFRESH_TOKEN_EXPIRES config;
                    key := SECRET_KEY config |})]),
       st).
Proof.
  intros e r st d data mail pw name stored_mail h id user_role created.
  apply login_of_stored_user.
Qed.

(** X8: signup and login compose.  After a signup answered 201, a login
    with the email and the password of the signup body (bcrypt accepting
    the password for the hash it made of it) is answered 200 with tokens
    for the new user: their subject is the identifier the store gave the
    user, their role the role the signup stored. *)
Theorem login_after_signup :
  forall (e e2 : Env) (r r2 : Request) (st st' : State) (resp : response)
         (data data2 : dict) (mail pw : string),
    dispatch POST_signup e r st = (resp, st') ->
    status resp = 201 ->
    get_json r = inr (PDict data) ->
    dict_get "email" data = Some (PStr mail) ->
    dict_get "password" data = Some (PStr pw) ->
    get_json r2 = inr (PDict data2) ->
    dict_get "email" data2 = Some (PStr mail) ->
    dict_get "password" data2 = Some (PStr pw) ->
    (forall h, bcrypt_hashpw pw (salt e) = inr h -> bcrypt_checkpw pw h = inr true) ->
    exists v access_token refresh_token,
      dispatch POST_login e2 r2 st'
      = (respond 200 (Json v [("access_token", access_token);
                              ("refresh_token", refresh_token)]), st')
      /\ sub access_token = object_id e
      /\ role access_token = supplied_role data
      /\ sub refresh_token = object_id e
      /\ role refresh_token = supplied_role data.
Proof.
  intros e e2 r r2 st st' resp data data2 mail pw H Hs Hj Hm Hp Hj2 Hm2 Hp2 Hb.
  destruct (signup_cases e r st resp st' H)
    as [[_ Hn] | (d & data' & uname & mail' & pw' & h & Hdb & Hj' & _ & Hm'
                  & Hp' & _ & _ & _ & _ & Hf & Hh & Hst & [[_ Hser] | [H5 _]])];
    [contradiction | | congruence].
  rewrite Hj in Hj'. injection Hj' as <-.
  rewrite Hm in Hm'. injection Hm' as <-.
  rewrite Hp in Hp'. injection Hp' as <-.
  rewrite find_one_None in Hf.
  eexists _, _, _. split.
  - eapply login_of_stored_user with (d := {| users := _; roadmaps := _ |});
      [rewrite Hst; reflexivity | exact Hj2 | exact Hm2 | exact Hp2 | |
       exact (Hb h Hh) | exact Hser].
    cbn [users]. apply find_one_last.
    + intros other Hin. specialize (Hf other Hin).
      rewrite matches_QOr in Hf. apply orb_false_iff in Hf. tauto.
    + apply field_string_matches. reflexivity.
  - repeat split.
Qed.

(** ** Creating and listing roadmaps *)

Lemma dict_get_dict_set k k' v d :
  dict_get k (dict_set k' v d) = if String.eqb k k' then Some v else dict_get k d.
Proof.
  induction d as [| [k2 v2] d IH]; cbn [dict_set dict_get].
  - destruct (String.eqb k k'); reflexivity.
  - destruct (String.eqb_spec k' k2) as [-> | Hne]; cbn [dict_get].
    + destruct (String.eqb k k2); reflexivity.
    + destruct (String.eqb_spec k k2) as [-> | Hne2].
      * apply String.eqb_neq in Hne. rewrite String.eqb_sym, Hne. reflexivity.
      * exact IH.
Qed.

Lemma dict_get_app k d d' :
  dict_get k (d ++ d')%list
  = match dict_get k d with
    | Some v => Some v
    | None => dict_get k d'
    end.
Proof.
  induction d as [| [k2 v2] d IH]; cbn [app dict_get]; [reflexivity |].
  destruct (String.eqb k k2); [reflexivity | exact IH].
Qed.

Lemma setitem_inr c k v c' :
  setitem c k v = inr c' -> exists d, c = PDict d /\ c' = PDict (dict_set k v d).
Proof. destruct c; simpl; try discriminate. intros [= <-]. eauto. Qed.

Lemma get_default_dict d k default :
  get_default (PDict d) k default
  = inr (match dict_get k d with Some v => v | None => default end).
Proof. unfold get_default. destruct (dict_get k d); reflexivity. Qed.

Lemma insert_one_inr coll doc fresh c id :
  insert_one coll doc fresh = inr (c, id) ->
  exists stored,
    c = (coll ++ [stored])%list
    /\ dict_get "_id" stored = Some id
    /\ forall k v, dict_get k doc = Some v -> dict_get k stored = Some v.
Proof.
  unfold insert_one. destruct (dict_get "_id" doc) as [given |] eqn:Hid.
  - destruct (existsb _ coll); destruct given; try discriminate;
      intros [= <- <-]; exists doc; auto.
  - intros [= <- <-]. eexists. split; [reflexivity |]. split.
    + rewrite dict_get_app, Hid. reflexivity.
    + intros k v Hk. rewrite dict_get_app, Hk. reflexivity.
Qed.

Lemma mark_nodes nodes marked :
  mapE (fun n => setitem n "completed" (PBool false)) nodes = inr marked ->
  Forall fresh_node marked /\ length marked = length nodes.
Proof.
  revert marked. induction nodes as [| n nodes IH]; intros marked H;
    cbn [mapE] in H; run_in H.
  - injection H as <-. split; [constructor | reflexivity].
  - destruct (setitem n "completed" (PBool false)) as [ex | n'] eqn:Hn;
      [discriminate |].
    destruct (mapE _ nodes) as [ex | rest] eqn:Hrest; [discriminate |].
    injection H as <-. destruct (IH rest eq_refl) as [Hall Hlen].
    apply setitem_inr in Hn as (fields & -> & ->).
    split; [| cbn [length]; congruence].
    constructor; [| exact Hall].
    exists (dict_set "completed" (PBool false) fields). split; [reflexivity |].
    rewrite dict_get_dict_set. reflexivity.
Qed.

(** Every outcome of [create_roadmap]: nothing stored and an answer other
    than 201, or 201 and one roadmap stored. *)
Lemma create_roadmap_cases e r st resp st' :
  dispatch POST_roadmaps e r st = (resp, st') ->
  (st' = st /\ status resp <> 201)
  \/ (status resp = 201
      /\ exists t d data owner stored nodes,
           authorization r = Some t
           /\ jwt_verify (now e) t = true
           /\ (jti t ∉ token_blacklist st)
           /\ db st = Some d
           /\ get_json r = inr (PDict data)
           /\ ObjectId (sub t) = inr owner
           /\ st' = {| db := Some {| users := users d;
                                     roadmaps := (roadmaps d ++ [stored])%list |};
                       token_blacklist := token_blacklist st |}
           /\ dict_get "created_by" stored = Some (PObjectId owner)
           /\ dict_get "is_public" stored
              = Some (match dict_get "is_public" data with
                      | Some v => v
                      | None => PBool false
                      end)
           /\ dict_get "created_at" stored = Some (PDatetime (now e))
           /\ dict_get "updated_at" stored = Some (PDatetime (now e))
           /\ dict_get "nodes" stored = Some (PList nodes)
           /\ nodes <> []
           /\ Forall fresh_node nodes).
Proof.
  intros H.
  unfold dispatch, view_function, create_roadmap, token_required, jwt_required in H.
  destruct (authorization r) as [t |] eqn:Ha;
    [| injection H as <- <-; left; split; [reflexivity | discriminate]].
  destruct (jwt_verify (now e) t) eqn:Hv;
    [| injection H as <- <-; left; split; [reflexivity | discriminate]].
  unfold get_jwt_identity, get_jwt, is_token_revoked in H. rewrite Ha in H.
  run_in H.
  destruct (decide (jti t ∈ token_blacklist st)) as [Hj | Hj];
    [rewrite (bool_decide_true _ Hj) in H | rewrite (bool_decide_false _ Hj) in H];
    [injection H as <- <-; left; split; [reflexivity | discriminate] |].
  rewrite bind_identity in H. run_in H.
  repeat (split_in H; run_in H;
          try solve [injection H as <- <-; left; split;
                     [reflexivity | simpl; discriminate]]).
  all: try (unfold set_roadmaps in Heqp12; discriminate).
  apply setitem_inr in Heqr9 as (data & -> & ->).
  rewrite get_default_dict in Heqr10. injection Heqr10 as <-.
  apply setitem_inr in Heqr11 as (? & [= <-] & ->).
  rewrite get_default_dict in Heqr12. injection Heqr12 as <-.
  apply setitem_inr in Heqr13 as (? & [= <-] & ->).
  apply setitem_inr in Heqr14 as (? & [= <-] & ->).
  apply setitem_inr in Heqr15 as (? & [= <-] & ->).
  apply setitem_inr in Heqr17 as (? & [= <-] & [= ->]).
  apply mark_nodes in Heqr16 as (Hfresh & Hlen).
  apply insert_one_inr in Heqr18 as (stored & -> & _ & Hkeep).
  unfold set_roadmaps in Heqp12. rewrite Heqo in Heqp12. simpl in Heqp12.
  injection Heqp12 as _ <-. injection H as <- <-.
  right. split; [reflexivity |].
  exists t, d, data, s, stored, l1.
  repeat (split; [first [reflexivity | assumption] |]).
  repeat split.
  - apply Hkeep. rewrite !dict_get_dict_set. reflexivity.
  - apply Hkeep. rewrite !dict_get_dict_set. reflexivity.
  - apply Hkeep. rewrite !dict_get_dict_set. reflexivity.
  - apply Hkeep. rewrite !dict_get_dict_set. reflexivity.
  - apply Hkeep. rewrite !dict_get_dict_set. reflexivity.
  - intros ->. discriminate.
  - exact Hfresh.
Qed.

(** X9: a request to POST /api/roadmaps answered 201 carried a verified
    token that is not revoked, and stored exactly one more roadmap, at the
    end of the collection: its owner is the ObjectId of the token's
    subject, whatever [created_by] the body named; [is_public] is the
    body's, False when it has none; both dates are the time of the request;
    the nodes are not empty and each has [completed] False.  The users and
    the revoked identifiers are as before. *)
Theorem create_roadmap_stores_owned_roadmap e r st resp st' :
  dispatch POST_roadmaps e r st = (resp, st') ->
  status resp = 201 ->
  exists t d data owner stored nodes,
    authorization r = Some t
    /\ jwt_verify (now e) t = true
    /\ (jti t ∉ token_blacklist st)
    /\ db st = Some d
    /\ get_json r = inr (PDict data)
    /\ ObjectId (sub t) = inr owner
    /\ st' = {| db := Some {| users := users d;
                              roadmaps := (roadmaps d ++ [stored])%list |};
                token_blacklist := token_blacklist st |}
    /\ dict_get "created_by" stored = Some (PObjectId owner)
    /\ dict_get "is_public" stored
       = Some (match dict_get "is_public" data with
               | Some v => v
               | None => PBool false
               end)
    /\ dict_get "created_at" stored = Some (PDatetime (now e))
    /\ dict_get "updated_at" stored = Some (PDatetime (now e))
    /\ dict_get "nodes" stored = Some (PList nodes)
    /\ nodes <> []
    /\ Forall fresh_node nodes.
Proof.
  intros H Hs. destruct (create_roadmap_cases _ _ _ _ _ H) as [[_ Hn] | [_ Hok]].
  - contradiction.
  - exact Hok.
Qed.

(** X10: a request to POST /api/roadmaps that is not answered 201 leaves
    the whole state as it was: no roadmap is stored on a refusal or on an
    exception. *)
Theorem refused_create_stores_nothing e r st resp st' :
  dispatch POST_roadmaps e r st = (resp, st') ->
  status resp <> 201 ->
  st' = st.
Proof.
  intros H Hs. destruct (create_roadmap_cases _ _ _ _ _ H) as [[Heq _] | [Hok _]].
  - exact Heq.
  - contradiction.
Qed.

(** ** Listing roadmaps *)

Lemma mapE_Forall2 {A B} (f : A -> raises B) l l' :
  mapE f l = inr l' -> Forall2 (fun a b => f a = inr b) l l'.
Proof.
  revert l'. induction l as [| a l IH]; intros l' H; cbn [mapE] in H; run_in H.
  - injection H as <-. constructor.
  - destruct (f a) as [ex | b] eqn:Ha; [discriminate |].
    destruct (mapE f l) as [ex | bs] eqn:Hl; [discriminate |].
    injection H as <-. constructor; [exact Ha | apply IH; reflexivity].
Qed.

Lemma find_visible t owner coll :
  find coll (if is_str "admin" (role t) then QAll else own_or_public owner)
  = filter (visible_to (is_str "admin" (role t)) owner) coll.
Proof.
  unfold find, visible_to. destruct (is_str "admin" (role t)); reflexivity.
Qed.

(** What [get_roadmaps] lists when it answers 200. *)
Lemma get_roadmaps_listing e r st resp st' :
  dispatch GET_roadmaps e r st = (resp, st') ->
  status resp = 200 ->
  exists t d owner listed,
    authorization r = Some t
    /\ db st = Some d
    /\ ObjectId (sub t) = inr owner
    /\ payload resp = Json (PDict [("roadmaps", PList (map PDict listed))]) []
    /\ Forall2 (fun roadmap shown => stringify_listed roadmap = inr shown)
         (filter (visible_to (is_str "admin" (role t)) owner) (roadmaps d))
         listed.
Proof.
  intros H Hs.
  unfold dispatch, view_function, get_roadmaps, token_required, jwt_required in H.
  destruct (authorization r) as [t |] eqn:Ha;
    [| injection H as <- <-; discriminate].
  destruct (jwt_verify (now e) t) eqn:Hv; [| injection H as <- <-; discriminate].
  unfold get_jwt_identity, get_jwt, is_token_revoked in H. rewrite Ha in H.
  run_in H.
  destruct (bool_decide (jti t ∈ token_blacklist st));
    [injection H as <- <-; discriminate |].
  rewrite bind_identity in H. run_in H.
  destruct (db st) as [d |] eqn:Hd; [| injection H as <- <-; discriminate].
  unfold get_jwt in H. rewrite Ha in H. run_in H.
  destruct (ObjectId (sub t)) as [ex | owner] eqn:Ho;
    [injection H as <- <-; discriminate |].
  cbv zeta in H. rewrite find_visible in H.
  unfold jsonify, jsonify_with in H.
  repeat (split_in H; run_in H;
          try solve [injection H as <- <-; discriminate]).
  injection H as <- <-.
  match goal with
  | Hm : mapE _ _ = inr ?l |- _ =>
      exists t, d, owner, l;
      repeat (split; [first [reflexivity | assumption] |]);
      apply mapE_Forall2; exact Hm
  end.
Qed.

(** X11: a request to GET /api/roadmaps answered 200 carried a token, and
    the body lists, in the order of the store, the roadmaps that are public
    or whose [created_by] is the ObjectId of the token's subject, all of
    them when the token's role is admin, and no other; each with [_id] and
    [created_by] turned into strings. *)
Theorem get_roadmaps_lists_public_or_own e r st resp st' :
  dispatch GET_roadmaps e r st = (resp, st') ->
  status resp = 200 ->
  exists t d owner listed,
    authorization r = Some t
    /\ db st = Some d
    /\ ObjectId (sub t) = inr owner
    /\ payload resp = Json (PDict [("roadmaps", PList (map PDict listed))]) []
    /\ Forall2 (fun roadmap shown => stringify_listed roadmap = inr shown)
         (filter (visible_to (is_str "admin" (role t)) owner) (roadmaps d))
         listed.
Proof. apply get_roadmaps_listing. Qed.

Lemma filter_snoc_false (p : dict -> bool) (coll : collection) doc :
  p doc = false -> filter p (coll ++ [doc])%list = filter p coll.
Proof.
  intros Hp. unfold collection. rewrite filter_app, filter_cons, filter_nil.
  destruct (decide (p doc)) as [Hyes | Hno].
  - rewrite Hp in Hyes. contradiction.
  - apply app_nil_r.
Qed.

(** The answer of [get_roadmaps] depends on the store through the roadmaps
    visible to the caller only. *)
Lemma get_roadmaps_same_listing e r st st1 d d1 :
  db st = Some d -> db st1 = Some d1 ->
  token_blacklist st1 = token_blacklist st ->
  (forall t owner,
     authorization r = Some t -> ObjectId (sub t) = inr owner ->
     filter (visible_to (is_str "admin" (role t)) owner) (roadmaps d1)
     = filter (visible_to (is_str "admin" (role t)) owner) (roadmaps d)) ->
  fst (dispatch GET_roadmaps e r st1) = fst (dispatch GET_roadmaps e r st).
Proof.
  intros Hd Hd1 Hb Hsame.
  unfold dispatch, view_function, get_roadmaps, token_required, jwt_required.
  destruct (authorization r) as [t |] eqn:Ha; [| reflexivity].
  destruct (jwt_verify (now e) t) eqn:Hv; [| reflexivity].
  unfold get_jwt_identity, get_jwt, is_token_revoked. rewrite Ha.
  run. rewrite Hb.
  destruct (bool_decide (jti t ∈ token_blacklist st)); [reflexivity |].
  rewrite !bind_identity. run. rewrite Hd, Hd1.
  unfold get_jwt. rewrite Ha. run.
  destruct (ObjectId (sub t)) as [ex | owner] eqn:Ho; [reflexivity |].
  cbv zeta. rewrite !find_visible, (Hsame t owner eq_refl Ho).
  destruct (mapE _ _) as [ex | listed]; [reflexivity |].
  destruct (jsonify _); reflexivity.
Qed.

(** X12: a roadmap created without [is_public] is private by default: to a
    caller who is not admin and whose identity is not the creator's, GET
    /api/roadmaps answers after the creation what it answered before. *)
Theorem private_roadmap_hidden_from_others e r st resp st1 t e' r' u :
  dispatch POST_roadmaps e r st = (resp, st1) ->
  status resp = 201 ->
  authorization r = Some t ->
  (forall data, get_json r = inr (PDict data) -> dict_get "is_public" data = None) ->
  authorization r' = Some u ->
  role u <> PStr "admin" ->
  ObjectId (sub u) <> ObjectId (sub t) ->
  fst (dispatch GET_roadmaps e' r' st1) = fst (dispatch GET_roadmaps e' r' st).
Proof.
  intros H Hs Ht Hprivate Hu Hrole Hother.
  destruct (create_roadmap_cases _ _ _ _ _ H) as [[_ Hn] | [_ Hok]];
    [contradiction |].
  destruct Hok as (t' & d & data & owner & stored & nodes & Ha & _ & _ & Hd
                   & Hdata & Ho & -> & Hcb & Hpub & _).
  rewrite Ht in Ha. injection Ha as <-.
  rewrite (Hprivate data Hdata) in Hpub.
  eapply (get_roadmaps_same_listing e' r' st _ d);
    [exact Hd | reflexivity | reflexivity |].
  intros u' other Hu' Hother'. rewrite Hu in Hu'. injection Hu' as <-.
  cbn [roadmaps]. apply filter_snoc_false.
  apply is_str_neq in Hrole.
  unfold visible_to. rewrite Hrole, Hpub, Hcb.
  cbn [field_matches eq_scalar orb Bool.eqb].
  apply String.eqb_neq. intros ->. congruence.
Qed.

(** ** Deleting a roadmap as admin *)

Lemma delete_one_cases coll q coll' n :
  delete_one coll q = (coll', n) ->
  (n = 0 /\ coll' = coll /\ Forall (fun doc => matches q doc = false) coll)
  \/ (n = 1
      /\ exists pre doc post,
           coll = (pre ++ doc :: post)%list
           /\ coll' = (pre ++ post)%list
           /\ matches q doc = true
           /\ Forall (fun other => matches q other = false) pre).
Proof.
  revert coll' n. induction coll as [| doc coll IH]; intros coll' n H;
    cbn [delete_one] in H.
  - injection H as <- <-. left. repeat split. constructor.
  - destruct (matches q doc) eqn:Hm.
    + injection H as <- <-. right. split; [reflexivity |].
      exists [], doc, coll. repeat split; [assumption | constructor].
    + destruct (delete_one coll q) as [rest k] eqn:Hrest.
      injection H as <- <-.
      destruct (IH rest k eq_refl)
        as [(-> & -> & Hall)
           | (-> & pre & found & post & -> & -> & Hf & Hpre)].
      * left. repeat split. constructor; assumption.
      * right. split; [reflexivity |].
        exists (doc :: pre), found, post.
        repeat split; [assumption | constructor; assumption].
Qed.

Lemma state_eta st d :
  db st = Some d ->
  {| db := Some {| users := users d; roadmaps := roadmaps d |};
     token_blacklist := token_blacklist st |} = st.
Proof. destruct st as [[[us rs] |] bl]; intros [= <-]; reflexivity. Qed.

(** Every outcome of [force_delete_roadmap]. *)
Lemma force_delete_cases rid e r st resp st' :
  dispatch (DELETE_force rid) e r st = (resp, st') ->
  (st' = st /\ status resp <> 200)
  \/ (status resp = 200
      /\ exists t d id pre doc post,
           authorization r = Some t
           /\ role t = PStr "admin"
           /\ db st = Some d
           /\ ObjectId rid = inr id
           /\ roadmaps d = (pre ++ doc :: post)%list
           /\ field_matches (dict_get "_id" doc) (SObjectId id) = true
           /\ Forall (fun other =>
                       field_matches (dict_get "_id" other) (SObjectId id) = false)
                pre
           /\ st' = {| db := Some {| users := users d;
                                     roadmaps := (pre ++ post)%list |};
                       token_blacklist := token_blacklist st |}).
Proof.
  intros H.
  unfold dispatch, view_function, force_delete_roadmap, admin_required,
    jwt_required in H.
  destruct (authorization r) as [t |] eqn:Ha;
    [| injection H as <- <-; left; split; [reflexivity | discriminate]].
  destruct (jwt_verify (now e) t) eqn:Hv;
    [| injection H as <- <-; left; split; [reflexivity | discriminate]].
  unfold get_jwt, is_token_revoked in H. rewrite Ha in H. run_in H.
  destruct (bool_decide (jti t ∈ token_blacklist st));
    [injection H as <- <-; left; split; [reflexivity | discriminate] |].
  destruct (is_str "admin" (role t)) eqn:Hr;
    [| injection H as <- <-; left; split; [reflexivity | discriminate]].
  apply is_str_eq in Hr.
  rewrite bind_url_variable in H. run_in H.
  destruct (db st) as [d |] eqn:Hd;
    [| injection H as <- <-; left; split; [reflexivity | discriminate]].
  destruct (ObjectId rid) as [ex | id] eqn:Hid;
    [injection H as <- <-; left; split; [reflexivity | discriminate] |].
  destruct (delete_one (roadmaps d) (QEq "_id" (SObjectId id)))
    as [coll n] eqn:Hdel.
  unfold set_roadmaps in H. rewrite Hd in H. cbn [fmap option_fmap option_map] in H.
  destruct (delete_one_cases _ _ _ _ Hdel)
    as [(-> & -> & _) | (-> & pre & doc & post & Hcoll & -> & Hm & Hpre)];
    cbn [Z.eqb Pos.eqb] in H; injection H as <- <-.
  - left. split; [apply state_eta; assumption | discriminate].
  - right. split; [reflexivity |].
    exists t, d, id, pre, doc, post.
    repeat (split; [first [reflexivity | assumption] |]). reflexivity.
Qed.

(** X13: DELETE /api/admin/roadmaps/<id>/force leaves the whole state as it
    was unless it is answered 200; when it is, the token's role is admin
    and exactly one roadmap went, the first of the store whose [_id] is the
    ObjectId of the path, whoever created it; the roadmaps before and after
    it, the users and the revoked identifiers are as before. *)
Theorem force_delete_removes_first_match rid e r st resp st' :
  dispatch (DELETE_force rid) e r st = (resp, st') ->
  (status resp <> 200 -> st' = st)
  /\ (status resp = 200 ->
      exists t d id pre doc post,
        authorization r = Some t
        /\ role t = PStr "admin"
        /\ db st = Some d
        /\ ObjectId rid = inr id
        /\ roadmaps d = (pre ++ doc :: post)%list
        /\ field_matches (dict_get "_id" doc) (SObjectId id) = true
        /\ Forall (fun other =>
                    field_matches (dict_get "_id" other) (SObjectId id) = false)
             pre
        /\ st' = {| db := Some {| users := users d;
                                  roadmaps := (pre ++ post)%list |};
                    token_blacklist := token_blacklist st |}).
Proof.
  intros H.
  destruct (force_delete_cases _ _ _ _ _ _ H) as [[Heq Hn] | [Hs Hok]]; split.
  - intros _. exact Heq.
  - intros Hs. contradiction.
  - intros Hn. contradiction.
  - intros _. exact Hok.
Qed.

(** ** Listing users *)

Lemma find_all (coll : collection) : find coll QAll = coll.
Proof.
  unfold find, collection. induction coll as [| doc coll IH]; [reflexivity |].
  rewrite filter_cons_True by exact I. f_equal. exact IH.
Qed.

Lemma public_user_of_stored user shown :
  stored_by_signup user -> public_user user = inr shown ->
  shown_without_password user shown.
Proof.
  intros (username & email & hashed & user_role & created & id & ->) H.
  unfold public_user, stringify_id, user_document in H. run_in H.
  cbn in H. injection H as <-.
  repeat split. exists id. split; reflexivity.
Qed.

(** X14: when the stored users have the shape [signup] gives them (as they
    have after any requests to a store that had none), a request to GET
    /api/auth/admin/users answered 200 lists every stored user, in the
    order of the store, with name, email and role as stored and [_id] as a
    string, and none with a [password]. *)
Theorem get_all_users_hides_passwords e r st resp st' :
  users_unique st ->
  dispatch GET_admin_users e r st = (resp, st') ->
  status resp = 200 ->
  exists d listed,
    db st = Some d
    /\ payload resp = Json (PDict [("users", PList (map PDict listed))]) []
    /\ Forall2 shown_without_password (users d) listed.
Proof.
  intros Hu H Hs.
  unfold dispatch, view_function, get_all_users, admin_required, jwt_required in H.
  destruct (authorization r) as [t |] eqn:Ha;
    [| injection H as <- <-; discriminate].
  destruct (jwt_verify (now e) t) eqn:Hv; [| injection H as <- <-; discriminate].
  unfold get_jwt, is_token_revoked in H. rewrite Ha in H. run_in H.
  destruct (bool_decide (jti t ∈ token_blacklist st));
    [injection H as <- <-; discriminate |].
  destruct (is_str "admin" (role t)); [| injection H as <- <-; discriminate].
  run_in H. unfold users_unique in Hu.
  destruct (db st) as [d |] eqn:Hd; [| injection H as <- <-; discriminate].
  rewrite find_all in H. unfold jsonify, jsonify_with in H.
  destruct (mapE public_user (users d)) as [ex | listed] eqn:Hm;
    [injection H as <- <-; discriminate |].
  destruct (serializable _); run_in H; injection H as <- <-;
    [| discriminate].
  exists d, listed. split; [reflexivity |]. split; [reflexivity |].
  destruct Hu as (Hshape & _). apply mapE_Forall2 in Hm.
  induction Hm as [| user shown rest listed Hx _ IH]; [constructor |].
  inversion Hshape; subst.
  constructor; [apply public_user_of_stored; assumption | apply IH; assumption].
Qed.

(** ** The views of a roadmap addressed by the path *)

(** The outcome of a request to a roadmap rule with a variable part. *)
Lemma roadmap_rule_outcome rt e r st :
  roadmap_rule rt = true ->
  snd (dispatch rt e r st) = st
  /\ (status (fst (dispatch rt e r st)) = 401
      \/ fst (dispatch rt e r st) = internal_error).
Proof.
  intros Hrt.
  destruct (authorization r) as [t |] eqn:Ha.
  - destruct (jwt_verify (now e) t) eqn:Hv.
    + destruct (decide (jti t ∈ token_blacklist st)) as [Hj | Hj].
      * destruct rt; try discriminate; unfold dispatch, view_function;
          [ unfold get_roadmap | unfold update_roadmap | unfold delete_roadmap
          | unfold toggle_node_completion | unfold get_roadmap_progress ];
          rewrite (token_required_revoked _ _ _ _ _ _ _ Ha Hv Hj);
          (split; [reflexivity | left; reflexivity]).
      * rewrite (roadmap_rule_fails rt e r st t Hrt Ha Hv Hj).
        split; [reflexivity | right; reflexivity].
    + destruct rt; try discriminate;
        unfold dispatch, view_function;
        [ unfold get_roadmap | unfold update_roadmap | unfold delete_roadmap
        | unfold toggle_node_completion | unfold get_roadmap_progress ];
        unfold token_required, jwt_required; rewrite Ha, Hv;
        (split; [reflexivity | left; reflexivity]).
  - destruct rt; try discriminate;
      unfold dispatch, view_function;
      [ unfold get_roadmap | unfold update_roadmap | unfold delete_roadmap
      | unfold toggle_node_completion | unfold get_roadmap_progress ];
      unfold token_required, jwt_required; rewrite Ha;
      (split; [reflexivity | left; reflexivity]).
Qed.

(** X15: no request to one of the five rules with a roadmap in the path
    (get, update, delete, toggle of a node, progress) reaches the body of
    its view: the answer is 401, or the 500 of the handler for the
    TypeError of the call, never 200, 403 or 404, and the state is left as
    it was; so no node is ever toggled and no progress ever reported. *)
Theorem roadmap_rules_never_run_their_bodies rt e r st :
  roadmap_rule rt = true ->
  snd (dispatch rt e r st) = st
  /\ (status (fst (dispatch rt e r st)) = 401
      \/ fst (dispatch rt e r st) = internal_error).
Proof. apply roadmap_rule_outcome. Qed.

(** ** The loops over the nodes of a roadmap *)

(** X16: the loop of [toggle_node_completion] changes at most one node.
    When it reports a node found, that node is a dict, the first whose
    [id] prints as the identifier asked for; its [completed] is the
    negation of the truth value it had (False when it had none) and all
    other nodes are as they were.  When it reports none found, the nodes
    are unchanged and each has an [id] that prints otherwise. *)
Theorem toggle_first_flips_one_node node_id nodes nodes' found :
  toggle_first node_id nodes = inr (nodes', found) ->
  let differs other :=
    exists id, getitem other "id" = inr id /\ py_str id <> node_id in
  if found then
    exists pre fields id post,
      nodes = (pre ++ PDict fields :: post)%list
      /\ Forall differs pre
      /\ dict_get "id" fields = Some id
      /\ py_str id = node_id
      /\ nodes' =
         (pre ++ PDict (dict_set "completed"
                          (PBool (negb (truthy
                             (match dict_get "completed" fields with
                              | Some c => c
                              | None => PBool false
                              end))))
                          fields) :: post)%list
  else nodes' = nodes /\ Forall differs nodes.
Proof.
  intros H differs. revert nodes' found H.
  induction nodes as [| node rest IH]; intros nodes' found H;
    cbn [toggle_first] in H; run_in H.
  - injection H as <- <-. split; [reflexivity | constructor].
  - destruct (getitem node "id") as [ex | id] eqn:Hid; [discriminate |].
    destruct (String.eqb (py_str id) node_id) eqn:Heq.
    + apply getitem_inr in Hid as (fields & -> & Hid).
      rewrite get_default_dict in H. run_in H. injection H as <- <-.
      exists [], fields, id, rest.
      apply String.eqb_eq in Heq.
      repeat split; [constructor | assumption | assumption].
    + destruct (toggle_first node_id rest) as [ex | [rest' found']] eqn:Hrest;
        [discriminate |].
      injection H as <- <-. specialize (IH rest' found' eq_refl).
      apply String.eqb_neq in Heq.
      assert (Hnode : differs node) by (exists id; split; assumption).
      destruct found'.
      * destruct IH as (pre & fields & id' & post & -> & Hpre & Hid' & Hp & ->).
        exists (node :: pre), fields, id', post.
        repeat split; [constructor; assumption | assumption | assumption].
      * destruct IH as (-> & Hall). split; [reflexivity |].
        constructor; assumption.
Qed.

Lemma py_len_iter nodes total items :
  py_len nodes = inr total -> py_iter nodes = inr items ->
  total = Z.of_nat (length items).
Proof.
  destruct nodes; cbn [py_len py_iter]; try discriminate;
    intros [= <-] [= <-]; rewrite ?length_map; try reflexivity.
  unfold len. f_equal. induction s as [| c s IH]; [reflexivity |].
  cbn [String.length chars length]. f_equal. exact IH.
Qed.

Lemma filterE_partition keep items kept dropped :
  filterE keep items = inr kept ->
  filterE (fun n => c ← keep n; mret (negb c)) items = inr dropped ->
  (length kept + length dropped = length items)%nat
  /\ Forall (fun n => keep n = inr true) kept
  /\ Forall (fun n => keep n = inr false) dropped.
Proof.
  revert kept dropped. induction items as [| n items IH]; intros kept dropped Hk Hd;
    cbn [filterE] in Hk, Hd; run_in Hk; run_in Hd.
  - injection Hk as <-. injection Hd as <-. repeat split; constructor.
  - destruct (keep n) as [ex | k] eqn:Hn; [discriminate |].
    destruct (filterE keep items) as [ex | kept'] eqn:Hk'; [discriminate |].
    destruct (filterE _ items) as [ex | dropped'] eqn:Hd' in Hd; [discriminate |].
    destruct (IH kept' dropped' eq_refl Hd') as (Hlen & Hkept & Hdropped).
    injection Hk as <-. injection Hd as <-.
    destruct k; cbn [negb length]; repeat split;
      try (constructor; assumption); try assumption; lia.
Qed.

(** X17: when the body of [get_roadmap_progress] answers 200, the state is
    as before and the counts of the report add up: the completed and the
    pending nodes are as many as the nodes, each node of the completed
    list has a true [completed], each node of the pending list a false or
    missing one, so that the number of completed nodes lies between 0 and
    the total and the percentage between 0 and 100. *)
Theorem progress_counts_add_up roadmap_id current_user_id e r st resp st' :
  get_roadmap_progress_body roadmap_id current_user_id e r st = (inr resp, st') ->
  status resp = 200 ->
  exists id total done pending,
    payload resp
    = Json (PDict [("progress", PDict [
              ("roadmap_id", PStr id);
              ("total_nodes", PInt total);
              ("completed_nodes", PInt (Z.of_nat (length done)));
              ("progress_percentage",
               if 0 <? total
               then PFloat (Percentage (Z.of_nat (length done)) total)
               else PInt 0);
              ("completed_nodes_list", PList done);
              ("pending_nodes_list", PList pending)])]) []
    /\ st' = st
    /\ Z.of_nat (length done) + Z.of_nat (length pending) = total
    /\ Forall (fun node => completed node = inr true) done
    /\ Forall (fun node => completed node = inr false) pending.
Proof.
  intros H Hs. unfold get_roadmap_progress_body in H. run_in H.
  unfold jsonify, jsonify_with in H.
  repeat (split_in H; run_in H;
          try solve [injection H as <- <-; discriminate]).
  all: destruct (filterE _ _) as [ex | pending] eqn:Hp in H;
    [injection H as <- <-; discriminate |].
  all: destruct (serializable _) in H; injection H as <- <-;
    [| discriminate].
  all: match goal with
       | Hk : filterE completed ?items = inr ?done,
         Hl : py_len _ = inr ?total,
         Hi : py_iter _ = inr ?items,
         Hid : dict_get "_id" _ = Some ?id,
         Hz : (0 <? ?total) = _ |- _ =>
           exists (py_str id), total, done, pending;
           destruct (filterE_partition completed items done pending Hk Hp)
             as (Hlen & Hdone & Hpending);
           pose proof (py_len_iter _ _ _ Hl Hi) as Htotal;
           rewrite Hz;
           repeat split; try assumption; lia
       end.
Qed.

(** ** What the stored roadmaps keep *)

Lemma dispatch_same_roadmaps rt e r st :
  writes_roadmaps rt = false ->
  roadmaps <$> db (snd (dispatch rt e r st)) = roadmaps <$> db st.
Proof.
  intros Hrt.
  apply (preserves_dispatch same_roadmaps); [apply same_roadmaps_refl |].
  intros view view_args Hv. eapply roadmaps_view; eassumption.
Qed.

Lemma roadmaps_as_created_same st st' :
  roadmaps <$> db st' = roadmaps <$> db st ->
  roadmaps_as_created st -> roadmaps_as_created st'.
Proof.
  unfold roadmaps_as_created. destruct (db st') as [d' |]; [| trivial].
  destruct (db st) as [d |]; [| discriminate]. intros [= ->]. trivial.
Qed.

Lemma dispatch_keeps_roadmaps_as_created rt e r st :
  roadmaps_as_created st -> roadmaps_as_created (snd (dispatch rt e r st)).
Proof.
  intros Hinv.
  destruct (writes_roadmaps rt) eqn:Hw;
    [| eapply roadmaps_as_created_same;
       [apply dispatch_same_roadmaps; exact Hw | exact Hinv]].
  destruct (roadmap_rule rt) eqn:Hrule.
  { destruct (roadmap_rule_outcome rt e r st Hrule) as [-> _]. exact Hinv. }
  destruct rt; try discriminate.
  - destruct (dispatch POST_roadmaps e r st) as [resp st'] eqn:H. cbn [snd].
    destruct (create_roadmap_cases _ _ _ _ _ H) as [[-> _] | [_ Hok]];
      [exact Hinv |].
    destruct Hok as (t & d & data & owner & stored & nodes & _ & _ & _ & Hd
                     & _ & _ & -> & Hcb & _ & _ & _ & Hnodes & Hne & Hfresh).
    unfold roadmaps_as_created in *. rewrite Hd in Hinv. cbn [db roadmaps].
    apply Forall_app. split; [exact Hinv |].
    constructor; [| constructor]. exists owner, nodes. auto.
  - destruct (dispatch (DELETE_force roadmap_id) e r st) as [resp st'] eqn:H.
    cbn [snd].
    destruct (force_delete_cases _ _ _ _ _ _ H) as [[-> _] | [_ Hok]];
      [exact Hinv |].
    destruct Hok as (t & d & id & pre & doc & post & _ & _ & Hd & _ & Hcoll
                     & _ & _ & ->).
    unfold roadmaps_as_created in *. rewrite Hd in Hinv. cbn [db roadmaps].
    rewrite Hcoll in Hinv. apply Forall_app in Hinv as [Hpre Hpost].
    apply Forall_app. split; [exact Hpre |].
    inversion Hpost; assumption.
Qed.

(** X18: no node is ever completed.  When every stored roadmap has the
    shape [create_roadmap] gives it (an owner that is an ObjectId and a
    list of nodes that is not empty, each with [completed] False), then so
    it is after any sequence of requests: the only requests that change
    the roadmaps add one of that shape or remove one. *)
Theorem serve_keeps_roadmaps_as_created :
  forall (requests : list (route * Env * Request)) (st : State),
    roadmaps_as_created st -> roadmaps_as_created (serve requests st).
Proof.
  induction requests as [| [[rt e] r] rest IH]; intros st Hinv; cbn [serve].
  - exact Hinv.
  - apply IH. apply dispatch_keeps_roadmaps_as_created. exact Hinv.
Qed.

(** ** The two listings of roadmaps for an admin *)

(** X19: for a token whose role is admin and whose subject is a well-formed
    ObjectId, GET /api/admin/roadmaps and GET /api/roadmaps are answered
    alike and leave the same state, whatever the store holds: the admin
    listing shows nothing more than the common one. *)
Theorem admin_listing_is_the_listing_of_an_admin e r st t owner :
  authorization r = Some t ->
  role t = PStr "admin" ->
  ObjectId (sub t) = inr owner ->
  dispatch GET_admin_roadmaps e r st = dispatch GET_roadmaps e r st.
Proof.
  intros Ha Hr Ho.
  unfold dispatch, view_function, get_all_roadmaps_admin, get_roadmaps,
    admin_required, token_required, jwt_required.
  rewrite Ha. destruct (jwt_verify (now e) t); [| reflexivity].
  unfold get_jwt_identity, get_jwt, is_token_revoked. rewrite Ha. run.
  destruct (bool_decide (jti t ∈ token_blacklist st)); [reflexivity |].
  apply is_str_eq in Hr. rewrite Hr. cbn [negb].
  rewrite bind_identity. run. destruct (db st) as [d |]; [| reflexivity].
  unfold get_jwt. rewrite Ha. run. rewrite Ho, Hr. reflexivity.
Qed.

(** ** The profile *)

Lemma matches_id owner username email hashed user_role created id :
  matches (QEq "_id" (SObjectId owner))
          (user_document username email hashed user_role created id) = true ->
  id = owner.
Proof.
  unfold user_document. cbn. intros H. apply String.eqb_eq in H. congruence.
Qed.

(** X20: when the stored users have the shape [signup] gives them, a
    request to GET /api/auth/profile answered 200 shows a stored user
    whose [_id] is the ObjectId of the token's subject: the identifier as
    a string, the name, the email and the role as stored, the two dates
    in ISO format, and neither the password nor its hash. *)
Theorem get_profile_shows_the_subject e r st resp st' :
  users_unique st ->
  dispatch GET_profile e r st = (resp, st') ->
  status resp = 200 ->
  exists t d owner username email hashed user_role created,
    authorization r = Some t
    /\ db st = Some d
    /\ ObjectId (sub t) = inr owner
    /\ In (user_document username email hashed user_role created owner) (users d)
    /\ payload resp
       = Json (PDict [("user",
                       PDict [("id", PStr owner);
                              ("username", PStr username);
                              ("email", PStr email);
                              ("role", user_role);
                              ("created_at", PStr (isoformat created));
                              ("updated_at", PStr (isoformat created))])]) [].
Proof.
  intros Hu H Hs.
  unfold dispatch, view_function, get_profile, token_required, jwt_required in H.
  destruct (authorization r) as [t |] eqn:Ha;
    [| injection H as <- <-; discriminate].
  destruct (jwt_verify (now e) t) eqn:Hv; [| injection H as <- <-; discriminate].
  unfold get_jwt_identity, get_jwt, is_token_revoked in H. rewrite Ha in H.
  run_in H.
  destruct (bool_decide (jti t ∈ token_blacklist st));
    [injection H as <- <-; discriminate |].
  rewrite bind_identity in H. run_in H. unfold users_unique in Hu.
  destruct (db st) as [d |] eqn:Hd; [| injection H as <- <-; discriminate].
  destruct (ObjectId (sub t)) as [ex | owner] eqn:Ho;
    [injection H as <- <-; discriminate |].
  destruct (find_one (users d) (QEq "_id" (SObjectId owner))) as [user |] eqn:Hf;
    [| injection H as <- <-; discriminate].
  apply find_one_Some in Hf as [Hin Hm].
  destruct Hu as (Hshape & _).
  rewrite List.Forall_forall in Hshape.
  destruct (Hshape user Hin)
    as (username & email & hashed & user_role & created & id & ->).
  apply matches_id in Hm as ->.
  unfold isoformat_or_none, user_document, jsonify, jsonify_with in H.
  cbn [dict_get String.eqb Ascii.eqb Bool.eqb truthy] in H. run_in H.
  cbn [dict_get String.eqb Ascii.eqb Bool.eqb truthy py_str] in H. run_in H.
  destruct (serializable _) in H; run_in H; injection H as <- <-;
    [| discriminate].
  exists t, d, owner, username, email, hashed, user_role, created.
  repeat (split; [first [reflexivity | assumption] |]). reflexivity.
Qed.

(** ** Creating, then listing *)

Lemma filter_snoc_true (p : dict -> bool) (coll : collection) doc :
  p doc = true -> filter p (coll ++ [doc])%list = (filter p coll ++ [doc])%list.
Proof.
  intros Hp. unfold collection. rewrite filter_app, filter_cons, filter_nil.
  destruct (decide (p doc)) as [Hyes | Hno]; [reflexivity |].
  rewrite Hp in Hno. exfalso. apply Hno. exact I.
Qed.

Lemma stringify_listed_owner doc shown owner :
  stringify_listed doc = inr shown ->
  dict_get "created_by" doc = Some (PObjectId owner) ->
  dict_get "created_by" shown = Some (PStr owner).
Proof.
  unfold stringify_listed, stringify_id. intros H Hcb. run_in H.
  destruct (dict_get "_id" doc) as [id |]; [| discriminate]. run_in H.
  rewrite dict_get_dict_set in H. cbn [String.eqb Ascii.eqb Bool.eqb] in H.
  rewrite Hcb in H. injection H as <-.
  rewrite dict_get_dict_set. reflexivity.
Qed.

(** X21: creating and listing compose.  After a request to POST
    /api/roadmaps answered 201, a request to GET /api/roadmaps with a
    token of the same subject that is answered 200 lists the new roadmap
    last, with the subject as [created_by], whether or not it is public. *)
Theorem created_roadmap_listed_to_its_owner e r st resp st1 t e' r' t' resp' st2 :
  dispatch POST_roadmaps e r st = (resp, st1) ->
  status resp = 201 ->
  authorization r = Some t ->
  authorization r' = Some t' ->
  sub t' = sub t ->
  dispatch GET_roadmaps e' r' st1 = (resp', st2) ->
  status resp' = 200 ->
  exists owner listed shown,
    ObjectId (sub t) = inr owner
    /\ payload resp'
       = Json (PDict [("roadmaps", PList (map PDict (listed ++ [shown])%list))]) []
    /\ dict_get "created_by" shown = Some (PStr owner).
Proof.
  intros H Hs Ht Ht' Hsub H' Hs'.
  destruct (create_roadmap_cases _ _ _ _ _ H) as [[_ Hn] | [_ Hok]];
    [contradiction |].
  destruct Hok as (t0 & d & data & owner & stored & nodes & Ha & _ & _ & Hd
                   & _ & Ho & -> & Hcb & _).
  rewrite Ht in Ha. injection Ha as <-.
  destruct (get_roadmaps_listing _ _ _ _ _ H' Hs')
    as (u & d1 & owner' & listed & Hu & Hd1 & Ho' & -> & Hall).
  rewrite Ht' in Hu. injection Hu as <-. cbn [db] in Hd1. injection Hd1 as <-.
  rewrite Hsub, Ho in Ho'. injection Ho' as <-.
  cbn [roadmaps] in Hall. rewrite filter_snoc_true in Hall.
  - apply Forall2_app_inv_l in Hall as (shown_before & last & Hbefore & Hlast & ->).
    inversion Hlast as [| ? shown ? rest Hshown Hrest]; subst.
    inversion Hrest; subst.
    exists owner, shown_before, shown.
    split; [exact Ho |]. split; [reflexivity |].
    eapply stringify_listed_owner; eassumption.
  - unfold visible_to. rewrite Hcb. cbn [field_matches eq_scalar].
    rewrite String.eqb_refl. apply orb_true_r.
Qed.

End App.

(** * The application on the sample data *)

Local Abbreviation sample_verify := (spec_decode (SECRET_KEY default_config)).

Local Abbreviation sample_dispatch :=
  (dispatch default_config sample_verify sample_hashpw sample_checkpw
            sample_repr sample_isoformat sample_set).

Local Abbreviation sample_serve :=
  (serve default_config sample_verify sample_hashpw sample_checkpw
         sample_repr sample_isoformat sample_set).

(** The sample state after Alice logged out with the given token. *)
Local Abbreviation after_logout t :=
  (snd (sample_dispatch POST_logout sample_env (bearer t PNone) sample_state)).

(** ** Refresh after logout *)


(** ** Signup as admin *)

Lemma anonymous_signup_as_admin :
  exists v user_doc,
    sample_dispatch POST_signup sample_env
      (anonymous (PDict [("username", PStr "mallory");
                         ("email", PStr "Mallory@Example.com ");
                         ("password", PStr "Valid1Pass!");
                         ("role", PStr "admin")]))
      empty_state
    = (respond 201
         (Json v [("access_token",
                   {| sub := object_id sample_env; role := PStr "admin";
                      jti := "jti-5"; type := access; iat := 2000; exp := 5600;
                      key := "your-secret-key-here" |});
                  ("refresh_token",
                   {| sub := object_id sample_env; role := PStr "admin";
                      jti := "jti-6"; type := refresh; iat := 2000;
                      exp := 606800; key := "your-secret-key-here" |})]),
       {| db := Some {| users := [user_doc]; roadmaps := [] |};
          token_blacklist := ∅ |})
    /\ dict_get "role" user_doc = Some (PStr "admin")
    /\ dict_get "email" user_doc = Some (PStr "mallory@example.com").
Proof. eexists _, _. split; [vm_compute; reflexivity | split; reflexivity]. Qed.

Lemma signup_stores_supplied_role_witness :
  let r := anonymous (PDict [("username", PStr "mallory");
                             ("email", PStr "Mallory@Example.com ");
                             ("password", PStr "Valid1Pass!");
                             ("role", PStr "admin")]) in
  let outcome := sample_dispatch POST_signup sample_env r empty_state in
  exists (data : dict) (d : Database) (username email : string)
         (hashed : pyval),
    get_json r = inr (PDict data)
    /\ db empty_state = Some d
    /\ (let user_doc :=
          [("username", PStr username); ("email", PStr email);
           ("password", hashed); ("role", supplied_role data);
           ("created_at", PDatetime (now sample_env));
           ("updated_at", PDatetime (now sample_env));
           ("_id", PObjectId (object_id sample_env))] in
        snd outcome
        = {| db := Some {| users := (users d ++ [user_doc])%list;
                           roadmaps := roadmaps d |};
             token_blacklist := token_blacklist empty_state |}
        /\ dict_get "role" user_doc = Some (supplied_role data))
    /\ (exists v access_token refresh_token,
          payload (fst outcome) = Json v [("access_token", access_token);
                                          ("refresh_token", refresh_token)]
          /\ role access_token = supplied_role data
          /\ role refresh_token = supplied_role data)
    /\ (forall auth,
          sample_dispatch POST_signup sample_env
            {| authorization := auth; get_json := get_json r |} empty_state
          = (fst outcome, snd outcome)).
Proof.
  intros r outcome.
  apply (signup_stores_supplied_role default_config sample_verify sample_hashpw
           sample_checkpw sample_repr sample_isoformat sample_set
           sample_env r empty_state (snd outcome) (fst outcome)).
  - apply surjective_pairing.
  - vm_compute. reflexivity.
Defined.

(** ** Refresh with a stale role *)

(** The application with the verification [jwt_required()] performs. *)
Local Abbreviation library_verify :=
  (jwt_required_decode (SECRET_KEY default_config)).

Local Abbreviation library_dispatch :=
  (dispatch default_config library_verify sample_hashpw sample_checkpw
            sample_repr sample_isoformat sample_set).

(** Under any verification that refuses the tokens of type refresh, the
    refresh rule answers every refresh token with the rejection of the
    decorator and leaves the state as it was. *)
Lemma refresh_refuses_every_refresh_token :
  forall (config : Config) (verify : Z -> Token -> bool)
         (e : Env) (r : Request) (st : State) (t : Token),
    (forall t_now t', type t' = refresh -> verify t_now t' = false) ->
    authorization r = Some t ->
    type t = refresh ->
    dispatch config verify sample_hashpw sample_checkpw sample_repr
             sample_isoformat sample_set POST_refresh e r st
    = (jwt_rejection, st).
Proof.
  intros config verify e r st t Hlib Ha Ht.
  apply (refresh_token_refused config verify sample_hashpw sample_checkpw
           sample_repr sample_isoformat sample_set e r st t Ha).
  apply Hlib. exact Ht.
Qed.

(** C3, on the code: [refresh_token] is behind [jwt_required()] without
    [refresh=True], which admits access tokens only.  Alice's refresh
    token, signed and not expired, carries the role user while the store
    has her as admin: the refresh is refused by the decorator and no
    access token is issued, where the claim has a new access token with
    the role admin.  The refresh token of a user who is no longer stored
    is refused the same way, where the claim has 404.  What the claim says
    of refresh tokens the code does for access tokens: Alice's access
    token with the stale role is answered 200 with an access token whose
    role is admin, and the access token of the missing user 404. *)
Theorem refresh_refuses_refresh_tokens :
  (type alice_refresh = refresh
   /\ spec_decode (SECRET_KEY default_config) (now sample_env) alice_refresh = true
   /\ role alice_refresh = PStr "user"
   /\ find_one (users sample_database) (QEq "_id" (SObjectId alice_id))
      = Some (sample_user alice_id "alice" "alice@example.com" (PStr "admin"))
   /\ library_dispatch POST_refresh sample_env (bearer alice_refresh PNone)
                       sample_state
      = (jwt_rejection, sample_state)
   /\ payload jwt_rejection = JwtError
   /\ status jwt_rejection <> 200)
  /\ (type ghost_refresh = refresh
      /\ spec_decode (SECRET_KEY default_config) (now sample_env) ghost_refresh
         = true
      /\ find_one (users sample_database) (QEq "_id" (SObjectId ghost_id)) = None
      /\ library_dispatch POST_refresh sample_env (bearer ghost_refresh PNone)
                          sample_state
         = (jwt_rejection, sample_state)
      /\ status jwt_rejection <> 404)
  /\ (role alice_access = PStr "user"
      /\ library_dispatch POST_refresh sample_env (bearer alice_access PNone)
                          sample_state
         = (respond 200
              (Json (PDict [("message", PStr "Token refreshed successfully")])
                    [("access_token",
                      {| sub := alice_id; role := PStr "admin"; jti := "jti-5";
                         type := access; iat := 2000; exp := 5600;
                         key := "your-secret-key-here" |})]),
            sample_state)
      /\ library_dispatch POST_refresh sample_env (bearer ghost_access PNone)
                          sample_state
         = (error "User not found" 404, sample_state)).
Proof.
  split; [| split].
  - repeat split; try discriminate; vm_compute; reflexivity.
  - repeat split; try discriminate; vm_compute; reflexivity.
  - repeat split; vm_compute; reflexivity.
Qed.

(** With the verification [jwt_required()] performs, a logged-out access
    token is refused by a view behind [token_required] and still
    refreshes: the revocation set is not consulted by [refresh_token]. *)
Example refresh_accepts_logged_out_access_token :
  let st := snd (library_dispatch POST_logout sample_env
                                  (bearer alice_access PNone) sample_state) in
  library_verify (now sample_env) alice_access = true
  /\ library_dispatch GET_profile sample_env (bearer alice_access PNone) st
     = (error "Token has been revoked" 401, st)
  /\ exists new_access_token,
       library_dispatch POST_refresh sample_env (bearer alice_access PNone) st
       = (respond 200
            (Json (PDict [("message", PStr "Token refreshed successfully")])
                  [("access_token", new_access_token)]), st).
Proof.
  intros st. split; [vm_compute; reflexivity |].
  split; [vm_compute; reflexivity |].
  eexists. vm_compute. reflexivity.
Qed.

(** ** Revoked tokens *)

Lemma revoked_token_rejected_ever_after_witness :
  let st' :=
    sample_serve
      [(POST_login, sample_env,
        anonymous (PDict [("email", PStr "bob@example.com");
                          ("password", PStr "Valid1Pass!")]));
       (GET_roadmaps, sample_env, bearer root_access PNone)]
      (snd (revoke_token (jti bob_access) sample_state)) in
  token_required sample_verify (index) [] [] sample_env (bearer bob_access PNone) st'
  = (inr (error "Token has been revoked" 401), st')
  /\ admin_required sample_verify (index) [] [] sample_env (bearer bob_access PNone) st'
     = (inr (error "Token has been revoked" 401), st')
  /\ (forall rt, protected rt = true ->
        sample_dispatch rt sample_env (bearer bob_access PNone) st'
        = (error "Token has been revoked" 401, st')).
Proof.
  apply (revoked_token_rejected_ever_after default_config sample_verify
           sample_hashpw sample_checkpw sample_repr sample_isoformat sample_set
           sample_state (jti bob_access) _ index [] [] sample_env
           (bearer bob_access PNone) bob_access);
    vm_compute; reflexivity.
Defined.

(** ** Login *)


(** ** Admin-only operations *)

Lemma admin_required_allows_exactly_admin_witness :
  (role bob_access = PStr "admin" ->
     admin_required sample_verify index [] [] sample_env (bearer bob_access PNone)
                    sample_state
     = index [] [] sample_env (bearer bob_access PNone) sample_state)
  /\ (role bob_access <> PStr "admin" ->
        admin_required sample_verify index [] [] sample_env
                       (bearer bob_access PNone) sample_state
        = (inr (error "Admin access required" 403), sample_state))
  /\ (forall rt, admin_only rt = true ->
        (exists g view_args,
           view_function default_config sample_verify sample_hashpw
                         sample_checkpw sample_repr sample_isoformat sample_set rt
           = Some (admin_required sample_verify g, view_args))
        /\ (role bob_access <> PStr "admin" ->
              sample_dispatch rt sample_env (bearer bob_access PNone) sample_state
              = (error "Admin access required" 403, sample_state))).
Proof.
  apply (admin_required_allows_exactly_admin default_config sample_verify
           sample_hashpw sample_checkpw sample_repr sample_isoformat sample_set
           index [] [] sample_env (bearer bob_access PNone) sample_state
           bob_access).
  - reflexivity.
  - vm_compute. reflexivity.
  - apply not_elem_of_empty.
Defined.

(** Bob is refused the three admin-only operations, Alice's roadmap
    included; the admin is let through. *)
Lemma admin_only_samples :
  sample_dispatch GET_admin_users sample_env (bearer bob_access PNone) sample_state
  = (error "Admin access required" 403, sample_state)
  /\ sample_dispatch GET_admin_roadmaps sample_env (bearer bob_access PNone) sample_state
     = (error "Admin access required" 403, sample_state)
  /\ sample_dispatch (DELETE_force roadmap_id_1) sample_env (bearer alice_access PNone)
                     sample_state
     = (error "Admin access required" 403, sample_state)
  /\ fst (sample_dispatch (DELETE_force roadmap_id_1) sample_env
                          (bearer root_access PNone) sample_state)
     = message "Roadmap force deleted successfully by admin" 200.
Proof. repeat split; vm_compute; reflexivity. Qed.

(** ** Reading, updating and deleting a roadmap *)

(** C5, on the code: Alice's private roadmap is requested by Alice (its
    creator), by Bob (neither creator nor admin) and by an admin, each with
    a verified token that is not revoked.  All three are answered 500: the
    call of the view raises a TypeError before its body runs.  The body,
    called with its parameters by name, answers 200 to Alice, 404 to Bob
    and 200 to the admin. *)
Theorem get_roadmap_answers_500 :
  (sample_dispatch (GET_roadmap roadmap_id_1) sample_env
                   (bearer alice_access PNone) sample_state
   = (internal_error, sample_state)
   /\ sample_dispatch (GET_roadmap roadmap_id_1) sample_env
                      (bearer bob_access PNone) sample_state
      = (internal_error, sample_state)
   /\ sample_dispatch (GET_roadmap roadmap_id_1) sample_env
                      (bearer root_access PNone) sample_state
      = (internal_error, sample_state)
   /\ status internal_error = 500)
  /\ (exists b,
        get_roadmap_body sample_repr roadmap_id_1 alice_id sample_env
                         (bearer alice_access PNone) sample_state
        = (inr (respond 200 b), sample_state))
  /\ get_roadmap_body sample_repr roadmap_id_1 bob_id sample_env
                      (bearer bob_access PNone) sample_state
     = (inr (error "Roadmap not found or access denied" 404), sample_state)
  /\ (exists b,
        get_roadmap_body sample_repr roadmap_id_1 root_id sample_env
                         (bearer root_access PNone) sample_state
        = (inr (respond 200 b), sample_state)).
Proof.
  repeat split; try (vm_compute; reflexivity);
    eexists; vm_compute; reflexivity.
Qed.

(** C6, on the code: Bob, neither creator nor admin, sends PUT and DELETE
    for Alice's roadmap with a verified token that is not revoked: both
    are answered 500, not 403, by the TypeError of the call; the roadmap
    is left as it was.  Alice's own PUT and the admin's DELETE are answered
    500 as well.  The bodies, called with their parameters by name, answer
    403 to Bob. *)
Theorem update_and_delete_answer_500 :
  (sample_dispatch (PUT_roadmap roadmap_id_1) sample_env
                   (bearer bob_access (PDict [("title", PStr "mine")]))
                   sample_state
   = (internal_error, sample_state)
   /\ sample_dispatch (DELETE_roadmap roadmap_id_1) sample_env
                      (bearer bob_access PNone) sample_state
      = (internal_error, sample_state)
   /\ sample_dispatch (PUT_roadmap roadmap_id_1) sample_env
                      (bearer alice_access (PDict [("title", PStr "mine")]))
                      sample_state
      = (internal_error, sample_state)
   /\ sample_dispatch (DELETE_roadmap roadmap_id_1) sample_env
                      (bearer root_access PNone) sample_state
      = (internal_error, sample_state)
   /\ status internal_error = 500)
  /\ update_roadmap_body sample_repr sample_set roadmap_id_1 bob_id sample_env
                         (bearer bob_access (PDict [("title", PStr "mine")]))
                         sample_state
     = (inr (error "Access denied. Only owner or admin can update roadmap" 403),
        sample_state)
  /\ delete_roadmap_body sample_repr roadmap_id_1 bob_id sample_env
                         (bearer bob_access PNone) sample_state
     = (inr (error "Access denied. Only owner or admin can delete roadmap" 403),
        sample_state).
Proof. repeat split; vm_compute; reflexivity. Qed.

(** * Further properties on the sample data *)

(** The properties of the application at the sample collaborators. *)
Local Abbreviation on_sample property :=
  (property default_config sample_verify sample_hashpw sample_checkpw
            sample_repr sample_isoformat sample_set).

Lemma sample_users_stored_by_signup :
  Forall stored_by_signup (users sample_database).
Proof.
  repeat (constructor; [do 6 eexists; reflexivity |]). constructor.
Qed.

Lemma sample_state_users_unique : users_unique sample_state.
Proof.
  unfold users_unique. cbn [db sample_state users].
  split; [exact sample_users_stored_by_signup |].
  split; apply NoDup_ListNoDup;
    repeat (constructor; [cbn; intuition discriminate |]); constructor.
Qed.

Lemma sample_state_roadmaps_as_created : roadmaps_as_created sample_state.
Proof.
  unfold roadmaps_as_created. cbn [db sample_state roadmaps].
  constructor; [| constructor].
  eexists _, _. split; [reflexivity |]. split; [reflexivity |].
  split; [discriminate |].
  constructor; [| constructor]. eexists. split; reflexivity.
Qed.

Lemma reading_requests_change_nothing_witness :
  snd (sample_dispatch GET_roadmaps sample_env (bearer alice_access PNone)
                       sample_state)
  = sample_state.
Proof.
  apply (on_sample reading_requests_change_nothing GET_roadmaps sample_env
                   (bearer alice_access PNone) sample_state).
  reflexivity.
Defined.

Lemma signup_validates_normalizes_and_hashes_witness :
  exists (d : Database) (data : dict) (uname mail pw h : string),
    db empty_state = Some d
    /\ get_json mallory_signup = inr (PDict data)
    /\ dict_get "username" data = Some (PStr uname)
    /\ dict_get "email" data = Some (PStr mail)
    /\ dict_get "password" data = Some (PStr pw)
    /\ 3 <= len (strip uname)
    /\ 5 <= len (lower (strip mail))
    /\ substringb "@" (lower (strip mail)) = true
    /\ validate_password (PStr pw) = inr (true, "Password is valid")
    /\ find_one (users d)
         (QOr (QEq "username" (SStr (strip uname)))
              (QEq "email" (SStr (lower (strip mail))))) = None
    /\ sample_hashpw pw (salt sample_env) = inr h
    /\ snd (sample_dispatch POST_signup sample_env mallory_signup empty_state)
       = {| db := Some {| users :=
                            (users d ++
                             [user_document (strip uname) (lower (strip mail)) h
                                (supplied_role data) (now sample_env)
                                (object_id sample_env)])%list;
                          roadmaps := roadmaps d |};
            token_blacklist := token_blacklist empty_state |}.
Proof.
  apply (on_sample signup_validates_normalizes_and_hashes sample_env
                   mallory_signup empty_state _
                   (fst (sample_dispatch POST_signup sample_env mallory_signup
                                         empty_state))).
  - apply surjective_pairing.
  - vm_compute. reflexivity.
Defined.

Lemma rejected_signup_stores_nothing_witness :
  snd (sample_dispatch POST_signup sample_env weak_signup sample_state)
  = sample_state.
Proof.
  apply (on_sample rejected_signup_stores_nothing sample_env weak_signup
                   sample_state _
                   (fst (sample_dispatch POST_signup sample_env weak_signup
                                         sample_state))).
  - apply surjective_pairing.
  - intros v [= <-]. reflexivity.
  - vm_compute. discriminate.
Defined.

Lemma signup_refuses_stored_username_or_email_witness :
  exists msg,
    sample_dispatch POST_signup sample_env bob_signup sample_state
    = (error msg 409, sample_state)
    /\ ((forall doc, In doc (users sample_database) ->
           dict_get "email" doc <> Some (PStr (lower (strip "bob2@example.com")))) ->
        msg = "Username already exists")
    /\ ((forall doc, In doc (users sample_database) ->
           dict_get "username" doc <> Some (PStr (strip "bob"))) ->
        msg = "Email already exists").
Proof.
  apply (on_sample signup_refuses_stored_username_or_email sample_env bob_signup
                   sample_state sample_database
                   [("username", PStr "bob"); ("email", PStr "bob2@example.com");
                    ("password", PStr "Valid1Pass!")]
                   "bob" "bob2@example.com" "Valid1Pass!");
    try reflexivity; try (vm_compute; discriminate).
  - exact sample_users_stored_by_signup.
  - exists (sample_user bob_id "bob" "bob@example.com" (PStr "user")).
    split; [right; left; reflexivity | left; reflexivity].
Defined.

Lemma serve_keeps_users_unique_witness :
  users_unique
    (sample_serve [(POST_signup, sample_env, mallory_signup);
                   (POST_signup, sample_env, bob_signup);
                   (POST_roadmaps, sample_env, bearer bob_access new_roadmap)]
                  sample_state).
Proof.
  apply (on_sample serve_keeps_users_unique). exact sample_state_users_unique.
Defined.

Lemma login_issues_tokens_of_stored_user_witness :
  sample_dispatch POST_login sample_env bob_login sample_state
  = (respond 200
       (Json (PDict [("message", PStr "Login successful");
                     ("user", PDict [("id", PStr bob_id);
                                     ("username", PStr "bob");
                                     ("email", PStr "bob@example.com");
                                     ("role", PStr "user")])])
             [("access_token",
               {| sub := bob_id; role := PStr "user";
                  jti := jti_access sample_env; type := access;
                  iat := now sample_env;
                  exp := now sample_env + JWT_ACCESS_TOKEN_EXPIRES default_config;
                  key := SECRET_KEY default_config |});
              ("refresh_token",
               {| sub := bob_id; role := PStr "user";
                  jti := jti_refresh sample_env; type := refresh;
                  iat := now sample_env;
                  exp := now sample_env + JWT_REFRESH_TOKEN_EXPIRES default_config;
                  key := SECRET_KEY default_config |})]),
     sample_state).
Proof.
  apply (on_sample login_issues_tokens_of_stored_user sample_env bob_login
                   sample_state sample_database
                   [("email", PStr " Bob@Example.com");
                    ("password", PStr "Valid1Pass!")]
                   " Bob@Example.com" "Valid1Pass!" "bob" "bob@example.com"
                   "s$Valid1Pass!" bob_id (PStr "user") 1000);
    vm_compute; reflexivity.
Defined.

Lemma login_after_signup_witness :
  let st' := snd (sample_dispatch POST_signup sample_env mallory_signup
                                  empty_state) in
  exists v access_token refresh_token,
    sample_dispatch POST_login sample_env mallory_login st'
    = (respond 200 (Json v [("access_token", access_token);
                            ("refresh_token", refresh_token)]), st')
    /\ sub access_token = object_id sample_env
    /\ role access_token = PStr "admin"
    /\ sub refresh_token = object_id sample_env
    /\ role refresh_token = PStr "admin".
Proof.
  apply (on_sample login_after_signup sample_env sample_env mallory_signup
                   mallory_login empty_state _
                   (fst (sample_dispatch POST_signup sample_env mallory_signup
                                         empty_state))
                   [("username", PStr " mallory ");
                    ("email", PStr "Mallory@Example.com ");
                    ("password", PStr "Valid1Pass!");
                    ("role", PStr "admin")]
                   [("email", PStr "Mallory@Example.com ");
                    ("password", PStr "Valid1Pass!")]
                   "Mallory@Example.com " "Valid1Pass!");
    try reflexivity.
  intros h [= <-]. reflexivity.
Defined.

(** The sample state after Bob created the new roadmap. *)
Local Abbreviation after_create :=
  (snd (sample_dispatch POST_roadmaps sample_env (bearer bob_access new_roadmap)
                        sample_state)).

Lemma create_roadmap_stores_owned_roadmap_witness :
  exists t d data owner stored nodes,
    authorization (bearer bob_access new_roadmap) = Some t
    /\ sample_verify (now sample_env) t = true
    /\ (jti t ∉ token_blacklist sample_state)
    /\ db sample_state = Some d
    /\ get_json (bearer bob_access new_roadmap) = inr (PDict data)
    /\ ObjectId (sub t) = inr owner
    /\ after_create
       = {| db := Some {| users := users d;
                          roadmaps := (roadmaps d ++ [stored])%list |};
            token_blacklist := token_blacklist sample_state |}
    /\ dict_get "created_by" stored = Some (PObjectId owner)
    /\ dict_get "is_public" stored
       = Some (match dict_get "is_public" data with
               | Some v => v
               | None => PBool false
               end)
    /\ dict_get "created_at" stored = Some (PDatetime (now sample_env))
    /\ dict_get "updated_at" stored = Some (PDatetime (now sample_env))
    /\ dict_get "nodes" stored = Some (PList nodes)
    /\ nodes <> []
    /\ Forall fresh_node nodes.
Proof.
  apply (on_sample create_roadmap_stores_owned_roadmap sample_env
                   (bearer bob_access new_roadmap) sample_state
                   (fst (sample_dispatch POST_roadmaps sample_env
                                         (bearer bob_access new_roadmap)
                                         sample_state))).
  - apply surjective_pairing.
  - vm_compute. reflexivity.
Defined.

Lemma refused_create_stores_nothing_witness :
  snd (sample_dispatch POST_roadmaps sample_env
                       (bearer bob_access (PDict [("title", PStr "Flask")]))
                       sample_state)
  = sample_state.
Proof.
  apply (on_sample refused_create_stores_nothing sample_env
                   (bearer bob_access (PDict [("title", PStr "Flask")]))
                   sample_state
                   (fst (sample_dispatch POST_roadmaps sample_env
                           (bearer bob_access (PDict [("title", PStr "Flask")]))
                           sample_state))).
  - apply surjective_pairing.
  - vm_compute. discriminate.
Defined.

Lemma get_roadmaps_lists_public_or_own_witness :
  let outcome :=
    sample_dispatch GET_roadmaps sample_env (bearer bob_access PNone)
                    after_create in
  exists t d owner listed,
    authorization (bearer bob_access PNone) = Some t
    /\ db after_create = Some d
    /\ ObjectId (sub t) = inr owner
    /\ payload (fst outcome)
       = Json (PDict [("roadmaps", PList (map PDict listed))]) []
    /\ Forall2 (fun roadmap shown =>
                  stringify_listed sample_repr roadmap = inr shown)
         (filter (visible_to (is_str "admin" (role t)) owner) (roadmaps d))
         listed.
Proof.
  intros outcome.
  apply (on_sample get_roadmaps_lists_public_or_own sample_env
                   (bearer bob_access PNone) after_create (fst outcome)
                   (snd outcome)).
  - apply surjective_pairing.
  - vm_compute. reflexivity.
Defined.

Lemma private_roadmap_hidden_from_others_witness :
  fst (sample_dispatch GET_roadmaps sample_env (bearer alice_access PNone)
                       after_create)
  = fst (sample_dispatch GET_roadmaps sample_env (bearer alice_access PNone)
                         sample_state).
Proof.
  apply (on_sample private_roadmap_hidden_from_others sample_env
                   (bearer bob_access new_roadmap) sample_state
                   (fst (sample_dispatch POST_roadmaps sample_env
                                         (bearer bob_access new_roadmap)
                                         sample_state))
                   after_create bob_access sample_env
                   (bearer alice_access PNone) alice_access).
  - apply surjective_pairing.
  - vm_compute. reflexivity.
  - reflexivity.
  - intros data [= <-]. reflexivity.
  - reflexivity.
  - discriminate.
  - vm_compute. discriminate.
Defined.

Lemma force_delete_removes_first_match_witness :
  let outcome :=
    sample_dispatch (DELETE_force roadmap_id_1) sample_env
                    (bearer root_access PNone) sample_state in
  (status (fst outcome) <> 200 -> snd outcome = sample_state)
  /\ (status (fst outcome) = 200 ->
      exists t d id pre doc post,
        authorization (bearer root_access PNone) = Some t
        /\ role t = PStr "admin"
        /\ db sample_state = Some d
        /\ ObjectId roadmap_id_1 = inr id
        /\ roadmaps d = (pre ++ doc :: post)%list
        /\ field_matches (dict_get "_id" doc) (SObjectId id) = true
        /\ Forall (fun other =>
                    field_matches (dict_get "_id" other) (SObjectId id) = false)
             pre
        /\ snd outcome
           = {| db := Some {| users := users d;
                              roadmaps := (pre ++ post)%list |};
                token_blacklist := token_blacklist sample_state |}).
Proof.
  intros outcome.
  apply (on_sample force_delete_removes_first_match roadmap_id_1 sample_env
                   (bearer root_access PNone) sample_state (fst outcome)
                   (snd outcome)).
  apply surjective_pairing.
Defined.

Lemma get_all_users_hides_passwords_witness :
  exists d listed,
    db sample_state = Some d
    /\ payload (fst (sample_dispatch GET_admin_users sample_env
                                     (bearer root_access PNone) sample_state))
       = Json (PDict [("users", PList (map PDict listed))]) []
    /\ Forall2 shown_without_password (users d) listed.
Proof.
  apply (on_sample get_all_users_hides_passwords sample_env
                   (bearer root_access PNone) sample_state _
                   (snd (sample_dispatch GET_admin_users sample_env
                                         (bearer root_access PNone)
                                         sample_state))).
  - exact sample_state_users_unique.
  - apply surjective_pairing.
  - vm_compute. reflexivity.
Defined.

Lemma roadmap_rules_never_run_their_bodies_witness :
  let outcome :=
    sample_dispatch (PUT_toggle roadmap_id_1 "1") sample_env
                    (bearer alice_access PNone) sample_state in
  snd outcome = sample_state
  /\ (status (fst outcome) = 401 \/ fst outcome = internal_error).
Proof.
  apply (on_sample roadmap_rules_never_run_their_bodies
                   (PUT_toggle roadmap_id_1 "1") sample_env
                   (bearer alice_access PNone) sample_state).
  reflexivity.
Defined.

Lemma toggle_first_flips_one_node_witness :
  let differs other :=
    exists id, getitem other "id" = inr id /\ py_str sample_repr id <> "2" in
  exists pre fields id post,
    sample_nodes = (pre ++ PDict fields :: post)%list
    /\ Forall differs pre
    /\ dict_get "id" fields = Some id
    /\ py_str sample_repr id = "2"
    /\ [PDict [("id", PInt 1); ("completed", PBool true)];
        PDict [("id", PStr "2"); ("completed", PBool true)];
        PDict [("id", PStr "2"); ("completed", PBool false)]]
       = (pre ++ PDict (dict_set "completed"
                          (PBool (negb (truthy
                             (match dict_get "completed" fields with
                              | Some c => c
                              | None => PBool false
                              end))))
                          fields) :: post)%list.
Proof.
  apply (toggle_first_flips_one_node sample_repr "2" sample_nodes
           [PDict [("id", PInt 1); ("completed", PBool true)];
            PDict [("id", PStr "2"); ("completed", PBool true)];
            PDict [("id", PStr "2"); ("completed", PBool false)]]
           true).
  vm_compute. reflexivity.
Defined.

Lemma progress_counts_add_up_witness :
  let outcome :=
    get_roadmap_progress_body sample_repr roadmap_id_1 alice_id sample_env
                              (bearer alice_access PNone) sample_state in
  exists resp id total done pending,
    fst outcome = inr resp
    /\ payload resp
       = Json (PDict [("progress", PDict [
                 ("roadmap_id", PStr id);
                 ("total_nodes", PInt total);
                 ("completed_nodes", PInt (Z.of_nat (length done)));
                 ("progress_percentage",
                  if 0 <? total
                  then PFloat (Percentage (Z.of_nat (length done)) total)
                  else PInt 0);
                 ("completed_nodes_list", PList done);
                 ("pending_nodes_list", PList pending)])]) []
    /\ snd outcome = sample_state
    /\ Z.of_nat (length done) + Z.of_nat (length pending) = total
    /\ Forall (fun node => completed node = inr true) done
    /\ Forall (fun node => completed node = inr false) pending.
Proof.
  intros outcome.
  destruct (fst outcome) as [ex | resp] eqn:Hresp; [discriminate |].
  exists resp.
  destruct (progress_counts_add_up sample_repr roadmap_id_1 alice_id sample_env
              (bearer alice_access PNone) sample_state resp (snd outcome))
    as (id & total & done & pending & Hok).
  - rewrite <- Hresp. apply surjective_pairing.
  - injection Hresp as <-. reflexivity.
  - exists id, total, done, pending. split; [reflexivity | exact Hok].
Defined.

Lemma serve_keeps_roadmaps_as_created_witness :
  roadmaps_as_created
    (sample_serve [(POST_roadmaps, sample_env, bearer bob_access new_roadmap);
                   (PUT_toggle roadmap_id_1 "1", sample_env,
                    bearer alice_access PNone);
                   (DELETE_force roadmap_id_1, sample_env,
                    bearer root_access PNone)]
                  sample_state).
Proof.
  apply (on_sample serve_keeps_roadmaps_as_created).
  exact sample_state_roadmaps_as_created.
Defined.

Lemma admin_listing_is_the_listing_of_an_admin_witness :
  sample_dispatch GET_admin_roadmaps sample_env (bearer root_access PNone)
                  sample_state
  = sample_dispatch GET_roadmaps sample_env (bearer root_access PNone)
                    sample_state.
Proof.
  apply (on_sample admin_listing_is_the_listing_of_an_admin sample_env
                   (bearer root_access PNone) sample_state root_access root_id);
    reflexivity.
Defined.

Lemma get_profile_shows_the_subject_witness :
  exists t d owner username email hashed user_role created,
    authorization (bearer bob_access PNone) = Some t
    /\ db sample_state = Some d
    /\ ObjectId (sub t) = inr owner
    /\ In (user_document username email hashed user_role created owner) (users d)
    /\ payload (fst (sample_dispatch GET_profile sample_env
                                     (bearer bob_access PNone) sample_state))
       = Json (PDict [("user",
                       PDict [("id", PStr owner);
                              ("username", PStr username);
                              ("email", PStr email);
                              ("role", user_role);
                              ("created_at", PStr (sample_isoformat created));
                              ("updated_at", PStr (sample_isoformat created))])])
              [].
Proof.
  apply (on_sample get_profile_shows_the_subject sample_env
                   (bearer bob_access PNone) sample_state _
                   (snd (sample_dispatch GET_profile sample_env
                                         (bearer bob_access PNone) sample_state))).
  - exact sample_state_users_unique.
  - apply surjective_pairing.
  - vm_compute. reflexivity.
Defined.

Lemma created_roadmap_listed_to_its_owner_witness :
  exists owner listed shown,
    ObjectId (sub bob_access) = inr owner
    /\ payload (fst (sample_dispatch GET_roadmaps sample_env
                                     (bearer bob_access PNone) after_create))
       = Json (PDict [("roadmaps",
                       PList (map PDict (listed ++ [shown])%list))]) []
    /\ dict_get "created_by" shown = Some (PStr owner).
Proof.
  apply (on_sample created_roadmap_listed_to_its_owner sample_env
                   (bearer bob_access new_roadmap) sample_state
                   (fst (sample_dispatch POST_roadmaps sample_env
                                         (bearer bob_access new_roadmap)
                                         sample_state))
                   after_create bob_access sample_env (bearer bob_access PNone)
                   bob_access _
                   (snd (sample_dispatch GET_roadmaps sample_env
                                         (bearer bob_access PNone) after_create))).
  - apply surjective_pairing.
  - vm_compute. reflexivity.
  - reflexivity.
  - reflexivity.
  - reflexivity.
  - apply surjective_pairing.
  - vm_compute. reflexivity.
Defined.
